(** * Ecommerce test automation tool: per-page checks and verdicts

    A shallow embedding of the three checking modules of the tool
    (ProductPageTester, ImageValidator, ErrorDetector) and of the
    per-page runner that combines them, together with the properties of
    the specification that concern them.

    The browser is an external collaborator.  Every call into it
    ([page.$], [page.evaluate], ...) is an oracle whose answer is part of
    the input: it either completes with a value or rejects with an
    exception.  Code of the tool itself (loops, try/catch, the bookkeeping
    on [this.results]) is embedded as written. *)

From Stdlib Require Import ZArith NArith QArith List Bool Lia String Ascii DecimalString.
From stdpp Require Import base option list gmap.
Import ListNotations.


(* ===================================================================== *)
(** * JavaScript values and control flow *)
(* ===================================================================== *)

Module JS.

(** A JavaScript string is a sequence of UTF-16 code units. *)
Definition jsstring := list N.

(** ASCII literals of the source. *)
Definition lit (s : string) : jsstring :=
  List.map N_of_ascii (list_ascii_of_string s).

(** [s.length] *)
Definition strlen (s : jsstring) : Z := Z.of_nat (List.length s).

(** [s === t] on strings. *)
Definition streq (s t : jsstring) : bool := bool_decide (s = t).

(** [s.startsWith(p)] *)
Fixpoint startsWith (s p : jsstring) : bool :=
  match p, s with
  | [], _ => true
  | _ :: _, [] => false
  | c :: p', d :: s' => N.eqb c d && startsWith s' p'
  end.

(** [s.includes(p)] *)
Fixpoint includes (s p : jsstring) : bool :=
  startsWith s p ||
  match s with
  | [] => false
  | _ :: s' => includes s' p
  end.

(** WhiteSpace and LineTerminator code units, the ones [trim] strips. *)
Definition isWhiteSpace (c : N) : bool :=
  ((9 <=? c) && (c <=? 13) || (c =? 32) || (c =? 160) || (c =? 5760)
   || (8192 <=? c) && (c <=? 8202) || (c =? 8232) || (c =? 8233)
   || (c =? 8239) || (c =? 8287) || (c =? 12288) || (c =? 65279))%N.

Fixpoint trimStart (s : jsstring) : jsstring :=
  match s with
  | c :: s' => if isWhiteSpace c then trimStart s' else s
  | [] => []
  end.

Definition trimEnd (s : jsstring) : jsstring := rev (trimStart (rev s)).

(** [s.trim()] *)
Definition trim (s : jsstring) : jsstring := trimEnd (trimStart s).

(** [String(n)] for an integer [n]. *)
Definition numToString (n : Z) : jsstring :=
  lit (DecimalString.NilZero.string_of_int (Z.to_int n)).

(** A thrown value; only [message] and [stack] are ever read. *)
Record Exn := mkExn { message : jsstring; stack : jsstring }.

(** How the evaluation of a statement or of an awaited promise ends. *)
Inductive Completion (A : Type) : Type :=
| Normal (a : A)
| Throw (e : Exn).
Arguments Normal {A} a.
Arguments Throw {A} e.

(** Code that reads and writes a state [S] and may throw.  The state
    reached when the exception is thrown is kept: assignments made in a
    [try] block before the throw are visible in the [catch] handler and
    after it. *)
Definition Op (S A : Type) : Type := S -> Completion A * S.

Definition ret {S A} (a : A) : Op S A := fun s => (Normal a, s).

Definition throw {S A} (e : Exn) : Op S A := fun s => (Throw e, s).

Definition bind {S A B} (c : Op S A) (k : A -> Op S B) : Op S B :=
  fun s =>
    match c s with
    | (Normal a, s') => k a s'
    | (Throw e, s') => (Throw e, s')
    end.

(** [await] of a call into the browser: the oracle's answer. *)
Definition await {S A} (c : Completion A) : Op S A := fun s => (c, s).

Definition get {S} : Op S S := fun s => (Normal s, s).

Definition modify {S} (f : S -> S) : Op S unit := fun s => (Normal tt, f s).

(** [try { c } catch (error) { h error }] *)
Definition try_catch {S A} (c : Op S A) (h : Exn -> Op S A) : Op S A :=
  fun s =>
    match c s with
    | (Normal a, s') => (Normal a, s')
    | (Throw e, s') => h e s'
    end.

(** [try { c } finally { f }]: [f] runs on both exits; if [f] throws,
    its exception replaces the completion of [c]. *)
Definition try_finally {S A} (c : Op S A) (f : Op S unit) : Op S A :=
  fun s =>
    let '(r, s') := c s in
    match f s' with
    | (Normal _, s'') => (r, s'')
    | (Throw e, s'') => (Throw e, s'')
    end.

(** How one iteration of a loop body ends. *)
Inductive LoopCtl := Break | Continue.

(** [for (const x of xs) { body x }] *)
Fixpoint for_of {S A} (xs : list A) (body : A -> Op S LoopCtl) : Op S unit :=
  match xs with
  | [] => ret tt
  | x :: rest =>
      bind (body x) (fun ctl =>
        match ctl with
        | Break => ret tt
        | Continue => for_of rest body
        end)
  end.

(** Method-local [let] variables [L] next to the object state [R]. *)
Definition getL {L R} : Op (L * R) L := fun s => (Normal (fst s), s).
Definition setL {L R} (f : L -> L) : Op (L * R) unit :=
  fun s => (Normal tt, (f (fst s), snd s)).
Definition getR {L R} : Op (L * R) R := fun s => (Normal (snd s), s).
Definition setR {L R} (f : R -> R) : Op (L * R) unit :=
  fun s => (Normal tt, (fst s, f (snd s))).

(** A method body with locals initialised to [l0], run on the object. *)
Definition with_locals {L R A} (l0 : L) (c : Op (L * R) A) : Op R A :=
  fun r => let '(a, (_, r')) := c (l0, r) in (a, r').

End JS.

Export JS.

Declare Scope js_scope.
Delimit Scope js_scope with js.
Notation "'let*' x ':=' c 'in' k" := (bind c (fun x => k))
  (at level 10, x name, c at level 100, k at level 200, only parsing) : js_scope.
Notation "c >> k" := (bind c (fun _ => k))
  (at level 100, k at level 200, right associativity, only parsing) : js_scope.
Open Scope js_scope.

(* ===================================================================== *)
(** * ProductPageTester (structural checks of one product page) *)
(* ===================================================================== *)

Module ProductPageTester.

(** What the page functions passed to [page.evaluate] read from a node. *)
Record Node := mkNode {
  textContent : option jsstring;   (* [None] is [null] *)
  rectWidth : Q;                   (* [getBoundingClientRect().width] *)
  rectHeight : Q;
  disabled : bool
}.

(** An element handle returned by a query.  [rejects k] tells whether
    the [k]-th [page.evaluate] call made on the handle is rejected. *)
Record ElementHandle := mkHandle {
  node : Node;
  rejects : nat -> option Exn
}.

(** [await this.page.evaluate(f, el)], the [k]-th call on [el]. *)
Definition evaluate {S A} (f : Node -> A) (el : ElementHandle) (k : nat)
  : Op S A :=
  await (match rejects el k with
         | Some e => Throw e
         | None => Normal (f (node el))
         end).

(** The page as seen by one run of the checks. *)
Record Page := mkPage {
  query : jsstring -> Completion (option ElementHandle);        (* [page.$] *)
  waitForSelector : jsstring -> Completion (option ElementHandle);
  queryAll : jsstring -> Completion (list ElementHandle);       (* [page.$$] *)
  title : Completion jsstring;                                   (* [page.title()] *)
  metaContent : Completion jsstring;  (* [page.$eval('meta[name="description"]', el => el.content)] *)
  loadWait : option Exn   (* the exception, if any, leaving the [try] block of [waitForPageLoad] *)
}.

(** Ordered candidate selectors of one platform ([config.selectors[platform]]). *)
Record Selectors := mkSelectors {
  productTitle : list jsstring;
  productPrice : option (list jsstring);   (* [None] is [undefined] *)
  productDescription : list jsstring;
  addToCart : list jsstring;
  productImage : list jsstring;
  productVariant : list jsstring
}.

(** An entry of [results.errors] or [results.warnings]. *)
Record Issue := mkIssue {
  issue_type : jsstring;
  issue_element : option jsstring;
  issue_message : jsstring;
  issue_selectors : option (list jsstring);
  issue_error : option jsstring
}.

(** An entry of [results.elements]; absent properties are [None]. *)
Record ElementInfo := mkInfo {
  found : bool;
  selector : option jsstring;
  text : option jsstring;
  visible : option bool;
  enabled : option bool;
  count : option nat
}.

Definition notFound : ElementInfo := mkInfo false None None None None None.

Record Meta := mkMeta {
  meta_title : option jsstring;
  meta_description : option jsstring
}.

Record Elements := mkElements {
  e_title : option ElementInfo;
  e_price : option ElementInfo;
  e_description : option ElementInfo;
  e_addToCart : option ElementInfo;
  e_images : option ElementInfo;
  e_variants : option ElementInfo;
  e_meta : option Meta
}.

(** [this.results] *)
Record Results := mkResults {
  passed : bool;
  errors : list Issue;
  warnings : list Issue;
  elements : Elements
}.

(** [this.results] as the constructor leaves it. *)
Definition initial : Results :=
  mkResults true [] [] (mkElements None None None None None None None).

Definition push_error (i : Issue) (r : Results) : Results :=
  mkResults (passed r) (errors r ++ [i]) (warnings r) (elements r).

Definition push_warning (i : Issue) (r : Results) : Results :=
  mkResults (passed r) (errors r) (warnings r ++ [i]) (elements r).

Definition set_elements (f : Elements -> Elements) (r : Results) : Results :=
  mkResults (passed r) (errors r) (warnings r) (f (elements r)).

Definition set_passed (b : bool) (r : Results) : Results :=
  mkResults b (errors r) (warnings r) (elements r).

Definition set_title (i : ElementInfo) (e : Elements) : Elements :=
  mkElements (Some i) (e_price e) (e_description e) (e_addToCart e)
             (e_images e) (e_variants e) (e_meta e).
Definition set_price (i : ElementInfo) (e : Elements) : Elements :=
  mkElements (e_title e) (Some i) (e_description e) (e_addToCart e)
             (e_images e) (e_variants e) (e_meta e).
Definition set_description (i : ElementInfo) (e : Elements) : Elements :=
  mkElements (e_title e) (e_price e) (Some i) (e_addToCart e)
             (e_images e) (e_variants e) (e_meta e).
Definition set_addToCart (i : ElementInfo) (e : Elements) : Elements :=
  mkElements (e_title e) (e_price e) (e_description e) (Some i)
             (e_images e) (e_variants e) (e_meta e).
Definition set_images (i : ElementInfo) (e : Elements) : Elements :=
  mkElements (e_title e) (e_price e) (e_description e) (e_addToCart e)
             (Some i) (e_variants e) (e_meta e).
Definition set_variants (i : ElementInfo) (e : Elements) : Elements :=
  mkElements (e_title e) (e_price e) (e_description e) (e_addToCart e)
             (e_images e) (Some i) (e_meta e).
Definition set_meta (m : Meta) (e : Elements) : Elements :=
  mkElements (e_title e) (e_price e) (e_description e) (e_addToCart e)
             (e_images e) (e_variants e) (Some m).

(** [el => el.textContent?.trim()]; [None] is [undefined]. *)
Definition trimmedText (n : Node) : option jsstring :=
  match textContent n with
  | Some s => Some (trim s)
  | None => None
  end.

(** [el => { const rect = el.getBoundingClientRect();
             return rect.width > 0 && rect.height > 0; }] *)
Definition hasBox (n : Node) : bool :=
  negb (Qle_bool (rectWidth n) 0) && negb (Qle_bool (rectHeight n) 0).

(** [el => !el.disabled] *)
Definition notDisabled (n : Node) : bool := negb (disabled n).

(** [titleText && titleText.length > 0] *)
Definition nonEmptyText (t : option jsstring) : bool :=
  match t with
  | Some s => negb (bool_decide (s = [])) && (0 <? strlen s)%Z
  | None => false
  end.

(** [/\$|€|£|¥|\d/.test(s)] *)
Definition isPriceUnit (c : N) : bool :=
  ((c =? 36) || (c =? 8364) || (c =? 163) || (c =? 165)
   || (48 <=? c) && (c <=? 57))%N.

Definition priceRegexTest (s : jsstring) : bool := existsb isPriceUnit s.

(** [priceText && (/\$|€|£|¥|\d/.test(priceText))] *)
Definition looksLikePrice (t : option jsstring) : bool :=
  match t with
  | Some s => negb (bool_decide (s = [])) && priceRegexTest s
  | None => false
  end.

(** [descriptionText && descriptionText.length > 10] *)
Definition longEnoughText (t : option jsstring) : bool :=
  match t with
  | Some s => negb (bool_decide (s = [])) && (10 <? strlen s)%Z
  | None => false
  end.

(** ** waitForPageLoad *)

(** The [try] block polls the page under a wall-clock bound; what it
    leaves behind is only whether an exception came out of it. *)
Definition waitForPageLoad (page : Page) : Op Results unit :=
  try_catch
    (await (match loadWait page with
            | Some e => Throw e
            | None => Normal tt
            end))
    (fun error =>
       modify (push_warning
         (mkIssue (lit "page_load") None
            (lit "Page did not reach networkidle state within timeout")
            None (Some (message error))))).

(** ** testProductTitle *)

Record TitleLocals := mkTitleLocals {
  titleFound : bool;
  titleText : option jsstring
}.

Definition titleBody (page : Page) (selector : jsstring)
  : Op (TitleLocals * Results) LoopCtl :=
  try_catch
    (let* element := await (query page selector) in
     match element with
     | Some el =>
         let* t := evaluate trimmedText el 0 in
         setL (fun l => mkTitleLocals (titleFound l) t) >>
         if nonEmptyText t then
           setL (fun l => mkTitleLocals true (titleText l)) >>
           setR (set_elements (set_title
                   (mkInfo true (Some selector) t None None None))) >>
           ret Break
         else ret Continue
     | None => ret Continue
     end)
    (fun error => ret Continue).

Definition testProductTitle (page : Page) (sel : Selectors) : Op Results unit :=
  with_locals (mkTitleLocals false (Some []))
    (for_of (productTitle sel) (titleBody page) >>
     let* l := getL in
     if negb (titleFound l) then
       setR (push_error
               (mkIssue (lit "critical") (Some (lit "product_title"))
                  (lit "Product title not found on page")
                  (Some (productTitle sel)) None)) >>
       setR (set_elements (set_title notFound))
     else ret tt).

(** ** testProductPrice *)

Record PriceLocals := mkPriceLocals {
  priceFound : bool;
  priceText : option jsstring
}.

Definition defaultPriceSelectors : list jsstring :=
  [lit "[data-testid=" ++ [34%N] ++ lit "product-price" ++ [34%N] ++ lit "]";
   lit ".price"; lit "[data-price]"].

(** [this.selectors.productPrice || [...]] *)
Definition priceSelectors (sel : Selectors) : list jsstring :=
  match productPrice sel with
  | Some l => l
  | None => defaultPriceSelectors
  end.

Definition priceBody (page : Page) (selector : jsstring)
  : Op (PriceLocals * Results) LoopCtl :=
  try_catch
    (let* element := await (waitForSelector page selector) in
     match element with
     | Some el =>
         let* t := evaluate trimmedText el 0 in
         setL (fun l => mkPriceLocals (priceFound l) t) >>
         if looksLikePrice t then
           setL (fun l => mkPriceLocals true (priceText l)) >>
           setR (set_elements (set_price
                   (mkInfo true (Some selector) t None None None))) >>
           ret Break
         else ret Continue
     | None => ret Continue
     end)
    (fun error => ret Continue).

Definition testProductPrice (page : Page) (sel : Selectors) : Op Results unit :=
  with_locals (mkPriceLocals false (Some []))
    (let selectors := priceSelectors sel in
     for_of selectors (priceBody page) >>
     let* l := getL in
     if negb (priceFound l) then
       setR (push_error
               (mkIssue (lit "critical") (Some (lit "product_price"))
                  (lit "Product price not found on page")
                  (Some selectors) None)) >>
       setR (set_elements (set_price notFound))
     else ret tt).

(** ** testProductDescription *)

Record DescriptionLocals := mkDescriptionLocals {
  descriptionFound : bool;
  descriptionText : option jsstring
}.

Definition descriptionBody (page : Page) (selector : jsstring)
  : Op (DescriptionLocals * Results) LoopCtl :=
  try_catch
    (let* element := await (query page selector) in
     match element with
     | Some el =>
         let* t := evaluate trimmedText el 0 in
         setL (fun l => mkDescriptionLocals (descriptionFound l) t) >>
         if longEnoughText t then
           setL (fun l => mkDescriptionLocals true (descriptionText l)) >>
           setR (set_elements (set_description
                   (mkInfo true (Some selector) None None None None))) >>
           ret Break
         else ret Continue
     | None => ret Continue
     end)
    (fun error => ret Continue).

Definition testProductDescription (page : Page) (sel : Selectors)
  : Op Results unit :=
  with_locals (mkDescriptionLocals false (Some []))
    (for_of (productDescription sel) (descriptionBody page) >>
     let* l := getL in
     if negb (descriptionFound l) then
       setR (push_warning
               (mkIssue (lit "warning") (Some (lit "product_description"))
                  (lit "Product description not found or too short")
                  (Some (productDescription sel)) None)) >>
       setR (set_elements (set_description notFound))
     else ret tt).

(** ** testAddToCartButton *)

Record ButtonLocals := mkButtonLocals {
  buttonFound : bool;
  buttonVisible : bool;
  buttonEnabled : bool
}.

Definition buttonBody (page : Page) (selector : jsstring)
  : Op (ButtonLocals * Results) LoopCtl :=
  try_catch
    (let* element := await (query page selector) in
     match element with
     | Some el =>
         setL (fun l => mkButtonLocals true (buttonVisible l) (buttonEnabled l)) >>
         let* isVisible := evaluate hasBox el 0 in
         let* isEnabled := evaluate notDisabled el 1 in
         (if isVisible
          then setL (fun l => mkButtonLocals (buttonFound l) true (buttonEnabled l))
          else ret tt) >>
         (if isEnabled
          then setL (fun l => mkButtonLocals (buttonFound l) (buttonVisible l) true)
          else ret tt) >>
         setR (set_elements (set_addToCart
                 (mkInfo true (Some selector) None
                         (Some isVisible) (Some isEnabled) None))) >>
         ret Break
     | None => ret Continue
     end)
    (fun error => ret Continue).

Definition testAddToCartButton (page : Page) (sel : Selectors)
  : Op Results unit :=
  with_locals (mkButtonLocals false false false)
    (for_of (addToCart sel) (buttonBody page) >>
     let* l := getL in
     if negb (buttonFound l) then
       setR (push_error
               (mkIssue (lit "critical") (Some (lit "add_to_cart_button"))
                  (lit "Add to cart button not found on page")
                  (Some (addToCart sel)) None)) >>
       setR (set_elements (set_addToCart notFound))
     else if negb (buttonVisible l) then
       setR (push_error
               (mkIssue (lit "critical") (Some (lit "add_to_cart_button"))
                  (lit "Add to cart button is not visible") None None))
     else if negb (buttonEnabled l) then
       setR (push_warning
               (mkIssue (lit "warning") (Some (lit "add_to_cart_button"))
                  (lit "Add to cart button is disabled (product may be out of stock)")
                  None None))
     else ret tt).

(** ** testProductImages *)

Definition imagesBody (page : Page) (selector : jsstring)
  : Op (bool * Results) LoopCtl :=
  try_catch
    (let* images := await (queryAll page selector) in
     if (0 <? List.length images)%nat then
       setL (fun _ => true) >>
       setR (set_elements (set_images
               (mkInfo true (Some selector) None None None
                       (Some (List.length images))))) >>
       ret Break
     else ret Continue)
    (fun error => ret Continue).

Definition testProductImages (page : Page) (sel : Selectors) : Op Results unit :=
  with_locals false
    (for_of (productImage sel) (imagesBody page) >>
     let* imageFound := getL in
     if negb imageFound then
       setR (push_warning
               (mkIssue (lit "warning") (Some (lit "product_images"))
                  (lit "No product images found with standard selectors")
                  (Some (productImage sel)) None)) >>
       setR (set_elements (set_images notFound))
     else ret tt).

(** ** testProductVariants *)

Definition variantsBody (page : Page) (selector : jsstring)
  : Op (bool * Results) LoopCtl :=
  try_catch
    (let* variants := await (queryAll page selector) in
     if (0 <? List.length variants)%nat then
       setL (fun _ => true) >>
       setR (set_elements (set_variants
               (mkInfo true (Some selector) None None None
                       (Some (List.length variants))))) >>
       ret Break
     else ret Continue)
    (fun error => ret Continue).

Definition testProductVariants (page : Page) (sel : Selectors) : Op Results unit :=
  with_locals false
    (for_of (productVariant sel) (variantsBody page) >>
     let* variantFound := getL in
     if (variantFound : bool) then
       (* [elements.variants = elements.variants || { found: false }] *)
       setR (set_elements (fun e =>
               match e_variants e with
               | Some v => set_variants v e
               | None => set_variants notFound e
               end))
     else ret tt).

(** ** testMetaInformation *)

(** [s || null] on a string or [null]: the empty string is falsy. *)
Definition orNull (s : option jsstring) : option jsstring :=
  match s with
  | Some [] => None
  | _ => s
  end.

Definition metaWarning (element msg : string) : Issue :=
  mkIssue (lit "warning") (Some (lit element)) (lit msg) None None.

Definition testMetaInformation (page : Page) : Op Results unit :=
  try_catch
    (let* pageTitle := await (title page) in
     let* metaDescription :=
       try_catch (let* c := await (metaContent page) in ret (Some c))
                 (fun _ => ret None) in
     modify (set_elements (set_meta
               (mkMeta (orNull (Some pageTitle)) (orNull metaDescription)))) >>
     (if bool_decide (pageTitle = ([] : jsstring)) || (strlen pageTitle <? 5)%Z then
        modify (push_warning
          (metaWarning "meta_title" "Page title is missing or too short"))
      else ret tt) >>
     match orNull metaDescription with
     | Some _ => ret tt
     | None =>
         modify (push_warning
           (metaWarning "meta_description" "Meta description is missing"))
     end)
    (fun error =>
       modify (push_warning
         (mkIssue (lit "warning") (Some (lit "meta_information"))
            (lit "Error checking meta information: " ++ message error)
            None None))).

(** ** test *)

Definition test (page : Page) (sel : Selectors) : Op Results Results :=
  waitForPageLoad page >>
  testProductTitle page sel >>
  testProductPrice page sel >>
  testProductDescription page sel >>
  testAddToCartButton page sel >>
  testProductImages page sel >>
  testProductVariants page sel >>
  testMetaInformation page >>
  modify (fun r => set_passed (bool_decide (List.length (errors r) = 0%nat)) r) >>
  get.

End ProductPageTester.

(* ===================================================================== *)
(** * ImageValidator (image loading checks) *)
(* ===================================================================== *)

Module ImageValidator.

(** An [<img>] node as [getAllImages] reads it in the page. *)
Record DomImg := mkDomImg {
  dom_src : jsstring;
  dom_currentSrc : jsstring;
  dom_alt : jsstring;
  dom_naturalWidth : Z;
  dom_width : Z;
  dom_naturalHeight : Z;
  dom_height : Z;
  dom_complete : bool;
  dom_loading : jsstring
}.

(** The plain object [getAllImages] returns for one image. *)
Record Img := mkImg {
  src : jsstring;
  currentSrc : jsstring;
  alt : jsstring;
  width : Z;
  height : Z;
  complete : bool;
  loading : jsstring
}.

(** [a || b] on strings and on numbers. *)
Definition strOr (a b : jsstring) : jsstring :=
  match a with [] => b | _ => a end.
Definition numOr (a b : Z) : Z := if (a =? 0)%Z then b else a.

Definition describe (img : DomImg) : Img :=
  mkImg (dom_src img) (dom_currentSrc img)
        (strOr (dom_alt img) [])
        (numOr (dom_naturalWidth img) (dom_width img))
        (numOr (dom_naturalHeight img) (dom_height img))
        (dom_complete img)
        (strOr (dom_loading img) (lit "eager")).

(** An intercepted response kept in [imageResponses]. *)
Record Response := mkResponse {
  resp_status : Z;
  resp_url : jsstring
}.

(** What [fetch(url, { method: 'HEAD', mode: 'no-cors' })] does in the page. *)
Inductive FetchOutcome :=
| Fetched (status : Z) (ok : bool)
| FetchFailed (e : Exn).

(** The object the probe's page function returns. *)
Record Probe := mkProbe {
  probe_status : Z;
  probe_ok : bool;
  probe_error : option jsstring
}.

Definition probeResult (o : FetchOutcome) : Probe :=
  match o with
  | Fetched status ok => mkProbe (numOr status 200) ok None
  | FetchFailed e => mkProbe 0 false (Some (message e))
  end.

(** The page and configuration as seen by one run of [validate]. *)
Record Page := mkPage {
  imageResponses : gmap jsstring Response;
    (* responses intercepted by the time the images are validated *)
  initialImages : Completion (list DomImg);      (* first [getAllImages] *)
  fetchHead : jsstring -> Completion FetchOutcome;
    (* [page.evaluate] of the probe; [Throw] when [evaluate] itself rejects *)
  scrollHeight : Completion Z;                   (* [document.body.scrollHeight] *)
  viewportHeight : Z;        (* [config.browser.defaultViewport.height] *)
  scrollTo : Z -> option Exn;                    (* [window.scrollTo(0, y)] *)
  imagesAt : Z -> Completion (list DomImg);      (* [getAllImages] after scrolling to [y] *)
  scrollBack : option Exn                        (* the final [window.scrollTo(0, 0)] *)
}.

(** [imageInfo] *)
Record ImageInfo := mkImageInfo {
  info_src : jsstring;
  info_alt : jsstring;
  info_width : Z;
  info_height : Z;
  loaded : bool;
  status : option Z;          (* [None] is [null] *)
  error : option jsstring
}.

Record AltEntry := mkAltEntry {
  alt_src : jsstring;
  alt_width : Z;
  alt_height : Z
}.

Record Warning := mkWarning {
  warning_type : jsstring;
  warning_message : jsstring
}.

(** [this.results].  The [imageInfo] objects are shared between
    [failedImages] and [images] and are written to after they have been
    pushed, so both arrays hold references into [heap]. *)
Record Results := mkResults {
  passed : bool;
  totalImages : Z;
  loadedImages : Z;
  failedImages : list nat;
  missingAltText : list AltEntry;
  images : list nat;
  warnings : option (list Warning);     (* [None] is [undefined] *)
  heap : list ImageInfo
}.

Definition initial : Results := mkResults true 0 0 [] [] [] None [].

(** The objects an array of references denotes. *)
Definition deref (r : Results) (refs : list nat) : list ImageInfo :=
  omap (fun i => heap r !! i) refs.

Definition set_passed (b : bool) (r : Results) : Results :=
  mkResults b (totalImages r) (loadedImages r) (failedImages r)
            (missingAltText r) (images r) (warnings r) (heap r).
Definition set_totalImages (n : Z) (r : Results) : Results :=
  mkResults (passed r) n (loadedImages r) (failedImages r)
            (missingAltText r) (images r) (warnings r) (heap r).
Definition set_loadedImages (n : Z) (r : Results) : Results :=
  mkResults (passed r) (totalImages r) n (failedImages r)
            (missingAltText r) (images r) (warnings r) (heap r).
Definition push_failed (i : nat) (r : Results) : Results :=
  mkResults (passed r) (totalImages r) (loadedImages r) (failedImages r ++ [i])
            (missingAltText r) (images r) (warnings r) (heap r).
Definition push_missingAlt (a : AltEntry) (r : Results) : Results :=
  mkResults (passed r) (totalImages r) (loadedImages r) (failedImages r)
            (missingAltText r ++ [a]) (images r) (warnings r) (heap r).
Definition push_image (i : nat) (r : Results) : Results :=
  mkResults (passed r) (totalImages r) (loadedImages r) (failedImages r)
            (missingAltText r) (images r ++ [i]) (warnings r) (heap r).
Definition push_warning (w : Warning) (r : Results) : Results :=
  mkResults (passed r) (totalImages r) (loadedImages r) (failedImages r)
            (missingAltText r) (images r)
            (Some (match warnings r with Some l => l | None => [] end ++ [w]))
            (heap r).
Definition set_heap (h : list ImageInfo) (r : Results) : Results :=
  mkResults (passed r) (totalImages r) (loadedImages r) (failedImages r)
            (missingAltText r) (images r) (warnings r) h.

(** [this.results.loadedImages++] *)
Definition incr_loaded (r : Results) : Results :=
  set_loadedImages (loadedImages r + 1) r.

(** A fresh object; its reference is returned. *)
Definition alloc (i : ImageInfo) : Op Results nat :=
  fun r => (Normal (List.length (heap r)), set_heap (heap r ++ [i]) r).

(** Assignment to properties of the object behind [ref]. *)
Definition update (ref : nat) (f : ImageInfo -> ImageInfo) : Op Results unit :=
  modify (fun r =>
    match heap r !! ref with
    | Some i => set_heap (<[ref := f i]> (heap r)) r
    | None => r
    end).

Definition set_loaded (b : bool) (i : ImageInfo) : ImageInfo :=
  mkImageInfo (info_src i) (info_alt i) (info_width i) (info_height i)
              b (status i) (error i).
Definition set_status (s : option Z) (i : ImageInfo) : ImageInfo :=
  mkImageInfo (info_src i) (info_alt i) (info_width i) (info_height i)
              (loaded i) s (error i).
Definition set_error (e : option jsstring) (i : ImageInfo) : ImageInfo :=
  mkImageInfo (info_src i) (info_alt i) (info_width i) (info_height i)
              (loaded i) (status i) e.

(** [`HTTP ${status}`] *)
Definition httpError (status : Z) : jsstring := lit "HTTP " ++ numToString status.

(** [imageResponses.get(img.src) || imageResponses.get(img.currentSrc)] *)
Definition lookupResponse (m : gmap jsstring Response) (img : Img)
  : option Response :=
  match m !! src img with
  | Some r => Some r
  | None => m !! currentSrc img
  end.

(** [this.results.failedImages.find(f => f.src === imageInfo.src)] is truthy. *)
Definition failedHasSrc (r : Results) (s : jsstring) : bool :=
  existsb (fun f => streq (info_src f) s) (deref r (failedImages r)).

(** ** validateImage *)

Definition validateImage (page : Page) (img : Img)
    (imageResponses : gmap jsstring Response) : Op Results unit :=
  let* imageInfo :=
    alloc (mkImageInfo (strOr (src img) (currentSrc img)) (strOr (alt img) [])
                       (width img) (height img) false None None) in
  (* Check if image loaded successfully *)
  (if complete img && (0 <? width img)%Z && (0 <? height img)%Z then
     update imageInfo (set_loaded true) >>
     modify incr_loaded
   else
     match lookupResponse imageResponses img with
     | Some response =>
         update imageInfo (set_status (Some (resp_status response))) >>
         if (resp_status response =? 200)%Z then
           update imageInfo (set_loaded true) >>
           modify incr_loaded
         else
           update imageInfo (set_loaded false) >>
           update imageInfo (set_error (Some (httpError (resp_status response)))) >>
           modify (push_failed imageInfo)
     | None =>
         try_catch
           (let* outcome := await (fetchHead page (strOr (src img) (currentSrc img))) in
            let response := probeResult outcome in
            if probe_ok response && (probe_status response =? 200)%Z then
              update imageInfo (set_loaded true) >>
              update imageInfo (set_status (Some 200%Z)) >>
              modify incr_loaded
            else
              update imageInfo (set_loaded false) >>
              update imageInfo (set_status (Some (numOr (probe_status response) 0))) >>
              update imageInfo
                (set_error (Some (match probe_error response with
                                  | Some (c :: m) => c :: m
                                  | _ => httpError (probe_status response)
                                  end))) >>
              modify (push_failed imageInfo))
           (fun error =>
              update imageInfo (set_loaded false) >>
              update imageInfo (set_error (Some (message error))) >>
              modify (push_failed imageInfo))
     end) >>
  (* Check for alt text (accessibility) *)
  (if bool_decide (alt img = []) || (strlen (trim (alt img)) =? 0)%Z then
     if (50 <? width img)%Z && (50 <? height img)%Z
        && negb (startsWith (src img) (lit "data:")) then
       modify (push_missingAlt
                 (mkAltEntry (strOr (src img) (currentSrc img))
                             (width img) (height img)))
     else ret tt
   else ret tt) >>
  (* Validate dimensions *)
  (if (width img =? 0)%Z || (height img =? 0)%Z then
     update imageInfo (set_error (Some (lit "Image has zero dimensions"))) >>
     let* r := get in
     if negb (failedHasSrc r (strOr (src img) (currentSrc img))) then
       modify (push_failed imageInfo)
     else ret tt
   else ret tt) >>
  modify (push_image imageInfo).

(** ** getAllImages *)

Definition getAllImages {S} (nodes : Completion (list DomImg)) : Op S (list Img) :=
  let* imgs := await nodes in
  ret (List.map describe imgs).

(** [xs.slice(k)] for an integer [k]. *)
Definition slice {A} (k : Z) (xs : list A) : list A :=
  if (k <? 0)%Z
  then drop (Z.to_nat (Z.max (Z.of_nat (List.length xs) + k) 0)) xs
  else drop (Z.to_nat k) xs.

(** [for (const img of imgs) { await this.validateImage(img, m); }] *)
Definition validateEach (page : Page) (imgs : list Img)
    (m : gmap jsstring Response) : Op Results unit :=
  for_of imgs (fun img => validateImage page img m >> ret Continue).

(** ** checkLazyLoadedImages *)

(** [for (let scroll = ...; scroll < scrollHeight; scroll += viewportHeight)].
    [fuel] bounds the number of iterations; [None] is returned when it is
    used up before the loop condition fails. *)
Fixpoint scrollLoop (fuel : nat) (page : Page) (scroll scrollHeight : Z)
  : Op Results (option unit) :=
  if (scroll <? scrollHeight)%Z then
    match fuel with
    | O => ret None
    | S fuel' =>
        await (match scrollTo page scroll with
               | Some e => Throw e
               | None => Normal tt
               end) >>
        (* Check newly loaded images *)
        let* newImages := getAllImages (imagesAt page scroll) in
        let newCount := Z.of_nat (List.length newImages) in
        let* r := get in
        (if (totalImages r <? newCount)%Z then
           (* Validate new images *)
           validateEach page (slice (totalImages r) newImages) ∅
         else ret tt) >>
        scrollLoop fuel' page (scroll + viewportHeight page)%Z scrollHeight
    end
  else ret (Some tt).

Definition checkLazyLoadedImages (fuel : nat) (page : Page)
  : Op Results (option unit) :=
  try_catch
    (let* scrollHeight := await (scrollHeight page) in
     let* finished := scrollLoop fuel page 0 scrollHeight in
     match finished with
     | None => ret None
     | Some _ =>
         (* Scroll back to top *)
         await (match scrollBack page with
                | Some e => Throw e
                | None => Normal tt
                end) >>
         ret (Some tt)
     end)
    (fun error =>
       modify (push_warning
         (mkWarning (lit "warning")
            (lit "Error checking lazy-loaded images: " ++ message error))) >>
       ret (Some tt)).

(** ** validate *)

Definition validate (fuel : nat) (page : Page) : Op Results (option Results) :=
  (* Get all images from the page *)
  let* images := getAllImages (initialImages page) in
  modify (set_totalImages (Z.of_nat (List.length images))) >>
  (* Validate each image *)
  validateEach page images (imageResponses page) >>
  (* Check lazy-loaded images *)
  let* finished := checkLazyLoadedImages fuel page in
  match finished with
  | None => ret None
  | Some _ =>
      (* Determine overall result *)
      modify (fun r =>
        set_passed (bool_decide (List.length (failedImages r) = 0%nat)) r) >>
      modify (fun r =>
        set_loadedImages
          (totalImages r - Z.of_nat (List.length (failedImages r)))%Z r) >>
      let* r := get in
      ret (Some r)
  end.

End ImageValidator.

(* ===================================================================== *)
(** * ErrorDetector (collection and classification of browser signals) *)
(* ===================================================================== *)

Module ErrorDetector.

Inductive Severity := critical | warning.

#[global] Instance Severity_eq_dec : EqDecision Severity.
Proof. solve_decision. Defined.

(** An entry of [results.consoleErrors].  The properties that are only
    reported ([location], [stack], [timestamp]) are left out. *)
Record ConsoleError := mkConsoleError {
  ce_type : jsstring;              (* ['console_error'] or ['page_error'] *)
  ce_message : jsstring;
  ce_severity : option Severity    (* [None]: not set yet *)
}.

(** An entry of [networkFailures], [resourceFailures] or [corsErrors]. *)
Record Failure := mkFailure {
  f_url : jsstring;
  f_method : jsstring;
  f_failure : option jsstring;
  f_status : option Z;
  f_statusText : option jsstring;
  f_severity : option Severity;
  f_resourceType : option jsstring
}.

Record Finding := mkFinding {
  finding_type : jsstring;
  finding_url : option jsstring;
  finding_message : jsstring
}.

(** [this.results] *)
Record Results := mkResults {
  passed : bool;
  consoleErrors : list ConsoleError;
  networkFailures : list Failure;
  resourceFailures : list Failure;
  corsErrors : list Failure;
  performanceWarnings : list Finding;
  securityErrors : list Finding;
  totalErrors : Z;
  totalWarnings : Z
}.

Definition initial : Results := mkResults true [] [] [] [] [] [] 0 0.

Definition set_passed (b : bool) (r : Results) : Results :=
  mkResults b (consoleErrors r) (networkFailures r) (resourceFailures r)
            (corsErrors r) (performanceWarnings r) (securityErrors r)
            (totalErrors r) (totalWarnings r).
Definition set_consoleErrors (l : list ConsoleError) (r : Results) : Results :=
  mkResults (passed r) l (networkFailures r) (resourceFailures r)
            (corsErrors r) (performanceWarnings r) (securityErrors r)
            (totalErrors r) (totalWarnings r).
Definition push_networkFailure (f : Failure) (r : Results) : Results :=
  mkResults (passed r) (consoleErrors r) (networkFailures r ++ [f])
            (resourceFailures r) (corsErrors r) (performanceWarnings r)
            (securityErrors r) (totalErrors r) (totalWarnings r).
Definition push_resourceFailure (f : Failure) (r : Results) : Results :=
  mkResults (passed r) (consoleErrors r) (networkFailures r)
            (resourceFailures r ++ [f]) (corsErrors r) (performanceWarnings r)
            (securityErrors r) (totalErrors r) (totalWarnings r).
Definition push_corsError (f : Failure) (r : Results) : Results :=
  mkResults (passed r) (consoleErrors r) (networkFailures r)
            (resourceFailures r) (corsErrors r ++ [f]) (performanceWarnings r)
            (securityErrors r) (totalErrors r) (totalWarnings r).
Definition push_performanceWarning (f : Finding) (r : Results) : Results :=
  mkResults (passed r) (consoleErrors r) (networkFailures r)
            (resourceFailures r) (corsErrors r) (performanceWarnings r ++ [f])
            (securityErrors r) (totalErrors r) (totalWarnings r).
Definition push_securityError (f : Finding) (r : Results) : Results :=
  mkResults (passed r) (consoleErrors r) (networkFailures r)
            (resourceFailures r) (corsErrors r) (performanceWarnings r)
            (securityErrors r ++ [f]) (totalErrors r) (totalWarnings r).
(** [this.results.totalErrors++] and [this.results.totalWarnings++] *)
Definition incr_totalErrors (r : Results) : Results :=
  mkResults (passed r) (consoleErrors r) (networkFailures r)
            (resourceFailures r) (corsErrors r) (performanceWarnings r)
            (securityErrors r) (totalErrors r + 1) (totalWarnings r).
Definition incr_totalWarnings (r : Results) : Results :=
  mkResults (passed r) (consoleErrors r) (networkFailures r)
            (resourceFailures r) (corsErrors r) (performanceWarnings r)
            (securityErrors r) (totalErrors r) (totalWarnings r + 1).

(** [config.errorTolerance] *)
Record ErrorTolerance := mkTolerance {
  tol_critical : Z;
  tol_warning : Z;
  tol_network : Z
}.

(** [defaultConfig.errorTolerance] *)
Definition defaultTolerance : ErrorTolerance := mkTolerance 0 5 2.

(** A header value: a string or an array of strings. *)
Inductive HeaderValue :=
| HString (s : jsstring)
| HArray (l : list jsstring).

(** A completed response as the ['response'] listener reads it. *)
Record HttpResponse := mkHttpResponse {
  r_status : Z;
  r_url : jsstring;
  r_statusText : jsstring;
  r_method : option jsstring;          (* [None]: [response.request()] is falsy *)
  r_setCookie : option HeaderValue;    (* [headers['set-cookie']] *)
  r_pageUrl : jsstring                 (* [this.page.url()] at that moment *)
}.

(** What the page emits while the listeners are attached. *)
Inductive Event :=
| ConsoleMessage (type text : jsstring)                   (* ['console'] *)
| PageError (error : Exn)                                 (* ['pageerror'] *)
| RequestFailed (url method : jsstring) (errorText : option jsstring)
                                                          (* ['requestfailed'] *)
| ResponseReceived (response : HttpResponse).             (* ['response'] *)

Definition criticalPatterns : list jsstring :=
  [lit "/checkout"; lit "/cart"; lit "/api"; lit ".css";
   lit "main.js"; lit "app.js"; lit "bundle.js"].

(** ** isCriticalResource *)
Definition isCriticalResource (url : jsstring) : bool :=
  existsb (fun pattern => includes url pattern) criticalPatterns.

(** ASCII case folding, as the [i] flag of a regular expression without
    the [u] flag applies it to ASCII letters. *)
Definition asciiLower (c : N) : N :=
  if ((65 <=? c) && (c <=? 90))%N then (c + 32)%N else c.

Definition includesIgnoreCase (s p : jsstring) : bool :=
  includes (List.map asciiLower s) (List.map asciiLower p).

(** ** getResourceType *)
Definition getResourceType (url : jsstring) : jsstring :=
  if includes url (lit ".css") then lit "stylesheet"
  else if includes url (lit ".js") then lit "script"
  else if existsb (fun ext => includesIgnoreCase url (lit "." ++ ext))
            [lit "jpg"; lit "jpeg"; lit "png"; lit "gif"; lit "webp"; lit "svg"]
       then lit "image"
  else if includes url (lit "font") then lit "font"
  else lit "other".

(** ** checkSecurityIssues *)
Definition checkSecurityIssues (response : HttpResponse) (r : Results) : Results :=
  let url := r_url response in
  let r1 :=
    if startsWith url (lit "http://")
       && startsWith (r_pageUrl response) (lit "https://")
    then push_securityError
           (mkFinding (lit "mixed_content") (Some url)
                      (lit "HTTP resource loaded on HTTPS page")) r
    else r in
  let cookies :=
    match r_setCookie response with
    | Some (HArray l) => l
    | Some (HString (c :: s)) => [c :: s]
    | Some (HString []) => []        (* the empty string is falsy *)
    | None => []
    end in
  fold_left
    (fun acc cookie =>
       if negb (includes cookie (lit "Secure"))
          && startsWith (r_pageUrl response) (lit "https://")
       then push_securityError
              (mkFinding (lit "insecure_cookie") (Some url)
                         (lit "Cookie set without Secure flag on HTTPS page")) acc
       else acc)
    cookies r1.

(** ** The listeners attached by [setup] *)

Definition onConsole (type text : jsstring) (r : Results) : Results :=
  if streq type (lit "error") then
    incr_totalErrors
      (set_consoleErrors
         (consoleErrors r ++ [mkConsoleError (lit "console_error") text None]) r)
  else if streq type (lit "warning") then incr_totalWarnings r
  else r.

Definition onPageError (error : Exn) (r : Results) : Results :=
  incr_totalErrors
    (set_consoleErrors
       (consoleErrors r ++ [mkConsoleError (lit "page_error") (message error) None])
       r).

Definition onRequestFailed (url method : jsstring) (errorText : option jsstring)
    (r : Results) : Results :=
  let errorInfo :=
    mkFailure url method
      (Some (match errorText with
             | Some (c :: s) => c :: s
             | _ => lit "Unknown failure"
             end))
      None None None None in
  let isCors :=
    match errorText with
    | Some t => includes t (lit "CORS") || includes t (lit "cors")
    | None => false
    end in
  incr_totalErrors
    (if isCors then push_corsError errorInfo r
     else push_networkFailure errorInfo r).

Definition onResponse (response : HttpResponse) (r : Results) : Results :=
  let status := r_status response in
  let url := r_url response in
  let errorInfo (sev : Severity) (rt : option jsstring) :=
    mkFailure url
      (match r_method response with Some m => m | None => lit "GET" end)
      None (Some status) (Some (r_statusText response)) (Some sev) rt in
  let r1 :=
    if (400 <=? status)%Z then
      if (500 <=? status)%Z then
        (* Server errors *)
        incr_totalErrors (push_networkFailure (errorInfo critical None) r)
      else
        (* Client errors *)
        if isCriticalResource url then
          incr_totalErrors
            (push_resourceFailure
               (errorInfo critical (Some (getResourceType url))) r)
        else
          incr_totalWarnings (push_networkFailure (errorInfo warning None) r)
    else r in
  (* Check for security issues *)
  checkSecurityIssues response r1.

Definition handle (r : Results) (ev : Event) : Results :=
  match ev with
  | ConsoleMessage type text => onConsole type text r
  | PageError error => onPageError error r
  | RequestFailed url method errorText => onRequestFailed url method errorText r
  | ResponseReceived response => onResponse response r
  end.

(** The listeners run once per event, in the order of arrival. *)
Definition listen (events : list Event) (r : Results) : Results :=
  fold_left handle events r.

(** What [checkPerformanceMetrics] reads in the page. *)
Record Metrics := mkMetrics {
  domContentLoaded : Z;
  loadComplete : Z
}.

(** ** checkPerformanceMetrics *)
Definition checkPerformanceMetrics (metrics : Completion Metrics)
  : Op Results unit :=
  try_catch
    (let* performanceMetrics := await metrics in
     if (5000 <? loadComplete performanceMetrics)%Z then
       modify (push_performanceWarning
         (mkFinding (lit "slow_load") None
            (lit "Page load time: "
             ++ numToString (loadComplete performanceMetrics)
             ++ lit "ms")))
     else ret tt)
    (fun error => ret tt).

Definition ignorablePatterns : list jsstring :=
  [lit "analytics"; lit "google-analytics"; lit "facebook"; lit "advertising";
   lit "adblock"; lit "tracking"; lit "pixel"].

Section Classification.

(** [String.prototype.toLowerCase]; the Unicode case mapping is not
    fixed here, the development holds for any. *)
Variable toLowerCase : jsstring -> jsstring.

(** The predicate handed to the first [filter] of [analyzeErrors]. *)
Definition notIgnorable (error : ConsoleError) : bool :=
  let message := toLowerCase (ce_message error) in
  negb (existsb (fun pattern => includes message pattern) ignorablePatterns).

(** The function handed to [map] in [analyzeErrors]. *)
Definition categorize (error : ConsoleError) : ConsoleError :=
  let message := toLowerCase (ce_message error) in
  let severity :=
    if includes message (lit "uncaught")
       || includes message (lit "syntax error")
       || includes message (lit "reference error")
       || includes message (lit "type error")
    then critical else warning in
  mkConsoleError (ce_type error) (ce_message error) (Some severity).

(** ** analyzeErrors *)
Definition analyzeErrors (r : Results) : Results :=
  let r1 := set_consoleErrors (List.filter notIgnorable (consoleErrors r)) r in
  set_consoleErrors (List.map categorize (consoleErrors r1)) r1.

Definition isCritical (s : option Severity) : bool :=
  bool_decide (s = Some critical).

(** ** checkErrorTolerance *)
Definition checkErrorTolerance (tolerance : ErrorTolerance) (r : Results) : bool :=
  let criticalErrors :=
    List.length (List.filter (fun e => isCritical (ce_severity e)) (consoleErrors r)) in
  let criticalNetworkFailures :=
    List.length (List.filter (fun f => isCritical (f_severity f)) (networkFailures r)) in
  let criticalResourceFailures :=
    List.length (List.filter (fun f => isCritical (f_severity f)) (resourceFailures r)) in
  let totalCritical :=
    Z.of_nat (criticalErrors + criticalNetworkFailures + criticalResourceFailures) in
  if (tol_critical tolerance <? totalCritical)%Z then false
  else if (tol_warning tolerance <? totalWarnings r)%Z then false
  else true.

(** ** detect *)
Definition detect (tolerance : ErrorTolerance) (metrics : Completion Metrics)
  : Op Results Results :=
  (* Check performance metrics *)
  checkPerformanceMetrics metrics >>
  (* Analyze collected errors *)
  modify analyzeErrors >>
  (* Determine overall result based on error tolerance *)
  modify (fun r => set_passed (checkErrorTolerance tolerance r) r) >>
  get.

End Classification.

End ErrorDetector.

(* ===================================================================== *)
(** * The runner: one product page *)
(* ===================================================================== *)

Module Runner.

(** [result.overall] *)
Record Overall := mkOverall {
  passed : bool;
  error : option jsstring;
  stack : option jsstring
}.

(** The object [testProductPage] returns ([timestamp] left out).  The
    three module results start as empty objects, [None] here. *)
Record PageTestResult := mkResult {
  url : jsstring;
  platform : jsstring;
  overall : Overall;
  productPage : option ProductPageTester.Results;
  images : option ImageValidator.Results;
  errors : option ErrorDetector.Results
}.

Definition set_platform (p : jsstring) (r : PageTestResult) : PageTestResult :=
  mkResult (url r) p (overall r) (productPage r) (images r) (errors r).
Definition set_overall (o : Overall) (r : PageTestResult) : PageTestResult :=
  mkResult (url r) (platform r) o (productPage r) (images r) (errors r).
Definition set_productPage (x : ProductPageTester.Results) (r : PageTestResult)
  : PageTestResult :=
  mkResult (url r) (platform r) (overall r) (Some x) (images r) (errors r).
Definition set_images (x : ImageValidator.Results) (r : PageTestResult)
  : PageTestResult :=
  mkResult (url r) (platform r) (overall r) (productPage r) (Some x) (errors r).
Definition set_errors (x : ErrorDetector.Results) (r : PageTestResult)
  : PageTestResult :=
  mkResult (url r) (platform r) (overall r) (productPage r) (images r) (Some x).

(** The part of [config] the checks read; viewport and time-outs are
    part of the page oracles. *)
Record Config := mkConfig {
  selectors : gmap jsstring ProductPageTester.Selectors;   (* own properties *)
  errorTolerance : ErrorDetector.ErrorTolerance
}.

(** What the browser does during one run of [testProductPage]. *)
Record Session := mkSession {
  newPage : option Exn;                   (* [browser.newPage()] rejects *)
  goto : option Exn;                      (* navigation, [networkidle0] *)
  gotoFallback : option Exn;              (* navigation, [domcontentloaded] *)
  indicators : Completion (bool * bool);  (* the page function of [detectPlatform] *)
  currentUrl : Completion jsstring;       (* [page.url()] *)
  dom : ProductPageTester.Page;
  pictures : ImageValidator.Page;
  events : list ErrorDetector.Event;
    (* delivered to the listeners after [setup], before classification *)
  metrics : Completion ErrorDetector.Metrics;
  close : option Exn                      (* [page.close()] rejects *)
}.

Definition outcome (e : option Exn) : Completion unit :=
  match e with
  | Some x => Throw x
  | None => Normal tt
  end.

(** A method called on a freshly constructed object with state [s0]. *)
Definition call {S A} (c : Op S A) (s0 : S) : Completion A := fst (c s0).

(** ** detectPlatform *)
Definition detectPlatform {S} (b : Session) : Op S jsstring :=
  try_catch
    (let* platformIndicators := await (indicators b) in
     if fst platformIndicators then ret (lit "shopify")
     else if snd platformIndicators then ret (lit "bigcommerce")
     else
       let* url := await (currentUrl b) in
       if includes url (lit "shopify") || includes url (lit "myshopify.com")
       then ret (lit "shopify")
       else if includes url (lit "bigcommerce") then ret (lit "bigcommerce")
       else ret (lit "shopify"))
    (fun error => ret (lit "shopify")).

(** The property names every plain object inherits from
    [Object.prototype]. *)
Definition inheritedNames : list jsstring :=
  [lit "constructor"; lit "__proto__"; lit "hasOwnProperty";
   lit "isPrototypeOf"; lit "propertyIsEnumerable"; lit "toLocaleString";
   lit "toString"; lit "valueOf"; lit "__defineGetter__";
   lit "__defineSetter__"; lit "__lookupGetter__"; lit "__lookupSetter__"].

Definition inherited (name : jsstring) : bool :=
  existsb (streq name) inheritedNames.

(** What [config.selectors[name]] gives: a selector profile held as an
    own property, a value inherited from the prototype (a function, or
    the prototype itself for [__proto__]; truthy, and without candidate
    lists), or [undefined]. *)
Inductive Property :=
| Profile (sel : ProductPageTester.Selectors)
| Inherited
| Absent.

(** [config.selectors[name]] *)
Definition property (config : Config) (name : jsstring) : Property :=
  match selectors config !! name with
  | Some sel => Profile sel
  | None => if inherited name then Inherited else Absent
  end.

Section Run.

Variable toLowerCase : jsstring -> jsstring.

(** [new ProductPageTester(page, config, platform).test()].  The
    constructor reads [config.selectors[this.platform] ||
    config.selectors.shopify].  A value inherited from the prototype is
    truthy, so it is kept, and iterating its missing [productTitle]
    throws in [testProductTitle]; when the platform gives nothing and
    [config.selectors.shopify] is missing too, reading
    [this.selectors.productTitle] throws. *)
Definition productTester_test (config : Config) (platform : jsstring)
    (page : ProductPageTester.Page) : Completion ProductPageTester.Results :=
  let this_platform := toLowerCase platform in
  let this_selectors :=
    match property config this_platform with
    | Absent => property config (lit "shopify")
    | value => value
    end in
  match this_selectors with
  | Profile sel => call (ProductPageTester.test page sel) ProductPageTester.initial
  | Inherited =>
      Throw (mkExn (lit "this.selectors.productTitle is not iterable") [])
  | Absent =>
      Throw (mkExn (lit "Cannot read properties of undefined (reading 'productTitle')") [])
  end.

(** The [try] block of [testProductPage]; [None] when the lazy-load
    sweep of the image check does not come to an end within [fuel]. *)
Definition tryBlock (fuel : nat) (b : Session) (config : Config)
    (platform : jsstring) : Op PageTestResult (option unit) :=
  (* Navigate to page; the fallback swallows its own failure *)
  try_catch (await (outcome (goto b)))
            (fun error => try_catch (await (outcome (gotoFallback b)))
                                    (fun fallbackError => ret tt)) >>
  (* Detect platform if not specified *)
  let* platform :=
    if bool_decide (platform = []) || streq platform (lit "auto") then
      let* p := detectPlatform b in
      modify (set_platform p) >>
      ret p
    else ret platform in
  (* Run product page tests *)
  let* x := await (productTester_test config platform (dom b)) in
  modify (set_productPage x) >>
  (* Run image validation *)
  let* y := await (call (ImageValidator.validate fuel (pictures b))
                        ImageValidator.initial) in
  match y with
  | None => ret None
  | Some y =>
      modify (set_images y) >>
      (* Run error detection; the listeners have been fed since [setup] *)
      let* z := await (call (ErrorDetector.detect toLowerCase
                               (errorTolerance config) (metrics b))
                            (ErrorDetector.listen (events b)
                               ErrorDetector.initial)) in
      modify (set_errors z) >>
      (* Determine overall result *)
      modify (fun r =>
        set_overall
          (mkOverall (ProductPageTester.passed x
                      && ImageValidator.passed y
                      && ErrorDetector.passed z)
                     (error (overall r)) (stack (overall r))) r) >>
      ret (Some tt)
  end.

(** ** testProductPage *)
Definition testProductPage (fuel : nat) (b : Session) (url : jsstring)
    (config : Config) (platform : jsstring)
  : option (Completion PageTestResult) :=
  match newPage b with
  | Some e => Some (Throw e)
  | None =>
      let result := mkResult url platform (mkOverall true None None)
                             None None None in
      let guarded : Op PageTestResult (option unit) :=
        try_catch (tryBlock fuel b config platform)
          (fun error =>
             modify (set_overall
               (mkOverall false (Some (message error))
                          (Some (JS.stack error)))) >>
             ret (Some tt)) in
      match fst (guarded result) with
      | Normal None => None
      | _ =>
          match try_finally guarded (await (outcome (close b))) result with
          | (Normal _, result') => Some (Normal result')
          | (Throw e, _) => Some (Throw e)
          end
      end
  end.

End Run.

End Runner.

(* ===================================================================== *)
(** * Assertions on code that completes normally *)
(* ===================================================================== *)

Module ProgramLogic.

(** From a state satisfying [P], [c] completes normally, in a state
    and with a value satisfying [Q]. *)
Definition completes {S A} (P : S -> Prop) (c : Op S A) (Q : A -> S -> Prop)
  : Prop :=
  forall s, P s -> exists a s', c s = (Normal a, s') /\ Q a s'.

(** From a state satisfying [P], [c] ends in a state satisfying [Q] when
    it completes normally and [E] when it throws. *)
Definition triple {S A} (P : S -> Prop) (c : Op S A) (Q : A -> S -> Prop)
    (E : Exn -> S -> Prop) : Prop :=
  forall s, P s ->
    match c s with
    | (Normal a, s') => Q a s'
    | (Throw e, s') => E e s'
    end.

End ProgramLogic.

(* ===================================================================== *)
(** * Vocabulary of the specification *)
(* ===================================================================== *)

Module Spec.

Import ErrorDetector.

(** The number of critical console errors, critical network failures and
    critical resource failures of a signal set. *)
Definition criticalCount (r : Results) : Z :=
  Z.of_nat (List.length (List.filter (fun e => isCritical (ce_severity e)) (consoleErrors r)))
  + Z.of_nat (List.length (List.filter (fun f => isCritical (f_severity f)) (networkFailures r)))
  + Z.of_nat (List.length (List.filter (fun f => isCritical (f_severity f)) (resourceFailures r))).

(** A classified signal carries the severity [warning]. *)
Definition isWarning (s : option Severity) : bool :=
  bool_decide (s = Some warning).

(** The warning count when warnings are counted by severity class: the
    number of console errors, network failures and resource failures of
    a signal set that carry the severity [warning]. *)
Definition warningClassCount (r : Results) : Z :=
  Z.of_nat (List.length (List.filter (fun e => isWarning (ce_severity e)) (consoleErrors r)))
  + Z.of_nat (List.length (List.filter (fun f => isWarning (f_severity f)) (networkFailures r)))
  + Z.of_nat (List.length (List.filter (fun f => isWarning (f_severity f)) (resourceFailures r))).

(** The signal set [detect] returns when it starts from the collected [r]. *)
Definition finalized (toLowerCase : jsstring -> jsstring)
    (tolerance : ErrorTolerance) (metrics : Completion Metrics) (r : Results)
  : Results :=
  snd (detect toLowerCase tolerance metrics r).

(** The entries a single event adds to [consoleErrors]. *)
Definition newConsoleEntries (ev : Event) : list ConsoleError :=
  match ev with
  | ConsoleMessage type text =>
      if streq type (lit "error")
      then [mkConsoleError (lit "console_error") text None]
      else []
  | PageError error => [mkConsoleError (lit "page_error") (message error) None]
  | _ => []
  end.

(** Two signal sets agree on everything the verdict reads apart from
    the console errors. *)
Definition sameOtherSignals (r r' : Results) : Prop :=
  networkFailures r = networkFailures r'
  /\ resourceFailures r = resourceFailures r'
  /\ totalWarnings r = totalWarnings r'.

(** ** Element resolution *)

(** The trimmed text read from the node a candidate matches: [None] when
    the query throws or matches nothing, or when reading the text throws. *)
Definition candidateText
    (q : jsstring -> Completion (option ProductPageTester.ElementHandle))
    (s : jsstring) : option (option jsstring) :=
  match q s with
  | Normal (Some el) =>
      match ProductPageTester.rejects el 0 with
      | None => Some (ProductPageTester.trimmedText (ProductPageTester.node el))
      | Some _ => None
      end
  | _ => None
  end.

Definition textOf
    (q : jsstring -> Completion (option ProductPageTester.ElementHandle))
    (s : jsstring) : option jsstring :=
  match candidateText q s with
  | Some t => t
  | None => None
  end.

(** A candidate succeeds: it matches a node whose text satisfies the
    content predicate. *)
Definition succeeds (pred : option jsstring -> bool)
    (q : jsstring -> Completion (option ProductPageTester.ElementHandle))
    (s : jsstring) : bool :=
  match candidateText q s with
  | Some t => pred t
  | None => false
  end.

(** The first candidate, in list order, that succeeds. *)
Definition firstSuccess (pred : option jsstring -> bool)
    (q : jsstring -> Completion (option ProductPageTester.ElementHandle))
    (candidates : list jsstring) : option jsstring :=
  List.find (succeeds pred q) candidates.

(** A candidate matches a node. *)
Definition matchesNode
    (q : jsstring -> Completion (option ProductPageTester.ElementHandle))
    (s : jsstring) : bool :=
  match q s with
  | Normal (Some _) => true
  | _ => false
  end.

(** Visibility and enabledness of the node a candidate matches, when
    both are read without a fault. *)
Definition buttonState
    (q : jsstring -> Completion (option ProductPageTester.ElementHandle))
    (s : jsstring) : option (bool * bool) :=
  match q s with
  | Normal (Some el) =>
      match ProductPageTester.rejects el 0, ProductPageTester.rejects el 1 with
      | None, None =>
          Some (ProductPageTester.hasBox (ProductPageTester.node el),
                ProductPageTester.notDisabled (ProductPageTester.node el))
      | _, _ => None
      end
  | _ => None
  end.

(** The candidate the add-to-cart check settles on: the first whose
    node is read without a fault, with what was read. *)
Fixpoint firstButton
    (q : jsstring -> Completion (option ProductPageTester.ElementHandle))
    (candidates : list jsstring) : option (jsstring * (bool * bool)) :=
  match candidates with
  | [] => None
  | s :: rest =>
      match buttonState q s with
      | Some st => Some (s, st)
      | None => firstButton q rest
      end
  end.

Definition titleMissing (page : ProductPageTester.Page)
    (sel : ProductPageTester.Selectors) : Prop :=
  firstSuccess ProductPageTester.nonEmptyText (ProductPageTester.query page)
    (ProductPageTester.productTitle sel) = None.

Definition priceMissing (page : ProductPageTester.Page)
    (sel : ProductPageTester.Selectors) : Prop :=
  firstSuccess ProductPageTester.looksLikePrice
    (ProductPageTester.waitForSelector page)
    (ProductPageTester.priceSelectors sel) = None.

(** No add-to-cart candidate matches a node. *)
Definition buttonMissing (page : ProductPageTester.Page)
    (sel : ProductPageTester.Selectors) : Prop :=
  existsb (matchesNode (ProductPageTester.query page))
    (ProductPageTester.addToCart sel) = false.

(** Some add-to-cart candidate matches a node, and the check did not
    see a visible one. *)
Definition buttonInvisible (page : ProductPageTester.Page)
    (sel : ProductPageTester.Selectors) : Prop :=
  existsb (matchesNode (ProductPageTester.query page))
    (ProductPageTester.addToCart sel) = true
  /\ forall s enabled,
       firstButton (ProductPageTester.query page)
         (ProductPageTester.addToCart sel) <> Some (s, (true, enabled)).

(** The structural result of a page visit. *)
Definition structural (page : ProductPageTester.Page)
    (sel : ProductPageTester.Selectors) : ProductPageTester.Results :=
  snd (ProductPageTester.test page sel ProductPageTester.initial).

(** The entry of [results.elements] that first-success resolution with
    content predicate [pred] reports ([withText]: the entry carries the
    extracted text). *)
Definition resolution (withText : bool) (pred : option jsstring -> bool)
    (q : jsstring -> Completion (option ProductPageTester.ElementHandle))
    (candidates : list jsstring) : ProductPageTester.ElementInfo :=
  match firstSuccess pred q candidates with
  | Some s =>
      ProductPageTester.mkInfo true (Some s)
        (if withText then textOf q s else None) None None None
  | None => ProductPageTester.notFound
  end.

(** Evaluating the candidate throws: the query rejects, or reading the
    text of the matched node does. *)
Definition candidateThrows
    (q : jsstring -> Completion (option ProductPageTester.ElementHandle))
    (s : jsstring) : Prop :=
  (exists e, q s = Throw e)
  \/ (exists el e, q s = Normal (Some el)
                   /\ ProductPageTester.rejects el 0 = Some e).

(** The selector profile with another candidate list for the title,
    the price, the description. *)
Definition withProductTitle (l : list jsstring)
    (sel : ProductPageTester.Selectors) : ProductPageTester.Selectors :=
  ProductPageTester.mkSelectors l
    (ProductPageTester.productPrice sel) (ProductPageTester.productDescription sel)
    (ProductPageTester.addToCart sel) (ProductPageTester.productImage sel)
    (ProductPageTester.productVariant sel).

Definition withProductPrice (l : list jsstring)
    (sel : ProductPageTester.Selectors) : ProductPageTester.Selectors :=
  ProductPageTester.mkSelectors (ProductPageTester.productTitle sel)
    (Some l) (ProductPageTester.productDescription sel)
    (ProductPageTester.addToCart sel) (ProductPageTester.productImage sel)
    (ProductPageTester.productVariant sel).

Definition withProductDescription (l : list jsstring)
    (sel : ProductPageTester.Selectors) : ProductPageTester.Selectors :=
  ProductPageTester.mkSelectors (ProductPageTester.productTitle sel)
    (ProductPageTester.productPrice sel) l
    (ProductPageTester.addToCart sel) (ProductPageTester.productImage sel)
    (ProductPageTester.productVariant sel).

(** Two pages answer alike for every candidate of [l]. *)
Definition agreeOn
    (q q' : jsstring -> Completion (option ProductPageTester.ElementHandle))
    (l : list jsstring) : Prop :=
  forall x, In x l -> q x = q' x.

(** A step of the checklist that can only add warnings: the critical
    errors and the entries for title, price and add-to-cart stay. *)
Definition onlyWarns (r r' : ProductPageTester.Results) : Prop :=
  ProductPageTester.errors r' = ProductPageTester.errors r
  /\ (forall w, In w (ProductPageTester.warnings r) ->
                In w (ProductPageTester.warnings r'))
  /\ ProductPageTester.e_title (ProductPageTester.elements r')
     = ProductPageTester.e_title (ProductPageTester.elements r)
  /\ ProductPageTester.e_price (ProductPageTester.elements r')
     = ProductPageTester.e_price (ProductPageTester.elements r)
  /\ ProductPageTester.e_addToCart (ProductPageTester.elements r')
     = ProductPageTester.e_addToCart (ProductPageTester.elements r).

(** The entries of [results.errors] and [results.warnings] the
    add-to-cart check writes. *)
Definition buttonNotFound (sel : ProductPageTester.Selectors)
  : ProductPageTester.Issue :=
  ProductPageTester.mkIssue (lit "critical") (Some (lit "add_to_cart_button"))
    (lit "Add to cart button not found on page")
    (Some (ProductPageTester.addToCart sel)) None.

Definition buttonNotVisible : ProductPageTester.Issue :=
  ProductPageTester.mkIssue (lit "critical") (Some (lit "add_to_cart_button"))
    (lit "Add to cart button is not visible") None None.

Definition buttonDisabled : ProductPageTester.Issue :=
  ProductPageTester.mkIssue (lit "warning") (Some (lit "add_to_cart_button"))
    (lit "Add to cart button is disabled (product may be out of stock)")
    None None.

(** ** Image validation *)

(** While [validateImage] runs on [img] from state [r]: the state [s]
    holds one more object, the [imageInfo] of [img], referenced from
    [failedImages] when [pushed]. *)
Definition validating (r : ImageValidator.Results) (img : ImageValidator.Img)
    (pushed : bool) (s : ImageValidator.Results) : Prop :=
  exists info,
    ImageValidator.passed s = ImageValidator.passed r
    /\ ImageValidator.totalImages s = ImageValidator.totalImages r
    /\ ImageValidator.failedImages s
       = ImageValidator.failedImages r
         ++ (if pushed then [List.length (ImageValidator.heap r)] else [])
    /\ ImageValidator.images s = ImageValidator.images r
    /\ ImageValidator.warnings s = ImageValidator.warnings r
    /\ ImageValidator.heap s = ImageValidator.heap r ++ [info]
    /\ ImageValidator.info_src info
       = ImageValidator.strOr (ImageValidator.src img) (ImageValidator.currentSrc img)
    /\ ImageValidator.info_width info = ImageValidator.width img
    /\ ImageValidator.info_height info = ImageValidator.height img.

(** [failedImages] holds an entry with this source. *)
Definition recordedFailed (s : ImageValidator.Results) (source : jsstring) : Prop :=
  ImageValidator.failedHasSrc s source = true.

(** The image has a zero width or a zero height. *)
Definition zeroSized (img : ImageValidator.Img) : Prop :=
  (ImageValidator.width img = 0 \/ ImageValidator.height img = 0)%Z.

(** When [validateImage] has run on [img] from state [r]. *)
Definition validated (r : ImageValidator.Results) (img : ImageValidator.Img)
    (s : ImageValidator.Results) : Prop :=
  exists info pushed,
    ImageValidator.passed s = ImageValidator.passed r
    /\ ImageValidator.totalImages s = ImageValidator.totalImages r
    /\ ImageValidator.failedImages s
       = ImageValidator.failedImages r
         ++ (if pushed : bool then [List.length (ImageValidator.heap r)] else [])
    /\ ImageValidator.images s
       = ImageValidator.images r ++ [List.length (ImageValidator.heap r)]
    /\ ImageValidator.warnings s = ImageValidator.warnings r
    /\ ImageValidator.heap s = ImageValidator.heap r ++ [info]
    /\ ImageValidator.info_src info
       = ImageValidator.strOr (ImageValidator.src img) (ImageValidator.currentSrc img)
    /\ ImageValidator.info_width info = ImageValidator.width img
    /\ ImageValidator.info_height info = ImageValidator.height img
    /\ (zeroSized img ->
        recordedFailed s
          (ImageValidator.strOr (ImageValidator.src img)
             (ImageValidator.currentSrc img))).

(** Assignments to an [imageInfo] that leave [src], [width] and
    [height] alone. *)
Definition keepsIdentity (f : ImageValidator.ImageInfo -> ImageValidator.ImageInfo)
  : Prop :=
  forall i, ImageValidator.info_src (f i) = ImageValidator.info_src i
            /\ ImageValidator.info_width (f i) = ImageValidator.info_width i
            /\ ImageValidator.info_height (f i) = ImageValidator.info_height i.

(** A property of [this.results] that validating one more image and
    recording a warning keep. *)
Definition stable (I : ImageValidator.Results -> Prop) : Prop :=
  (forall r img s, I r -> validated r img s -> I s)
  /\ (forall r w, I r -> I (ImageValidator.push_warning w r)).

(** The scroll step is positive and [fuel] covers the document height:
    the scroll loop then comes to its end within [fuel] iterations. *)
Definition enoughFuel (fuel : nat) (page : ImageValidator.Page) : Prop :=
  (0 < ImageValidator.viewportHeight page)%Z
  /\ forall sh, ImageValidator.scrollHeight page = Normal sh ->
                (sh <= Z.of_nat fuel)%Z.

(** The last two assignments of [validate]. *)
Definition concluded (r5 : ImageValidator.Results) : ImageValidator.Results :=
  ImageValidator.set_loadedImages
    (ImageValidator.totalImages r5
     - Z.of_nat (List.length (ImageValidator.failedImages r5)))%Z
    (ImageValidator.set_passed
       (bool_decide (List.length (ImageValidator.failedImages r5) = 0%nat)) r5).

(** Every reference of [failedImages] and [images] points into the heap. *)
Definition wellFormed (r : ImageValidator.Results) : Prop :=
  Forall (fun i => (i < List.length (ImageValidator.heap r))%nat)
    (ImageValidator.failedImages r)
  /\ Forall (fun i => (i < List.length (ImageValidator.heap r))%nat)
       (ImageValidator.images r).

(** Every processed image recorded with a zero width or height has an
    entry in [failedImages]. *)
Definition zeroSizedRecorded (r : ImageValidator.Results) : Prop :=
  forall info,
    In info (ImageValidator.deref r (ImageValidator.images r)) ->
    (ImageValidator.info_width info = 0 \/ ImageValidator.info_height info = 0)%Z ->
    recordedFailed r (ImageValidator.info_src info).

(** What [validate] returns on a page: [None] while out of fuel. *)
Definition audit (fuel : nat) (page : ImageValidator.Page)
  : Completion (option ImageValidator.Results) :=
  fst (ImageValidator.validate fuel page ImageValidator.initial).

(** ** The runner *)

(** The platform [detectPlatform] settles on. *)
Definition detectedPlatform (b : Runner.Session) : jsstring :=
  match Runner.call (Runner.detectPlatform b) tt with
  | Normal p => p
  | Throw _ => []
  end.

(** The platform the checks run with: the one passed in, or the
    detected one when none or ['auto'] is passed. *)
Definition effectivePlatform (b : Runner.Session) (platform : jsstring) : jsstring :=
  if bool_decide (platform = []) || streq platform (lit "auto")
  then detectedPlatform b
  else platform.

(** A message contains the pattern, case-insensitively. *)
Definition mentions (toLowerCase : jsstring -> jsstring)
    (message pattern : jsstring) : bool :=
  includes (toLowerCase message) pattern.

(** [toLowerCase] on text whose letters are ASCII. *)
Definition asciiToLowerCase (s : jsstring) : jsstring := List.map asciiLower s.

End Spec.

(* ===================================================================== *)
(** * Concrete runs *)
(* ===================================================================== *)

Module Examples.

Import ErrorDetector.
Local Open Scope string_scope.

Definition noMetrics : Completion Metrics := Throw (mkExn (lit "no timing") []).

Definition consoleWarnings (n : nat) : list Event :=
  repeat (ConsoleMessage (lit "warning") (lit "deprecated API")) n.

(** Console errors that name no fault and no tracker. *)
Definition faviconError : Event :=
  ConsoleMessage (lit "error") (lit "Failed to load resource: favicon.ico").

Definition plainConsoleErrors (n : nat) : list Event := repeat faviconError n.

(** A 404 on a picture. *)
Definition missingPicture : Event :=
  ResponseReceived
    (mkHttpResponse 404 (lit "https://shop.example/banner.jpg") (lit "Not Found")
       (Some (lit "GET")) None (lit "https://shop.example/products/shirt")).

Definition uncaughtTypeError : Event :=
  ConsoleMessage (lit "error") (lit "Uncaught TypeError: x is not a function").

Definition analyticsError : Event :=
  ConsoleMessage (lit "error")
    (lit "Failed to load https://www.Google-Analytics.com/analytics.js").

Definition trackingException : Event :=
  PageError (mkExn (lit "Uncaught ReferenceError: Tracking is not defined") []).

(** A product page: heading, price, two description blocks (a short
    teaser first), a submit button. *)
Definition element (text : string) (w h : Z) (isDisabled : bool)
  : ProductPageTester.ElementHandle :=
  ProductPageTester.mkHandle
    (ProductPageTester.mkNode (Some (lit text)) (inject_Z w) (inject_Z h) isDisabled)
    (fun _ => None).

Definition selectorError : Exn :=
  mkExn (lit "SyntaxError: Failed to execute 'querySelector'") [].

Definition pageQuery (table : list (string * ProductPageTester.ElementHandle))
    (s : jsstring) : Completion (option ProductPageTester.ElementHandle) :=
  if streq s (lit "h1:has(") then Throw selectorError
  else
    match List.find (fun kv => streq (lit (fst kv)) s) table with
    | Some kv => Normal (Some (snd kv))
    | None => Normal None
    end.

Definition shopNodes (buttonDisabled : bool)
  : list (string * ProductPageTester.ElementHandle) :=
  [("h1.title", element "  Linen Shirt " 400 40 false);
   (".price", element "$19.99" 80 20 false);
   (".teaser", element "Soft tee" 300 20 false);
   (".description", element "A soft linen shirt in five colours." 300 80 false);
   ("button.add", element "Add to cart" 120 40 buttonDisabled)].

Definition shopPage (buttonDisabled : bool) : ProductPageTester.Page :=
  ProductPageTester.mkPage
    (pageQuery (shopNodes buttonDisabled))
    (pageQuery (shopNodes buttonDisabled))
    (fun _ => Normal [])
    (Normal (lit "Linen Shirt - Shop"))
    (Normal (lit "A soft linen shirt."))
    None.

Definition shopSelectors : ProductPageTester.Selectors :=
  ProductPageTester.mkSelectors
    [lit "h1:has("; lit "h1.title"; lit "h1"]
    (Some [lit ".product__price"; lit ".price"])
    [lit ".teaser"; lit ".description"]
    [lit "button.add"]
    [lit "img.product"]
    [lit "select.variant"].

(** Images: a hero picture that is loaded, and a picture further down
    that appears on scrolling and is broken. *)
Definition heroNode : ImageValidator.DomImg :=
  ImageValidator.mkDomImg (lit "https://shop.example/hero.jpg")
    (lit "https://shop.example/hero.jpg") (lit "Linen shirt")
    800 400 600 300 true (lit "eager").

Definition brokenNode : ImageValidator.DomImg :=
  ImageValidator.mkDomImg (lit "https://shop.example/detail.jpg")
    (lit "https://shop.example/detail.jpg") (lit "Detail")
    0 0 0 0 false (lit "lazy").

Definition noConnection : Exn := mkExn (lit "Failed to fetch") [].

(** One picture at first, a second one after the first scroll step; the
    document is two viewports high. *)
Definition lazyPage : ImageValidator.Page :=
  ImageValidator.mkPage ∅ (Normal [heroNode])
    (fun _ => Normal (ImageValidator.FetchFailed noConnection))
    (Normal 2160%Z) 1080%Z (fun _ => None)
    (fun _ => Normal [heroNode; brokenNode]) None.

(** No picture at first, a broken one after the only scroll step. *)
Definition emptyThenBroken : ImageValidator.Page :=
  ImageValidator.mkPage ∅ (Normal [])
    (fun _ => Normal (ImageValidator.FetchFailed noConnection))
    (Normal 900%Z) 1080%Z (fun _ => None)
    (fun _ => Normal [brokenNode]) None.

(** A picture reported complete, answered with status 200, and of width 0. *)
Definition flatImage : ImageValidator.Img :=
  ImageValidator.mkImg (lit "https://shop.example/flat.png")
    (lit "https://shop.example/flat.png") (lit "Flat") 0 32 true (lit "eager").

Definition flatResponses : gmap jsstring ImageValidator.Response :=
  {[ lit "https://shop.example/flat.png"
     := ImageValidator.mkResponse 200 (lit "https://shop.example/flat.png") ]}.

(** One run of the runner on the shop: platform to be detected, the
    structural checks on [shopPage], the image checks on [lazyPage], an
    analytics error and two console warnings as signals. *)
Definition shopConfig : Runner.Config :=
  Runner.mkConfig {[ lit "shopify" := shopSelectors ]} defaultTolerance.

Definition shopSession : Runner.Session :=
  Runner.mkSession None (Some (mkExn (lit "Navigation timeout") [])) None
    (Normal (true, false)) (Normal (lit "https://shop.example/products/shirt"))
    (shopPage false) lazyPage
    (analyticsError :: consoleWarnings 2)
    noMetrics None.

End Examples.

(* ===================================================================== *)
(** * Signals by kind *)
(* ===================================================================== *)

Module Signals.

Import ErrorDetector.

(** The response is recorded with severity critical: a 5xx, or a 4xx on
    a critical resource. *)
Definition criticalResponse (response : HttpResponse) : bool :=
  (500 <=? r_status response)%Z
  || ((400 <=? r_status response)%Z && isCriticalResource (r_url response)).

(** The response is recorded with severity warning: a 4xx on a resource
    that is not critical. *)
Definition warningResponse (response : HttpResponse) : bool :=
  (400 <=? r_status response)%Z && negb (500 <=? r_status response)%Z
  && negb (isCriticalResource (r_url response)).

Section Messages.

Variable toLowerCase : jsstring -> jsstring.

(** The message matches an ignorable pattern. *)
Definition noise (text : jsstring) : bool :=
  existsb (fun pattern => includes (toLowerCase text) pattern) ignorablePatterns.

(** The message names an unhandled fault. *)
Definition faultMessage (text : jsstring) : bool :=
  includes (toLowerCase text) (lit "uncaught")
  || includes (toLowerCase text) (lit "syntax error")
  || includes (toLowerCase text) (lit "reference error")
  || includes (toLowerCase text) (lit "type error").

(** The event ends up as one critical entry of the finalized signal set. *)
Definition criticalSignal (ev : Event) : bool :=
  match ev with
  | ConsoleMessage type text =>
      streq type (lit "error") && negb (noise text) && faultMessage text
  | PageError error =>
      negb (noise (message error)) && faultMessage (message error)
  | RequestFailed _ _ _ => false
  | ResponseReceived response => criticalResponse response
  end.

End Messages.

(** The failure text of a failed request mentions CORS. *)
Definition mentionsCors (errorText : option jsstring) : bool :=
  match errorText with
  | Some t => includes t (lit "CORS") || includes t (lit "cors")
  | None => false
  end.

(** The entry a failed request is filed as; the failure text reads
    ['Unknown failure'] when there is none. *)
Definition failedRequest (url method : jsstring) (errorText : option jsstring)
  : Failure :=
  mkFailure url method
    (Some (match errorText with
           | Some (c :: s) => c :: s
           | _ => lit "Unknown failure"
           end))
    None None None None.

(** The event adds one to [totalWarnings]. *)
Definition warningSignal (ev : Event) : bool :=
  match ev with
  | ConsoleMessage type _ =>
      negb (streq type (lit "error")) && streq type (lit "warning")
  | ResponseReceived response => warningResponse response
  | _ => false
  end.

(** The number of events of a kind. *)
Definition countOf (kind : Event -> bool) (events : list Event) : Z :=
  Z.of_nat (List.length (List.filter kind events)).

(** The cookies [checkSecurityIssues] looks at. *)
Definition cookiesOf (response : HttpResponse) : list jsstring :=
  match r_setCookie response with
  | Some (HArray l) => l
  | Some (HString (c :: s)) => [c :: s]
  | _ => []
  end.

(** The number of findings [checkSecurityIssues] adds for a response. *)
Definition findingsOf (response : HttpResponse) : nat :=
  if startsWith (r_pageUrl response) (lit "https://") then
    (if startsWith (r_url response) (lit "http://") then 1 else 0)
    + List.length (List.filter (fun cookie => negb (includes cookie (lit "Secure")))
                     (cookiesOf response))
  else 0.

End Signals.

Module SignalsMore.

Import ErrorDetector.

(** The finding [checkPerformanceMetrics] records for a slow load. *)
Definition slowLoad (m : Metrics) : Finding :=
  mkFinding (lit "slow_load") None
    (lit "Page load time: " ++ numToString (loadComplete m) ++ lit "ms").

(** The number of findings the responses among the events give rise to. *)
Definition findingsIn (events : list Event) : nat :=
  list_sum (List.map (fun ev => match ev with
                                | ResponseReceived response => Signals.findingsOf response
                                | _ => 0%nat
                                end) events).

(** An entry of [networkFailures] that was counted in [totalErrors]:
    every one but the 4xx warnings. *)
Definition countedAsError (f : Failure) : bool :=
  negb (bool_decide (f_severity f = Some warning)).

(** The entries behind [totalErrors], as far as the result still holds them. *)
Definition errorEntries (r : Results) : Z :=
  Z.of_nat (List.length (consoleErrors r) + List.length (corsErrors r)
            + List.length (resourceFailures r)
            + List.length (List.filter countedAsError (networkFailures r))).

Section Noise.

Variable toLowerCase : jsstring -> jsstring.

(** A console error or uncaught exception that classification removes. *)
Definition noiseSignal (ev : Event) : bool :=
  match ev with
  | ConsoleMessage type text =>
      streq type (lit "error") && Signals.noise toLowerCase text
  | PageError error => Signals.noise toLowerCase (message error)
  | _ => false
  end.

End Noise.

End SignalsMore.

(* ===================================================================== *)
(** * Further concrete runs *)
(* ===================================================================== *)

Module Runs.

Import ErrorDetector.

Definition serverError : HttpResponse :=
  mkHttpResponse 503 (lit "https://shop.example/products/shirt.js")
    (lit "Service Unavailable") (Some (lit "GET")) None
    (lit "https://shop.example/products/shirt").

Definition missingStylesheet : HttpResponse :=
  mkHttpResponse 404 (lit "https://cdn.example/theme.css?v=3")
    (lit "Not Found") (Some (lit "GET")) None
    (lit "https://shop.example/products/shirt").

(** The same response seen on a plain HTTP page with a cookie. *)
Definition serverErrorHttp : HttpResponse :=
  mkHttpResponse 503 (lit "https://shop.example/products/shirt.js")
    (lit "Service Unavailable") None (Some (HString (lit "sid=1; Path=/")))
    (lit "http://shop.example/products/shirt").

End Runs.

(* ===================================================================== *)
(** * How an image is judged *)
(* ===================================================================== *)

Module Pictures.

Import ImageValidator.

(** The probe reports success: the fetch resolved with [ok] and a
    status that reads as 200 (an unset status reads as 200). *)
Definition probeSucceeds (o : Completion FetchOutcome) : bool :=
  match o with
  | Normal outcome =>
      probe_ok (probeResult outcome)
      && (probe_status (probeResult outcome) =? 200)%Z
  | Throw _ => false
  end.

(** The image is counted as loaded: by the DOM signal, else by the
    intercepted response, else by the probe. *)
Definition countsAsLoaded (page : Page) (m : gmap jsstring Response) (img : Img)
  : bool :=
  if complete img && (0 <? width img)%Z && (0 <? height img)%Z then true
  else
    match lookupResponse m img with
    | Some response => (resp_status response =? 200)%Z
    | None => probeSucceeds (fetchHead page (strOr (src img) (currentSrc img)))
    end.

(** The image has a zero width or height. *)
Definition zeroSizedb (img : Img) : bool :=
  (width img =? 0)%Z || (height img =? 0)%Z.

(** The image is reported for its missing alt text. *)
Definition needsAlt (img : Img) : bool :=
  (bool_decide (alt img = []) || (strlen (trim (alt img)) =? 0)%Z)
  && ((50 <? width img)%Z && (50 <? height img)%Z
      && negb (startsWith (src img) (lit "data:"))).

(** The reference [validateImage] adds to [failedImages], if any. *)
Definition failedRef (page : Page) (m : gmap jsstring Response) (img : Img)
    (r : Results) : list nat :=
  if countsAsLoaded page m img then
    if zeroSizedb img
       && negb (failedHasSrc r (strOr (src img) (currentSrc img)))
    then [List.length (heap r)] else []
  else [List.length (heap r)].

(** [images] lists every object made so far, in order; [failedImages]
    picks some of them, in order. *)
Definition tidy (r : Results) : Prop :=
  images r = seq 0 (List.length (heap r))
  /\ sublist (failedImages r) (images r).

(** What a run of [validateEach] over [n] images leaves alone and what
    it adds. *)
Definition grownBy (n : nat) (r s : Results) : Prop :=
  passed s = passed r /\ totalImages s = totalImages r
  /\ warnings s = warnings r
  /\ List.length (images s) = (List.length (images r) + n)%nat.

(** The warning [checkLazyLoadedImages] records for a fault. *)
Definition sweepWarning (e : Exn) : Warning :=
  mkWarning (lit "warning")
    (lit "Error checking lazy-loaded images: " ++ message e).

End Pictures.

(** Pages for the image checks. *)
Module Pages.

Import ImageValidator.

Definition detached : Exn := mkExn (lit "Execution context was destroyed") [].

(** The hero picture alone; reading the document height fails. *)
Definition noHeightPage : Page :=
  mkPage ∅ (Normal [Examples.heroNode])
    (fun _ => Normal (FetchFailed Examples.noConnection))
    (Throw detached) 1080%Z (fun _ => None)
    (fun _ => Normal [Examples.heroNode]) None.

(** The hero picture alone, a viewport of height 0. *)
Definition flatViewportPage : Page :=
  mkPage ∅ (Normal [Examples.heroNode])
    (fun _ => Normal (FetchFailed Examples.noConnection))
    (Normal 900%Z) 0%Z (fun _ => None)
    (fun _ => Normal [Examples.heroNode]) None.

(** The first listing of the images fails. *)
Definition closedPage : Page :=
  mkPage ∅ (Throw detached)
    (fun _ => Normal (FetchFailed Examples.noConnection))
    (Normal 900%Z) 1080%Z (fun _ => None)
    (fun _ => Normal []) None.

End Pages.

(* ===================================================================== *)
(** * What each step of the structural checklist contributes *)
(* ===================================================================== *)

Module Steps.

Import ProductPageTester Spec.

(** What a step adds to [this.results]: entries of [errors], entries of
    [warnings], and an update of [elements]. *)
Record Delta := mkDelta {
  d_errors : list Issue;
  d_warnings : list Issue;
  d_elements : Elements -> Elements
}.

Definition record (d : Delta) (r : Results) : Results :=
  mkResults (passed r) (errors r ++ d_errors d) (warnings r ++ d_warnings d)
            (d_elements d (elements r)).

(** The first candidate, in list order, for which [page.$$] answers
    with at least one element, and how many it answers with. *)
Fixpoint firstListing (qa : jsstring -> Completion (list ElementHandle))
    (candidates : list jsstring) : option (jsstring * nat) :=
  match candidates with
  | [] => None
  | s :: rest =>
      match qa s with
      | Normal l =>
          if (0 <? List.length l)%nat then Some (s, List.length l)
          else firstListing qa rest
      | Throw _ => firstListing qa rest
      end
  end.

Definition listed (found : jsstring * nat) : ElementInfo :=
  mkInfo true (Some (fst found)) None None None (Some (snd found)).

Definition pageLoad (page : Page) : Delta :=
  mkDelta []
    match loadWait page with
    | Some error =>
        [mkIssue (lit "page_load") None
           (lit "Page did not reach networkidle state within timeout")
           None (Some (message error))]
    | None => []
    end
    (fun e => e).

Definition titleStep (page : Page) (sel : Selectors) : Delta :=
  mkDelta
    match firstSuccess nonEmptyText (query page) (productTitle sel) with
    | Some _ => []
    | None => [mkIssue (lit "critical") (Some (lit "product_title"))
                 (lit "Product title not found on page")
                 (Some (productTitle sel)) None]
    end
    []
    (set_title (resolution true nonEmptyText (query page) (productTitle sel))).

Definition priceStep (page : Page) (sel : Selectors) : Delta :=
  mkDelta
    match firstSuccess looksLikePrice (waitForSelector page)
            (priceSelectors sel) with
    | Some _ => []
    | None => [mkIssue (lit "critical") (Some (lit "product_price"))
                 (lit "Product price not found on page")
                 (Some (priceSelectors sel)) None]
    end
    []
    (set_price (resolution true looksLikePrice (waitForSelector page)
                  (priceSelectors sel))).

Definition descriptionStep (page : Page) (sel : Selectors) : Delta :=
  mkDelta []
    match firstSuccess longEnoughText (query page) (productDescription sel) with
    | Some _ => []
    | None => [mkIssue (lit "warning") (Some (lit "product_description"))
                 (lit "Product description not found or too short")
                 (Some (productDescription sel)) None]
    end
    (set_description
       (resolution false longEnoughText (query page) (productDescription sel))).

Definition buttonStep (page : Page) (sel : Selectors) : Delta :=
  match firstButton (query page) (addToCart sel) with
  | Some (s, (v, e)) =>
      mkDelta (if v then [] else [buttonNotVisible])
        (if v && negb e then [buttonDisabled] else [])
        (set_addToCart (mkInfo true (Some s) None (Some v) (Some e) None))
  | None =>
      if existsb (matchesNode (query page)) (addToCart sel)
      then mkDelta [buttonNotVisible] [] (fun e => e)
      else mkDelta [buttonNotFound sel] [] (set_addToCart notFound)
  end.

Definition imagesStep (page : Page) (sel : Selectors) : Delta :=
  match firstListing (queryAll page) (productImage sel) with
  | Some found => mkDelta [] [] (set_images (listed found))
  | None =>
      mkDelta []
        [mkIssue (lit "warning") (Some (lit "product_images"))
           (lit "No product images found with standard selectors")
           (Some (productImage sel)) None]
        (set_images notFound)
  end.

Definition variantsStep (page : Page) (sel : Selectors) : Delta :=
  mkDelta [] []
    match firstListing (queryAll page) (productVariant sel) with
    | Some found => set_variants (listed found)
    | None => fun e => e
    end.

(** The description [testMetaInformation] records: [null] when reading
    it fails or gives the empty string. *)
Definition metaDescription (page : Page) : option jsstring :=
  match metaContent page with
  | Normal c => orNull (Some c)
  | Throw _ => None
  end.

Definition metaStep (page : Page) : Delta :=
  match title page with
  | Normal pageTitle =>
      mkDelta []
        ((if bool_decide (pageTitle = ([] : jsstring)) || (strlen pageTitle <? 5)%Z
          then [metaWarning "meta_title" "Page title is missing or too short"]
          else [])
         ++ match metaDescription page with
            | Some _ => []
            | None => [metaWarning "meta_description" "Meta description is missing"]
            end)
        (set_meta (mkMeta (orNull (Some pageTitle)) (metaDescription page)))
  | Throw error =>
      mkDelta []
        [mkIssue (lit "warning") (Some (lit "meta_information"))
           (lit "Error checking meta information: " ++ message error)
           None None]
        (fun e => e)
  end.

(** The steps of [test], in the order they run. *)
Definition checklist (page : Page) (sel : Selectors) : list Delta :=
  [pageLoad page; titleStep page sel; priceStep page sel;
   descriptionStep page sel; buttonStep page sel; imagesStep page sel;
   variantsStep page sel; metaStep page].

End Steps.

(* ===================================================================== *)
(** * Sessions of the runner *)
(* ===================================================================== *)

Module Sessions.

Import Runner.

(** [result] as [testProductPage] creates it. *)
Definition fresh (url platform : jsstring) : PageTestResult :=
  mkResult url platform (mkOverall true None None) None None None.

(** [result] once the platform is settled. *)
Definition settled (b : Session) (url platform : jsstring) : PageTestResult :=
  mkResult url (Spec.effectivePlatform b platform) (mkOverall true None None)
           None None None.

(** What the [catch] block of [testProductPage] writes. *)
Definition failedWith (error : Exn) : Overall :=
  mkOverall false (Some (message error)) (Some (JS.stack error)).

(** The shop visited while its images cannot be listed. *)
Definition closedSession : Session :=
  mkSession None None None
    (Normal (true, false)) (Normal (lit "https://shop.example/products/shirt"))
    (Examples.shopPage false) Pages.closedPage
    (Examples.consoleWarnings 2) Examples.noMetrics None.

(** A configuration without any selector profile. *)
Definition bareConfig : Config :=
  mkConfig ∅ ErrorDetector.defaultTolerance.

(** The shop, with a page that fails to close. *)
Definition stuckSession : Session :=
  mkSession None None None
    (Normal (true, false)) (Normal (lit "https://shop.example/products/shirt"))
    (Examples.shopPage false) Examples.lazyPage
    (Examples.consoleWarnings 2) Examples.noMetrics
    (Some (mkExn (lit "Protocol error: Target closed") [])).

(** A visit whose page cannot be opened. *)
Definition unopenedSession : Session :=
  mkSession (Some Pages.detached) None None
    (Normal (true, false)) (Normal []) (Examples.shopPage false)
    Examples.lazyPage [] Examples.noMetrics None.

End Sessions.

(* ===================================================================== *)
(** * Reporter (summary of a batch of page results) *)
(* ===================================================================== *)

Module Reporter.

(** [result.overall.passed] *)
Definition passedOverall (result : Runner.PageTestResult) : bool :=
  Runner.passed (Runner.overall result).

(** ** getOverallStatus *)
Definition getOverallStatus (testResults : list Runner.PageTestResult)
  : jsstring :=
  let allPassed := forallb passedOverall testResults in
  if allPassed then lit "PASSED" else lit "FAILED".

(** The [summary] object of [generateJSONReport]. *)
Record Summary := mkSummary {
  overallStatus : jsstring;
  totalTests : nat;
  passed : nat;
  failed : nat
}.

Definition jsonSummary (testResults : list Runner.PageTestResult) : Summary :=
  mkSummary (getOverallStatus testResults)
    (List.length testResults)
    (List.length (List.filter passedOverall testResults))
    (List.length (List.filter (fun r => negb (passedOverall r)) testResults)).

(** ** escapeHtml *)

(** The replacement of one code unit matched by the character class
    of ampersand, angle brackets, double quote and apostrophe. *)
Definition escapeUnit (c : N) : jsstring :=
  if (c =? 38)%N then lit "&amp;"
  else if (c =? 60)%N then lit "&lt;"
  else if (c =? 62)%N then lit "&gt;"
  else if (c =? 34)%N then lit "&quot;"
  else if (c =? 39)%N then lit "&#039;"
  else [c].

(** [String(text).replace(..., m => map[m])] on a string, every match
    of the class being replaced. *)
Definition escapeHtml (text : jsstring) : jsstring :=
  flat_map escapeUnit text.

(** ** generateSummary *)

(** The result holds the results of all three checks. *)
Definition complete (result : Runner.PageTestResult) : bool :=
  match Runner.productPage result, Runner.images result,
        Runner.errors result with
  | Some _, Some _, Some _ => true
  | _, _, _ => false
  end.

(** A code unit with a meaning in HTML markup outside entities. *)
Definition markup (c : N) : bool :=
  ((c =? 60) || (c =? 62) || (c =? 34) || (c =? 39))%N.

Definition nl : jsstring := [10%N].

(** [c.repeat(n)] for a one-unit string. *)
Definition rule (c : N) (n : nat) : jsstring := repeat c n.

(** [flag ? 'PASSED' : 'FAILED']; a missing flag is falsy. *)
Definition verdict (flag : option bool) : jsstring :=
  match flag with
  | Some true => lit "PASSED"
  | _ => lit "FAILED"
  end.

(** [summary += s] *)
Definition append (s : jsstring) : Op jsstring unit :=
  modify (fun summary => summary ++ s).

(** Reading [length] of a property an empty object does not have. *)
Definition lengthOfUndefined : Exn :=
  mkExn (lit "Cannot read properties of undefined (reading 'length')") [].

(** The callback of [testResults.forEach]. *)
Definition describeResult (index : nat) (result : Runner.PageTestResult)
  : Op jsstring unit :=
  append (lit "Test " ++ numToString (Z.of_nat index + 1) ++ lit ": "
          ++ Runner.url result ++ nl) >>
  append (lit "Status: " ++ verdict (Some (passedOverall result)) ++ nl) >>
  append (lit "Platform: " ++ Runner.platform result ++ nl) >>
  append (nl ++ lit "Product Page: "
          ++ verdict (option_map ProductPageTester.passed
                        (Runner.productPage result)) ++ nl) >>
  (match Runner.productPage result with
   | Some p =>
       append (lit "  Errors: "
               ++ numToString (Z.of_nat (List.length (ProductPageTester.errors p)))
               ++ nl) >>
       append (lit "  Warnings: "
               ++ numToString (Z.of_nat (List.length (ProductPageTester.warnings p)))
               ++ nl)
   | None => throw lengthOfUndefined
   end) >>
  append (nl ++ lit "Images: "
          ++ verdict (option_map ImageValidator.passed (Runner.images result))
          ++ nl) >>
  (match Runner.images result with
   | Some i =>
       append (lit "  Total: " ++ numToString (ImageValidator.totalImages i) ++ nl) >>
       append (lit "  Loaded: " ++ numToString (ImageValidator.loadedImages i) ++ nl) >>
       append (lit "  Failed: "
               ++ numToString (Z.of_nat (List.length (ImageValidator.failedImages i)))
               ++ nl)
   | None =>
       append (lit "  Total: undefined" ++ nl) >>
       append (lit "  Loaded: undefined" ++ nl) >>
       throw lengthOfUndefined
   end) >>
  append (nl ++ lit "Errors: "
          ++ verdict (option_map ErrorDetector.passed (Runner.errors result))
          ++ nl) >>
  (match Runner.errors result with
   | Some e =>
       append (lit "  Console Errors: "
               ++ numToString (Z.of_nat (List.length (ErrorDetector.consoleErrors e)))
               ++ nl) >>
       append (lit "  Network Failures: "
               ++ numToString (Z.of_nat (List.length (ErrorDetector.networkFailures e)))
               ++ nl) >>
       append (lit "  CORS Errors: "
               ++ numToString (Z.of_nat (List.length (ErrorDetector.corsErrors e)))
               ++ nl)
   | None => throw lengthOfUndefined
   end) >>
  append (nl ++ rule 45 60 ++ nl ++ nl).

(** [testResults.forEach((result, index) => ...)] *)
Fixpoint forEach {St A} (xs : list A) (index : nat)
    (f : nat -> A -> Op St unit) : Op St unit :=
  match xs with
  | [] => ret tt
  | x :: rest => f index x >> forEach rest (S index) f
  end.

(** [generated] is [new Date(timestamp).toLocaleString()]. *)
Definition generateSummary (generated : jsstring)
    (testResults : list Runner.PageTestResult) : Completion jsstring :=
  let overallStatus := getOverallStatus testResults in
  let passed := List.length (List.filter passedOverall testResults) in
  let failed :=
    List.length (List.filter (fun r => negb (passedOverall r)) testResults) in
  Runner.call
    (append (lit "Generated: " ++ generated ++ nl) >>
     append (nl ++ rule 61 60 ++ nl ++ nl) >>
     append (lit "Overall Status: " ++ overallStatus ++ nl) >>
     append (lit "Total Tests: "
             ++ numToString (Z.of_nat (List.length testResults)) ++ nl) >>
     append (lit "Passed: " ++ numToString (Z.of_nat passed) ++ nl) >>
     append (lit "Failed: " ++ numToString (Z.of_nat failed) ++ nl) >>
     append (nl ++ rule 61 60 ++ nl ++ nl) >>
     forEach testResults 0 describeResult >>
     get)
    (lit "Ecommerce Test Automation Report" ++ nl).

End Reporter.

(* ===================================================================== *)
(** * Configuration *)
(* ===================================================================== *)

Module Config.

Import ProductPageTester.

(** An attribute selector [[name="value"]]; [name] carries the
    operator prefix, as in [class*]. *)
Definition attr (name value : string) : jsstring :=
  lit "[" ++ lit name ++ lit "=" ++ [34%N] ++ lit value ++ [34%N] ++ lit "]".

(** [defaultConfig.selectors.shopify] *)
Definition shopify : Selectors :=
  mkSelectors
    [lit "h1" ++ attr "class*" "product" ++ attr "class*" "title";
     lit "h1" ++ attr "data-product*" "title";
     lit "*" ++ attr "class*" "title"]
    (Some [attr "class*" "price"; attr "data-product*" "price";
           lit ".product__price"; lit ".price-current"])
    [attr "class*" "description"; attr "data-product*" "description";
     lit "*" ++ attr "class*" "rte accordion-content";
     attr "id*" "description"]
    [lit "button" ++ attr "name*" "add"; lit "button" ++ attr "type*" "submit";
     attr "data-testid" "pdp-addToBag-submit"; lit "[data-add-to-cart]"]
    [lit "img" ++ attr "class*" "product"; attr "data-product*" "image";
     lit "img" ++ attr "src*" "product"; lit ".product__media img";
     lit ".product-single__photo img"]
    [lit "select" ++ attr "name*" "id"; attr "class*" "variant-size";
     lit "select" ++ attr "class*" "variant"; attr "data-variant*" "select";
     lit ".product-form__input select"].

(** [defaultConfig.selectors.bigcommerce] *)
Definition bigcommerce : Selectors :=
  mkSelectors
    [lit "h1.product-title"; lit "h1[data-product-title]";
     lit ".productView-title"; lit "h1"]
    (Some [lit ".price"; lit ".product-price"; lit "[data-product-price]";
           lit ".productView-price"])
    [lit ".product-description"; lit "[data-product-description]";
     lit ".productView-description"]
    [lit "button" ++ attr "data-button-type" "add-cart";
     lit "button.add-to-cart"; lit "[data-product-id] button";
     lit "button" ++ attr "type" "submit"]
    [lit "img.product-image"; lit ".productView-images img";
     lit "[data-product-image]"; lit ".productView-image img"]
    [lit "select" ++ attr "name*" "option"; lit "select.product-option";
     lit "[data-product-option]"].

Definition defaultSelectors : gmap jsstring Selectors :=
  <[lit "shopify" := shopify]> (<[lit "bigcommerce" := bigcommerce]> ∅).

(** The part of [defaultConfig] the checks read. *)
Definition defaultConfig : Runner.Config :=
  Runner.mkConfig defaultSelectors ErrorDetector.defaultTolerance.

(** [userConfig.errorTolerance]; [None] is an absent key. *)
Record UserTolerance := mkUserTolerance {
  u_critical : option Z;
  u_warning : option Z;
  u_network : option Z
}.

(** The part of a parsed configuration file [mergeConfig] passes on
    to the checks; [None] is an absent key.  A profile of
    [userConfig.selectors] is taken to list its candidates as
    [Selectors] has them. *)
Record UserConfig := mkUserConfig {
  u_selectors : option (gmap jsstring Selectors);
  u_errorTolerance : option UserTolerance
}.

(** [{ ...defaults, ...user }] on one key. *)
Definition spread {A} (defaults : A) (user : option A) : A :=
  match user with
  | Some x => x
  | None => defaults
  end.

(** ** mergeConfig *)
Definition mergeConfig (userConfig : UserConfig) : Runner.Config :=
  Runner.mkConfig
    match u_selectors userConfig with
    | Some user => user ∪ defaultSelectors
    | None => defaultSelectors
    end
    match u_errorTolerance userConfig with
    | Some user =>
        ErrorDetector.mkTolerance
          (spread (ErrorDetector.tol_critical ErrorDetector.defaultTolerance)
                  (u_critical user))
          (spread (ErrorDetector.tol_warning ErrorDetector.defaultTolerance)
                  (u_warning user))
          (spread (ErrorDetector.tol_network ErrorDetector.defaultTolerance)
                  (u_network user))
    | None => ErrorDetector.defaultTolerance
    end.

(** The profile [userConfig] gives for a platform, if any. *)
Definition userProfile (userConfig : UserConfig) (platform : jsstring)
  : option Selectors :=
  match u_selectors userConfig with
  | Some user => user !! platform
  | None => None
  end.

End Config.

(* ===================================================================== *)
(** * The runner: a batch of product pages *)
(* ===================================================================== *)

Module Main.

Import Runner.

Section Batch.

Variable toLowerCase : jsstring -> jsstring.

(** The loop of [main] over [productUrls], [testResults] being the
    results pushed so far.  Each URL comes with what the browser does
    while it is visited.  [None] when a visit does not come to an end
    within [fuel]. *)
Fixpoint runAll (fuel : nat) (visits : list (jsstring * Session))
    (config : Config) (platform : jsstring)
    (testResults : list PageTestResult)
  : option (Completion (list PageTestResult)) :=
  match visits with
  | [] => Some (Normal testResults)
  | (url, b) :: rest =>
      match testProductPage toLowerCase fuel b url config
              (ImageValidator.strOr platform (lit "auto")) with
      | None => None
      | Some (Throw e) => Some (Throw e)
      | Some (Normal result) =>
          runAll fuel rest config platform (testResults ++ [result])
      end
  end.

End Batch.

End Main.

(* ===================================================================== *)
(** * Interception of image responses *)
(* ===================================================================== *)

Module Interception.

Import ImageValidator.

Section ImageUrls.

Variable toLowerCase : jsstring -> jsstring.

Definition imageExtensions : list jsstring :=
  [lit ".jpg"; lit ".jpeg"; lit ".png"; lit ".gif"; lit ".webp"; lit ".svg";
   lit ".bmp"; lit ".ico"].

(** How the [i] flag compares a code unit with an ASCII pattern
    character: ASCII letters match in both cases, every other code unit
    only itself. *)
Definition foldCase (c : N) : N :=
  if ((97 <=? c) && (c <=? 122))%N then (c - 32)%N else c.

(** The rest of [s] after a case-insensitive match of [p] at its start. *)
Fixpoint afterPrefix (s p : jsstring) : option jsstring :=
  match p, s with
  | [], _ => Some s
  | _ :: _, [] => None
  | c :: p', d :: s' =>
      if (foldCase c =? foldCase d)%N then afterPrefix s' p' else None
  end.

(** The pattern [\.(jpg|jpeg|png|gif|webp|svg|bmp|ico)(\?|$)] matches at
    the start of [s]. *)
Definition extensionHere (s : jsstring) : bool :=
  existsb
    (fun ext =>
       match afterPrefix s ext with
       | Some [] => true
       | Some (c :: _) => (c =? 63)%N
       | None => false
       end)
    imageExtensions.

(** [/\.(jpg|jpeg|png|gif|webp|svg|bmp|ico)(\?|$)/i.test(url)] *)
Fixpoint extensionTest (url : jsstring) : bool :=
  extensionHere url
  || match url with
     | [] => false
     | _ :: rest => extensionTest rest
     end.

(** ** isImageUrl *)
Definition isImageUrl (url : jsstring) : bool :=
  let urlLower := toLowerCase url in
  existsb (fun ext => includes urlLower ext) imageExtensions
  || includes urlLower (lit "image")
  || extensionTest url.

(** A response as the listener of [validate] reads it. *)
Record Seen := mkSeen {
  seen_url : jsstring;
  seen_status : Z
}.

(** The ['response'] listener of [validate]. *)
Definition onResponse (imageResponses : gmap jsstring Response)
    (response : Seen) : gmap jsstring Response :=
  let url := seen_url response in
  if isImageUrl url
  then <[url := mkResponse (seen_status response) url]> imageResponses
  else imageResponses.

(** [imageResponses] after the listener has been called on each of
    [responses], in order. *)
Definition intercept (responses : list Seen) : gmap jsstring Response :=
  fold_left onResponse responses ∅.

End ImageUrls.

(** A script answered with 404 and a picture answered first with 404,
    then with 200. *)
Definition traffic : list Seen :=
  [mkSeen (lit "https://shop.example/app.js") 404;
   mkSeen (lit "https://shop.example/hero.jpg") 404;
   mkSeen (lit "https://shop.example/hero.jpg") 200].

(** A picture served without an extension, not reported complete. *)
Definition servedById : Img :=
  mkImg (lit "https://cdn.example/p?id=7") (lit "https://cdn.example/p?id=7")
    (lit "Shirt") 0 0 false (lit "lazy").

End Interception.

(* ===================================================================== *)
(** * Properties of the signal classifier *)
(* ===================================================================== *)

Section ClassifierFacts.

Import ErrorDetector Spec.

Variable toLowerCase : jsstring -> jsstring.

Lemma checkPerformanceMetrics_normal metrics r :
  fst (checkPerformanceMetrics metrics r) = Normal tt.
Proof.
  unfold checkPerformanceMetrics, try_catch, bind, await, modify, ret.
  destruct metrics as [m|e]; simpl; [|reflexivity].
  destruct (5000 <? loadComplete m)%Z; reflexivity.
Qed.

(** [checkPerformanceMetrics] only ever appends a performance warning. *)
Lemma checkPerformanceMetrics_frame metrics r :
  let r' := snd (checkPerformanceMetrics metrics r) in
  consoleErrors r' = consoleErrors r
  /\ networkFailures r' = networkFailures r
  /\ resourceFailures r' = resourceFailures r
  /\ totalWarnings r' = totalWarnings r.
Proof.
  unfold checkPerformanceMetrics, try_catch, bind, await, modify, ret.
  destruct metrics as [m|e]; simpl; [|tauto].
  destruct (5000 <? loadComplete m)%Z; simpl; tauto.
Qed.

Lemma detect_returns tolerance metrics r :
  fst (detect toLowerCase tolerance metrics r)
  = Normal (finalized toLowerCase tolerance metrics r).
Proof.
  unfold finalized, detect, bind, modify, get.
  pose proof (checkPerformanceMetrics_normal metrics r) as H.
  destruct (checkPerformanceMetrics metrics r) as [c r1]; simpl in *.
  subst c. reflexivity.
Qed.

(** The record [detect] leaves behind, spelled out. *)
Lemma finalized_eq tolerance metrics r :
  finalized toLowerCase tolerance metrics r
  = let r1 := analyzeErrors toLowerCase (snd (checkPerformanceMetrics metrics r)) in
    set_passed (checkErrorTolerance tolerance r1) r1.
Proof.
  unfold finalized, detect, bind, modify, get.
  pose proof (checkPerformanceMetrics_normal metrics r) as H.
  destruct (checkPerformanceMetrics metrics r) as [c r1]; simpl in *.
  subst c. reflexivity.
Qed.

Lemma checkErrorTolerance_spec tolerance r :
  checkErrorTolerance tolerance r = true
  <-> (criticalCount r <= tol_critical tolerance
       /\ totalWarnings r <= tol_warning tolerance)%Z.
Proof.
  unfold checkErrorTolerance, criticalCount.
  rewrite !Nat2Z.inj_add.
  destruct (Z.ltb_spec (tol_critical tolerance)
    (Z.of_nat (List.length (List.filter (fun e => isCritical (ce_severity e)) (consoleErrors r)))
     + Z.of_nat (List.length (List.filter (fun f => isCritical (f_severity f)) (networkFailures r)))
     + Z.of_nat (List.length (List.filter (fun f => isCritical (f_severity f)) (resourceFailures r)))));
  destruct (Z.ltb_spec (tol_warning tolerance) (totalWarnings r));
  split; intros; try discriminate; try reflexivity; lia.
Qed.

Lemma criticalCount_set_passed b r :
  criticalCount (set_passed b r) = criticalCount r.
Proof. reflexivity. Qed.

Lemma passed_finalized tolerance metrics r :
  passed (finalized toLowerCase tolerance metrics r) = true
  <-> (criticalCount (finalized toLowerCase tolerance metrics r)
         <= tol_critical tolerance
       /\ totalWarnings (finalized toLowerCase tolerance metrics r)
         <= tol_warning tolerance)%Z.
Proof.
  rewrite finalized_eq. cbv zeta.
  set (r1 := analyzeErrors toLowerCase (snd (checkPerformanceMetrics metrics r))).
  rewrite criticalCount_set_passed.
  exact (checkErrorTolerance_spec tolerance r1).
Qed.

End ClassifierFacts.

Section Listeners.

Import ErrorDetector Spec.

Lemma checkSecurityIssues_frame response r :
  consoleErrors (checkSecurityIssues response r) = consoleErrors r
  /\ networkFailures (checkSecurityIssues response r) = networkFailures r
  /\ resourceFailures (checkSecurityIssues response r) = resourceFailures r
  /\ totalWarnings (checkSecurityIssues response r) = totalWarnings r.
Proof.
  unfold checkSecurityIssues.
  match goal with
  | |- context [fold_left ?f ?cs ?r1] =>
      assert (Hf : forall l x,
                 consoleErrors (fold_left f l x) = consoleErrors x
                 /\ networkFailures (fold_left f l x) = networkFailures x
                 /\ resourceFailures (fold_left f l x) = resourceFailures x
                 /\ totalWarnings (fold_left f l x) = totalWarnings x);
      [|destruct (Hf cs r1) as (-> & -> & -> & ->)]
  end.
  - induction l as [|c l IH]; intros x; simpl; [tauto|].
    destruct (IH (if negb (includes c (lit "Secure"))
                     && startsWith (r_pageUrl response) (lit "https://")
                  then push_securityError
                         (mkFinding (lit "insecure_cookie") (Some (r_url response))
                            (lit "Cookie set without Secure flag on HTTPS page")) x
                  else x)) as (-> & -> & -> & ->).
    destruct (_ && _); simpl; tauto.
  - destruct (_ && _); simpl; tauto.
Qed.

(** Every listener appends what [newConsoleEntries] says, nothing else. *)
Lemma handle_consoleErrors r ev :
  consoleErrors (handle r ev) = consoleErrors r ++ newConsoleEntries ev.
Proof.
  destruct ev as [type text|error|url method errorText|response]; simpl.
  - unfold onConsole. destruct (streq type (lit "error")); simpl.
    + reflexivity.
    + destruct (streq type (lit "warning")); simpl; now rewrite app_nil_r.
  - reflexivity.
  - unfold onRequestFailed.
    destruct (match errorText with Some t => _ | None => false end);
      simpl; now rewrite app_nil_r.
  - unfold onResponse.
    destruct (checkSecurityIssues_frame response
      (if (400 <=? r_status response)%Z
       then
         if (500 <=? r_status response)%Z
         then incr_totalErrors (push_networkFailure
                (mkFailure (r_url response)
                   match r_method response with Some m => m | None => lit "GET" end
                   None (Some (r_status response)) (Some (r_statusText response))
                   (Some critical) None) r)
         else
           if isCriticalResource (r_url response)
           then incr_totalErrors (push_resourceFailure
                  (mkFailure (r_url response)
                     match r_method response with Some m => m | None => lit "GET" end
                     None (Some (r_status response)) (Some (r_statusText response))
                     (Some critical) (Some (getResourceType (r_url response)))) r)
           else incr_totalWarnings (push_networkFailure
                  (mkFailure (r_url response)
                     match r_method response with Some m => m | None => lit "GET" end
                     None (Some (r_status response)) (Some (r_statusText response))
                     (Some warning) None) r)
       else r)) as (H & _).
    rewrite H, app_nil_r.
    repeat (destruct (_ <=? _)%Z; simpl; try reflexivity).
    destruct (isCriticalResource _); reflexivity.
Qed.

Lemma listen_consoleErrors events r :
  consoleErrors (listen events r)
  = consoleErrors r ++ flat_map newConsoleEntries events.
Proof.
  unfold listen. revert r.
  induction events as [|ev evs IH]; intros r; simpl.
  - now rewrite app_nil_r.
  - rewrite IH, handle_consoleErrors, <- app_assoc. reflexivity.
Qed.

(** No listener reads [consoleErrors] to decide what else it records. *)
Lemma handle_sameOtherSignals r r' ev :
  sameOtherSignals r r' -> sameOtherSignals (handle r ev) (handle r' ev).
Proof.
  unfold sameOtherSignals. intros (Hn & Hr & Hw).
  destruct ev as [type text|error|url method errorText|response]; simpl.
  - unfold onConsole.
    destruct (streq type (lit "error")); simpl; [tauto|].
    destruct (streq type (lit "warning")); simpl; [|tauto].
    repeat split; congruence.
  - tauto.
  - unfold onRequestFailed.
    destruct (match errorText with Some t => _ | None => false end); simpl;
      repeat split; congruence.
  - unfold onResponse.
    match goal with
    | |- context [checkSecurityIssues response ?a] =>
        destruct (checkSecurityIssues_frame response a) as (_ & -> & -> & ->)
    end.
    match goal with
    | |- context [networkFailures (checkSecurityIssues response ?a)] =>
        destruct (checkSecurityIssues_frame response a) as (_ & -> & -> & ->)
    end.
    repeat (destruct (_ <=? _)%Z; simpl; try tauto);
      try (destruct (isCriticalResource _); simpl);
      repeat split; congruence.
Qed.

Lemma listen_sameOtherSignals events r r' :
  sameOtherSignals r r' ->
  sameOtherSignals (listen events r) (listen events r').
Proof.
  unfold listen. revert r r'.
  induction events as [|ev evs IH]; intros r r' H; simpl.
  - exact H.
  - apply IH, handle_sameOtherSignals, H.
Qed.

Lemma listen_app evs1 evs2 r :
  listen (evs1 ++ evs2) r = listen evs2 (listen evs1 r).
Proof. unfold listen. apply fold_left_app. Qed.

End Listeners.

Section NoiseFiltering.

Import ErrorDetector Spec.

Variable toLowerCase : jsstring -> jsstring.

(** What [detect] does to the fields the verdict reads. *)
Lemma finalized_fields tolerance metrics r :
  consoleErrors (finalized toLowerCase tolerance metrics r)
  = List.map (categorize toLowerCase)
      (List.filter (notIgnorable toLowerCase) (consoleErrors r))
  /\ sameOtherSignals (finalized toLowerCase tolerance metrics r) r.
Proof.
  rewrite finalized_eq. cbv zeta. unfold sameOtherSignals.
  destruct (checkPerformanceMetrics_frame metrics r) as (Hc & Hn & Hr & Hw).
  simpl. rewrite Hc, Hn, Hr, Hw. tauto.
Qed.

(** The verdict is a function of the fields [criticalCount] and
    [totalWarnings] read. *)
Lemma verdict_ext tolerance metrics r r' :
  consoleErrors (finalized toLowerCase tolerance metrics r)
  = consoleErrors (finalized toLowerCase tolerance metrics r') ->
  sameOtherSignals r r' ->
  criticalCount (finalized toLowerCase tolerance metrics r)
  = criticalCount (finalized toLowerCase tolerance metrics r')
  /\ totalWarnings (finalized toLowerCase tolerance metrics r)
     = totalWarnings (finalized toLowerCase tolerance metrics r')
  /\ passed (finalized toLowerCase tolerance metrics r)
     = passed (finalized toLowerCase tolerance metrics r').
Proof.
  intros Hc (Hn & Hr & Hw).
  destruct (finalized_fields tolerance metrics r) as (_ & Hn1 & Hr1 & Hw1).
  destruct (finalized_fields tolerance metrics r') as (_ & Hn2 & Hr2 & Hw2).
  assert (Hcc : criticalCount (finalized toLowerCase tolerance metrics r)
                = criticalCount (finalized toLowerCase tolerance metrics r')).
  { unfold criticalCount. rewrite Hc, Hn1, Hr1, Hn2, Hr2, Hn, Hr. reflexivity. }
  assert (Hww : totalWarnings (finalized toLowerCase tolerance metrics r)
                = totalWarnings (finalized toLowerCase tolerance metrics r')).
  { rewrite Hw1, Hw2. exact Hw. }
  repeat split; try assumption.
  apply eq_true_iff_eq.
  rewrite !passed_finalized, Hcc, Hww. reflexivity.
Qed.

Lemma console_event_sameOtherSignals ev r :
  newConsoleEntries ev <> [] -> sameOtherSignals (handle r ev) r.
Proof.
  unfold sameOtherSignals.
  destruct ev as [type text|error|url method errorText|response]; simpl;
    try congruence; try tauto.
  unfold onConsole. destruct (streq type (lit "error")); simpl; [tauto|congruence].
Qed.

(** An event whose console entry is ignorable leaves no trace in what
    the verdict reads. *)
Lemma ignorable_event_vanishes tolerance metrics collected before after ev entry :
  newConsoleEntries ev = [entry] ->
  notIgnorable toLowerCase entry = false ->
  consoleErrors (finalized toLowerCase tolerance metrics
                   (listen (before ++ ev :: after) collected))
  = consoleErrors (finalized toLowerCase tolerance metrics
                     (listen (before ++ after) collected))
  /\ criticalCount (finalized toLowerCase tolerance metrics
                      (listen (before ++ ev :: after) collected))
     = criticalCount (finalized toLowerCase tolerance metrics
                        (listen (before ++ after) collected))
  /\ totalWarnings (finalized toLowerCase tolerance metrics
                      (listen (before ++ ev :: after) collected))
     = totalWarnings (finalized toLowerCase tolerance metrics
                        (listen (before ++ after) collected))
  /\ passed (finalized toLowerCase tolerance metrics
               (listen (before ++ ev :: after) collected))
     = passed (finalized toLowerCase tolerance metrics
                 (listen (before ++ after) collected)).
Proof.
  intros Hev Hig.
  assert (Hc : consoleErrors (finalized toLowerCase tolerance metrics
                   (listen (before ++ ev :: after) collected))
             = consoleErrors (finalized toLowerCase tolerance metrics
                     (listen (before ++ after) collected))).
  { destruct (finalized_fields tolerance metrics
                (listen (before ++ ev :: after) collected)) as (-> & _).
    destruct (finalized_fields tolerance metrics
                (listen (before ++ after) collected)) as (-> & _).
    rewrite !listen_consoleErrors, !flat_map_app. simpl flat_map.
    rewrite Hev, !List.filter_app. simpl. rewrite Hig. reflexivity. }
  split; [exact Hc|].
  apply verdict_ext; [exact Hc|].
  rewrite !listen_app. simpl.
  change (fold_left handle after
            (handle (listen before collected) ev))
    with (listen after (handle (listen before collected) ev)).
  apply listen_sameOtherSignals, console_event_sameOtherSignals.
  rewrite Hev. discriminate.
Qed.

(** After classification no console entry mentions an ignorable pattern. *)
Lemma finalized_no_ignorable tolerance metrics collected pattern e :
  In pattern ignorablePatterns ->
  In e (consoleErrors (finalized toLowerCase tolerance metrics collected)) ->
  mentions toLowerCase (ce_message e) pattern = false.
Proof.
  intros Hp He.
  destruct (finalized_fields tolerance metrics collected) as (Hc & _).
  rewrite Hc in He. apply in_map_iff in He as (e0 & <- & He0).
  apply List.filter_In in He0 as (_ & Hn).
  unfold notIgnorable in Hn. apply negb_true_iff in Hn.
  simpl ce_message. unfold mentions.
  destruct (includes (toLowerCase (ce_message e0)) pattern) eqn:Hi; [|reflexivity].
  assert (existsb (fun pattern => includes (toLowerCase (ce_message e0)) pattern)
                  ignorablePatterns = true) as Hex.
  { apply existsb_exists. exists pattern. split; assumption. }
  congruence.
Qed.

Lemma mentions_ignorable message pattern :
  In pattern ignorablePatterns ->
  mentions toLowerCase message pattern = true ->
  forall type severity,
    notIgnorable toLowerCase (mkConsoleError type message severity) = false.
Proof.
  intros Hp Hm type severity. unfold notIgnorable. simpl ce_message.
  apply negb_false_iff, existsb_exists. exists pattern. split; assumption.
Qed.

End NoiseFiltering.

(** C7.  A console error whose message contains "google-analytics",
    case-insensitively, is removed during classification: the finalized
    console errors, the critical count, the warning counter and the
    verdict are those of the run without that message, and no finalized
    console error mentions the pattern. *)
Theorem C7_google_analytics_removed
    (toLowerCase : jsstring -> jsstring)
    (tolerance : ErrorDetector.ErrorTolerance)
    (metrics : Completion ErrorDetector.Metrics)
    (collected : ErrorDetector.Results)
    (before after : list ErrorDetector.Event) (text : jsstring) :
  Spec.mentions toLowerCase text (lit "google-analytics") = true ->
  ErrorDetector.consoleErrors
    (Spec.finalized toLowerCase tolerance metrics
       (ErrorDetector.listen
          (before ++ ErrorDetector.ConsoleMessage (lit "error") text :: after) collected))
  = ErrorDetector.consoleErrors
      (Spec.finalized toLowerCase tolerance metrics
         (ErrorDetector.listen (before ++ after) collected))
  /\ Spec.criticalCount
       (Spec.finalized toLowerCase tolerance metrics
          (ErrorDetector.listen
             (before ++ ErrorDetector.ConsoleMessage (lit "error") text :: after) collected))
     = Spec.criticalCount
         (Spec.finalized toLowerCase tolerance metrics
            (ErrorDetector.listen (before ++ after) collected))
  /\ ErrorDetector.totalWarnings
       (Spec.finalized toLowerCase tolerance metrics
          (ErrorDetector.listen
             (before ++ ErrorDetector.ConsoleMessage (lit "error") text :: after) collected))
     = ErrorDetector.totalWarnings
         (Spec.finalized toLowerCase tolerance metrics
            (ErrorDetector.listen (before ++ after) collected))
  /\ ErrorDetector.passed
       (Spec.finalized toLowerCase tolerance metrics
          (ErrorDetector.listen
             (before ++ ErrorDetector.ConsoleMessage (lit "error") text :: after) collected))
     = ErrorDetector.passed
         (Spec.finalized toLowerCase tolerance metrics
            (ErrorDetector.listen (before ++ after) collected))
  /\ Forall (fun e => Spec.mentions toLowerCase (ErrorDetector.ce_message e)
                        (lit "google-analytics") = false)
       (ErrorDetector.consoleErrors
          (Spec.finalized toLowerCase tolerance metrics
             (ErrorDetector.listen
                (before ++ ErrorDetector.ConsoleMessage (lit "error") text :: after)
                collected))).
Proof.
  intros Hm.
  assert (Hp : In (lit "google-analytics") ErrorDetector.ignorablePatterns)
    by (simpl; tauto).
  pose proof (ignorable_event_vanishes toLowerCase tolerance metrics collected
                before after (ErrorDetector.ConsoleMessage (lit "error") text)
                (ErrorDetector.mkConsoleError (lit "console_error") text None)
                eq_refl
                (mentions_ignorable toLowerCase text _ Hp Hm _ _))
    as (H1 & H2 & H3 & H4).
  repeat split; try assumption.
  apply List.Forall_forall. intros e He.
  eapply finalized_no_ignorable; eassumption.
Qed.

(** C7 on a run with two console warnings followed by a failed load of
    the analytics script. *)
Lemma C7_google_analytics_removed_witness :
  Spec.mentions Spec.asciiToLowerCase
    (lit "Failed to load https://www.Google-Analytics.com/analytics.js")
    (lit "google-analytics") = true
  /\ ErrorDetector.passed
       (Spec.finalized Spec.asciiToLowerCase ErrorDetector.defaultTolerance
          Examples.noMetrics
          (ErrorDetector.listen
             (Examples.consoleWarnings 2 ++ Examples.analyticsError :: [])
             ErrorDetector.initial))
     = ErrorDetector.passed
         (Spec.finalized Spec.asciiToLowerCase ErrorDetector.defaultTolerance
            Examples.noMetrics
            (ErrorDetector.listen (Examples.consoleWarnings 2 ++ [])
               ErrorDetector.initial)).
Proof.
  split; [vm_compute; reflexivity|].
  apply (C7_google_analytics_removed Spec.asciiToLowerCase
           ErrorDetector.defaultTolerance Examples.noMetrics ErrorDetector.initial
           (Examples.consoleWarnings 2) []
           (lit "Failed to load https://www.Google-Analytics.com/analytics.js")).
  vm_compute; reflexivity.
Defined.

(** C10.  An uncaught in-page exception is appended to the console-error
    list like a console error message of the same text and is filtered
    and tagged by the same functions; when its message contains an
    ignorable pattern ("analytics", "facebook" and "tracking" are such)
    it is removed: the finalized console errors, the critical count, the
    warning counter and the verdict are those of the run without it. *)
Theorem C10_uncaught_exception_noise
    (toLowerCase : jsstring -> jsstring)
    (tolerance : ErrorDetector.ErrorTolerance)
    (metrics : Completion ErrorDetector.Metrics)
    (collected : ErrorDetector.Results)
    (before after : list ErrorDetector.Event) (error : Exn) (pattern : jsstring) :
  In pattern ErrorDetector.ignorablePatterns ->
  Spec.mentions toLowerCase (message error) pattern = true ->
  (In (lit "analytics") ErrorDetector.ignorablePatterns
   /\ In (lit "facebook") ErrorDetector.ignorablePatterns
   /\ In (lit "tracking") ErrorDetector.ignorablePatterns)
  /\ (forall r,
        ErrorDetector.consoleErrors (ErrorDetector.handle r (ErrorDetector.PageError error))
        = ErrorDetector.consoleErrors r
          ++ [ErrorDetector.mkConsoleError (lit "page_error") (message error) None]
        /\ ErrorDetector.consoleErrors
             (ErrorDetector.handle r
                (ErrorDetector.ConsoleMessage (lit "error") (message error)))
           = ErrorDetector.consoleErrors r
             ++ [ErrorDetector.mkConsoleError (lit "console_error") (message error) None])
  /\ (forall text severity,
        ErrorDetector.notIgnorable toLowerCase
          (ErrorDetector.mkConsoleError (lit "page_error") text severity)
        = ErrorDetector.notIgnorable toLowerCase
            (ErrorDetector.mkConsoleError (lit "console_error") text severity)
        /\ ErrorDetector.ce_severity
             (ErrorDetector.categorize toLowerCase
                (ErrorDetector.mkConsoleError (lit "page_error") text severity))
           = ErrorDetector.ce_severity
               (ErrorDetector.categorize toLowerCase
                  (ErrorDetector.mkConsoleError (lit "console_error") text severity)))
  /\ ErrorDetector.consoleErrors
       (Spec.finalized toLowerCase tolerance metrics
          (ErrorDetector.listen
             (before ++ ErrorDetector.PageError error :: after) collected))
     = ErrorDetector.consoleErrors
         (Spec.finalized toLowerCase tolerance metrics
            (ErrorDetector.listen (before ++ after) collected))
  /\ Spec.criticalCount
       (Spec.finalized toLowerCase tolerance metrics
          (ErrorDetector.listen
             (before ++ ErrorDetector.PageError error :: after) collected))
     = Spec.criticalCount
         (Spec.finalized toLowerCase tolerance metrics
            (ErrorDetector.listen (before ++ after) collected))
  /\ ErrorDetector.totalWarnings
       (Spec.finalized toLowerCase tolerance metrics
          (ErrorDetector.listen
             (before ++ ErrorDetector.PageError error :: after) collected))
     = ErrorDetector.totalWarnings
         (Spec.finalized toLowerCase tolerance metrics
            (ErrorDetector.listen (before ++ after) collected))
  /\ ErrorDetector.passed
       (Spec.finalized toLowerCase tolerance metrics
          (ErrorDetector.listen
             (before ++ ErrorDetector.PageError error :: after) collected))
     = ErrorDetector.passed
         (Spec.finalized toLowerCase tolerance metrics
            (ErrorDetector.listen (before ++ after) collected)).
Proof.
  intros Hp Hm.
  split; [simpl; tauto|].
  split.
  { intros r. split; [reflexivity|].
    rewrite handle_consoleErrors. reflexivity. }
  split; [intros text severity; split; reflexivity|].
  exact (ignorable_event_vanishes toLowerCase tolerance metrics collected
           before after (ErrorDetector.PageError error)
           (ErrorDetector.mkConsoleError (lit "page_error") (message error) None)
           eq_refl
           (mentions_ignorable toLowerCase (message error) pattern Hp Hm _ _)).
Qed.

(** C10 on a run where an uncaught exception that mentions "tracking"
    is the only signal: with zero tolerance the page still passes. *)
Lemma C10_uncaught_exception_noise_witness :
  In (lit "tracking") ErrorDetector.ignorablePatterns
  /\ Spec.mentions Spec.asciiToLowerCase
       (lit "Uncaught ReferenceError: Tracking is not defined") (lit "tracking") = true
  /\ ErrorDetector.passed
       (Spec.finalized Spec.asciiToLowerCase ErrorDetector.defaultTolerance
          Examples.noMetrics
          (ErrorDetector.listen ([] ++ Examples.trackingException :: [])
             ErrorDetector.initial))
     = ErrorDetector.passed
         (Spec.finalized Spec.asciiToLowerCase ErrorDetector.defaultTolerance
            Examples.noMetrics
            (ErrorDetector.listen ([] ++ []) ErrorDetector.initial)).
Proof.
  split; [simpl; tauto|].
  split; [vm_compute; reflexivity|].
  apply (C10_uncaught_exception_noise Spec.asciiToLowerCase
           ErrorDetector.defaultTolerance Examples.noMetrics ErrorDetector.initial
           [] [] (mkExn (lit "Uncaught ReferenceError: Tracking is not defined") [])
           (lit "tracking")).
  - simpl; tauto.
  - vm_compute; reflexivity.
Defined.

(* ===================================================================== *)
(** * Properties of the structural checks *)
(* ===================================================================== *)

Section Resolution.

Import ProductPageTester Spec.

Lemma titleLoop_spec page sels l r :
  exists t,
    for_of sels (titleBody page) (l, r)
    = (Normal tt,
       match firstSuccess nonEmptyText (query page) sels with
       | Some s =>
           (mkTitleLocals true (textOf (query page) s),
            set_elements (set_title
              (mkInfo true (Some s) (textOf (query page) s) None None None)) r)
       | None => (mkTitleLocals (titleFound l) t, r)
       end).
Proof.
  revert l. induction sels as [|s sels IH]; intros l.
  - exists (titleText l). destruct l; reflexivity.
  - unfold firstSuccess, textOf, succeeds, candidateText in *. simpl.
    unfold bind at 1, titleBody at 1, try_catch, bind, await, evaluate.
    destruct (query page s) as [[el|]|e] eqn:Hq; simpl.
    + unfold await. destruct (rejects el 0) as [e|] eqn:Hr; simpl.
      * apply IH.
      * destruct (nonEmptyText (trimmedText (node el))) eqn:Hp; simpl.
        -- rewrite Hq, Hr. exists None. reflexivity.
        -- apply (IH (mkTitleLocals (titleFound l) (trimmedText (node el)))).
    + apply IH.
    + apply IH.
Qed.

Lemma priceLoop_spec page sels l r :
  exists t,
    for_of sels (priceBody page) (l, r)
    = (Normal tt,
       match firstSuccess looksLikePrice (waitForSelector page) sels with
       | Some s =>
           (mkPriceLocals true (textOf (waitForSelector page) s),
            set_elements (set_price
              (mkInfo true (Some s) (textOf (waitForSelector page) s)
                      None None None)) r)
       | None => (mkPriceLocals (priceFound l) t, r)
       end).
Proof.
  revert l. induction sels as [|s sels IH]; intros l.
  - exists (priceText l). destruct l; reflexivity.
  - unfold firstSuccess, textOf, succeeds, candidateText in *. simpl.
    unfold bind at 1, priceBody at 1, try_catch, bind, await, evaluate.
    destruct (waitForSelector page s) as [[el|]|e] eqn:Hq; simpl.
    + unfold await. destruct (rejects el 0) as [e|] eqn:Hr; simpl.
      * apply IH.
      * destruct (looksLikePrice (trimmedText (node el))) eqn:Hp; simpl.
        -- rewrite Hq, Hr. exists None. reflexivity.
        -- apply (IH (mkPriceLocals (priceFound l) (trimmedText (node el)))).
    + apply IH.
    + apply IH.
Qed.

Lemma descriptionLoop_spec page sels l r :
  exists t,
    for_of sels (descriptionBody page) (l, r)
    = (Normal tt,
       match firstSuccess longEnoughText (query page) sels with
       | Some s =>
           (mkDescriptionLocals true (textOf (query page) s),
            set_elements (set_description
              (mkInfo true (Some s) None None None None)) r)
       | None => (mkDescriptionLocals (descriptionFound l) t, r)
       end).
Proof.
  revert l. induction sels as [|s sels IH]; intros l.
  - exists (descriptionText l). destruct l; reflexivity.
  - unfold firstSuccess, textOf, succeeds, candidateText in *. simpl.
    unfold bind at 1, descriptionBody at 1, try_catch, bind, await, evaluate.
    destruct (query page s) as [[el|]|e] eqn:Hq; simpl.
    + unfold await. destruct (rejects el 0) as [e|] eqn:Hr; simpl.
      * apply IH.
      * destruct (longEnoughText (trimmedText (node el))) eqn:Hp; simpl.
        -- rewrite Hq, Hr. exists None. reflexivity.
        -- apply (IH (mkDescriptionLocals (descriptionFound l)
                        (trimmedText (node el)))).
    + apply IH.
    + apply IH.
Qed.

(** What [testProductTitle] leaves in [this.results], and that it
    completes without throwing. *)
Lemma testProductTitle_spec page sel r :
  testProductTitle page sel r
  = (Normal tt,
     match firstSuccess nonEmptyText (query page) (productTitle sel) with
     | Some s =>
         set_elements (set_title
           (mkInfo true (Some s) (textOf (query page) s) None None None)) r
     | None =>
         set_elements (set_title notFound)
           (push_error
              (mkIssue (lit "critical") (Some (lit "product_title"))
                 (lit "Product title not found on page")
                 (Some (productTitle sel)) None) r)
     end).
Proof.
  unfold testProductTitle, with_locals, bind.
  destruct (titleLoop_spec page (productTitle sel)
              (mkTitleLocals false (Some [])) r) as (t & ->).
  destruct (firstSuccess nonEmptyText (query page) (productTitle sel));
    reflexivity.
Qed.

Lemma testProductPrice_spec page sel r :
  testProductPrice page sel r
  = (Normal tt,
     match firstSuccess looksLikePrice (waitForSelector page)
             (priceSelectors sel) with
     | Some s =>
         set_elements (set_price
           (mkInfo true (Some s) (textOf (waitForSelector page) s)
                   None None None)) r
     | None =>
         set_elements (set_price notFound)
           (push_error
              (mkIssue (lit "critical") (Some (lit "product_price"))
                 (lit "Product price not found on page")
                 (Some (priceSelectors sel)) None) r)
     end).
Proof.
  unfold testProductPrice, with_locals, bind.
  destruct (priceLoop_spec page (priceSelectors sel)
              (mkPriceLocals false (Some [])) r) as (t & ->).
  destruct (firstSuccess looksLikePrice (waitForSelector page)
              (priceSelectors sel)); reflexivity.
Qed.

Lemma testProductDescription_spec page sel r :
  testProductDescription page sel r
  = (Normal tt,
     match firstSuccess longEnoughText (query page) (productDescription sel) with
     | Some s =>
         set_elements (set_description
           (mkInfo true (Some s) None None None None)) r
     | None =>
         set_elements (set_description notFound)
           (push_warning
              (mkIssue (lit "warning") (Some (lit "product_description"))
                 (lit "Product description not found or too short")
                 (Some (productDescription sel)) None) r)
     end).
Proof.
  unfold testProductDescription, with_locals, bind.
  destruct (descriptionLoop_spec page (productDescription sel)
              (mkDescriptionLocals false (Some [])) r) as (t & ->).
  destruct (firstSuccess longEnoughText (query page) (productDescription sel));
    reflexivity.
Qed.

End Resolution.

Section FirstSuccess.

Import ProductPageTester Spec.

Lemma succeeds_agree pred q q' s :
  q s = q' s -> succeeds pred q s = succeeds pred q' s /\ textOf q s = textOf q' s.
Proof. unfold succeeds, textOf, candidateText. intros ->. tauto. Qed.

(** Once a candidate succeeds, nothing behind it matters. *)
Lemma resolution_agree withText pred q q' l1 s l2 l2' :
  agreeOn q q' (l1 ++ [s]) ->
  succeeds pred q s = true ->
  firstSuccess pred q (l1 ++ s :: l2) <> None
  /\ resolution withText pred q (l1 ++ s :: l2)
     = resolution withText pred q' (l1 ++ s :: l2').
Proof.
  unfold resolution, firstSuccess, agreeOn.
  induction l1 as [|c l1 IH]; intros Hag Hs; simpl.
  - destruct (succeeds_agree pred q q' s (Hag s (or_introl eq_refl))) as (H1 & H2).
    rewrite <- H1, Hs, H2. split; [discriminate|reflexivity].
  - destruct (succeeds_agree pred q q' c (Hag c (or_introl eq_refl))) as (H1 & H2).
    rewrite <- H1. destruct (succeeds pred q c).
    + rewrite H2. split; [discriminate|reflexivity].
    + apply IH; [|exact Hs]. intros x Hx. apply Hag. right. exact Hx.
Qed.

Lemma candidateThrows_fails pred q s :
  candidateThrows q s -> succeeds pred q s = false.
Proof.
  unfold candidateThrows, succeeds, candidateText.
  intros [(e & ->)|(el & e & -> & ->)]; reflexivity.
Qed.

(** A failing candidate is passed over. *)
Lemma resolution_skip withText pred q l1 s l2 :
  succeeds pred q s = false ->
  resolution withText pred q (l1 ++ s :: l2)
  = resolution withText pred q (l1 ++ l2).
Proof.
  unfold resolution, firstSuccess. intros Hs.
  induction l1 as [|c l1 IH]; simpl.
  - rewrite Hs. reflexivity.
  - destruct (succeeds pred q c); [reflexivity|exact IH].
Qed.

Lemma resolution_notFound withText pred q l :
  resolution withText pred q l = notFound
  <-> Forall (fun s => succeeds pred q s = false) l.
Proof.
  unfold resolution, firstSuccess.
  induction l as [|c l IH]; simpl.
  - split; [constructor|reflexivity].
  - destruct (succeeds pred q c) eqn:Hc.
    + split; [discriminate|]. intros H. inversion H; congruence.
    + rewrite IH. split; intros H.
      * constructor; assumption.
      * inversion H; assumption.
Qed.

(** The entries the three checks leave in [results.elements]. *)
Lemma title_entry page sel r :
  e_title (elements (snd (testProductTitle page sel r)))
  = Some (resolution true nonEmptyText (query page) (productTitle sel)).
Proof.
  rewrite testProductTitle_spec. unfold resolution.
  destruct (firstSuccess _ _ _); reflexivity.
Qed.

Lemma price_entry page sel r :
  e_price (elements (snd (testProductPrice page sel r)))
  = Some (resolution true looksLikePrice (waitForSelector page)
            (priceSelectors sel)).
Proof.
  rewrite testProductPrice_spec. unfold resolution.
  destruct (firstSuccess _ _ _); reflexivity.
Qed.

Lemma description_entry page sel r :
  e_description (elements (snd (testProductDescription page sel r)))
  = Some (resolution false longEnoughText (query page)
            (productDescription sel)).
Proof.
  rewrite testProductDescription_spec. unfold resolution.
  destruct (firstSuccess _ _ _); reflexivity.
Qed.

End FirstSuccess.

(** C4, as the code has it.  For every candidate list and page, the
    title, price and description checks report the first candidate in
    list order that matches a node and whose trimmed text satisfies the
    content predicate: non-empty for the title, containing a currency
    symbol or a digit for the price, longer than 10 code units for the
    description.  Once a candidate succeeds, the outcome of the check
    does not depend on the candidates listed after it nor on what the
    page would answer for them. *)
Theorem C4_first_success_resolution
    (page : ProductPageTester.Page) (sel : ProductPageTester.Selectors)
    (r : ProductPageTester.Results) :
  (ProductPageTester.e_title
     (ProductPageTester.elements (snd (ProductPageTester.testProductTitle page sel r)))
   = Some (Spec.resolution true ProductPageTester.nonEmptyText
             (ProductPageTester.query page) (ProductPageTester.productTitle sel))
   /\ ProductPageTester.e_price
        (ProductPageTester.elements (snd (ProductPageTester.testProductPrice page sel r)))
      = Some (Spec.resolution true ProductPageTester.looksLikePrice
                (ProductPageTester.waitForSelector page)
                (ProductPageTester.priceSelectors sel))
   /\ ProductPageTester.e_description
        (ProductPageTester.elements
           (snd (ProductPageTester.testProductDescription page sel r)))
      = Some (Spec.resolution false ProductPageTester.longEnoughText
                (ProductPageTester.query page)
                (ProductPageTester.productDescription sel)))
  /\ (forall page' l1 s l2 l2',
        ProductPageTester.productTitle sel = l1 ++ s :: l2 ->
        Spec.agreeOn (ProductPageTester.query page) (ProductPageTester.query page')
          (l1 ++ [s]) ->
        Spec.succeeds ProductPageTester.nonEmptyText (ProductPageTester.query page) s = true ->
        ProductPageTester.testProductTitle page sel r
        = ProductPageTester.testProductTitle page'
            (Spec.withProductTitle (l1 ++ s :: l2') sel) r)
  /\ (forall page' l1 s l2 l2',
        ProductPageTester.priceSelectors sel = l1 ++ s :: l2 ->
        Spec.agreeOn (ProductPageTester.waitForSelector page)
          (ProductPageTester.waitForSelector page') (l1 ++ [s]) ->
        Spec.succeeds ProductPageTester.looksLikePrice
          (ProductPageTester.waitForSelector page) s = true ->
        ProductPageTester.testProductPrice page sel r
        = ProductPageTester.testProductPrice page'
            (Spec.withProductPrice (l1 ++ s :: l2') sel) r)
  /\ (forall page' l1 s l2 l2',
        ProductPageTester.productDescription sel = l1 ++ s :: l2 ->
        Spec.agreeOn (ProductPageTester.query page) (ProductPageTester.query page')
          (l1 ++ [s]) ->
        Spec.succeeds ProductPageTester.longEnoughText (ProductPageTester.query page) s = true ->
        ProductPageTester.testProductDescription page sel r
        = ProductPageTester.testProductDescription page'
            (Spec.withProductDescription (l1 ++ s :: l2') sel) r).
Proof.
  split; [|split; [|split]].
  - split; [apply title_entry|split; [apply price_entry|apply description_entry]].
  - intros page' l1 s l2 l2' Hl Hag Hs.
    rewrite !testProductTitle_spec. simpl ProductPageTester.productTitle.
    rewrite Hl.
    destruct (resolution_agree true _ _ _ l1 s l2 l2' Hag Hs) as (Hne & Heq).
    unfold Spec.resolution in Heq.
    destruct (Spec.firstSuccess ProductPageTester.nonEmptyText
                (ProductPageTester.query page) (l1 ++ s :: l2)) as [w|];
      [|congruence].
    destruct (Spec.firstSuccess ProductPageTester.nonEmptyText
                (ProductPageTester.query page') (l1 ++ s :: l2')) as [w'|];
      [|discriminate].
    rewrite Heq. reflexivity.
  - intros page' l1 s l2 l2' Hl Hag Hs.
    rewrite !testProductPrice_spec.
    change (ProductPageTester.priceSelectors
              (Spec.withProductPrice (l1 ++ s :: l2') sel))
      with (l1 ++ s :: l2').
    rewrite Hl.
    destruct (resolution_agree true _ _ _ l1 s l2 l2' Hag Hs) as (Hne & Heq).
    unfold Spec.resolution in Heq.
    destruct (Spec.firstSuccess ProductPageTester.looksLikePrice
                (ProductPageTester.waitForSelector page) (l1 ++ s :: l2)) as [w|];
      [|congruence].
    destruct (Spec.firstSuccess ProductPageTester.looksLikePrice
                (ProductPageTester.waitForSelector page') (l1 ++ s :: l2')) as [w'|];
      [|discriminate].
    rewrite Heq. reflexivity.
  - intros page' l1 s l2 l2' Hl Hag Hs.
    rewrite !testProductDescription_spec.
    simpl ProductPageTester.productDescription. rewrite Hl.
    destruct (resolution_agree false _ _ _ l1 s l2 l2' Hag Hs) as (Hne & Heq).
    unfold Spec.resolution in Heq.
    destruct (Spec.firstSuccess ProductPageTester.longEnoughText
                (ProductPageTester.query page) (l1 ++ s :: l2)) as [w|];
      [|congruence].
    destruct (Spec.firstSuccess ProductPageTester.longEnoughText
                (ProductPageTester.query page') (l1 ++ s :: l2')) as [w'|];
      [|discriminate].
    rewrite Heq. reflexivity.
Qed.

(** C4 on the shop page: the title is resolved by the second of three
    candidates, whatever follows it. *)
Lemma C4_first_success_resolution_witness :
  ProductPageTester.testProductTitle (Examples.shopPage false)
    Examples.shopSelectors ProductPageTester.initial
  = ProductPageTester.testProductTitle (Examples.shopPage true)
      (Spec.withProductTitle ([lit "h1:has("] ++ lit "h1.title" :: [])
         Examples.shopSelectors)
      ProductPageTester.initial.
Proof.
  apply (proj1 (proj2 (C4_first_success_resolution (Examples.shopPage false)
                  Examples.shopSelectors ProductPageTester.initial))
           (Examples.shopPage true) [lit "h1:has("] (lit "h1.title") [lit "h1"] []).
  - reflexivity.
  - intros x [<-|[<-|[]]]; vm_compute; reflexivity.
  - vm_compute; reflexivity.
Defined.

(** C4 as stated fails for the description: with a teaser of 8 code
    units listed before the full description, the first candidate that
    matches a node with non-empty trimmed text is the teaser, and the
    check reports the full description. *)
Lemma C4_description_counterexample :
  Spec.resolution false ProductPageTester.nonEmptyText
    (ProductPageTester.query (Examples.shopPage false))
    (ProductPageTester.productDescription Examples.shopSelectors)
  = ProductPageTester.mkInfo true (Some (lit ".teaser")) None None None None
  /\ ProductPageTester.e_description
       (ProductPageTester.elements
          (snd (ProductPageTester.testProductDescription (Examples.shopPage false)
                  Examples.shopSelectors ProductPageTester.initial)))
     = Some (ProductPageTester.mkInfo true (Some (lit ".description"))
               None None None None)
  /\ ProductPageTester.e_description
       (ProductPageTester.elements
          (snd (ProductPageTester.testProductDescription (Examples.shopPage false)
                  Examples.shopSelectors ProductPageTester.initial)))
     <> Some (Spec.resolution false ProductPageTester.nonEmptyText
                (ProductPageTester.query (Examples.shopPage false))
                (ProductPageTester.productDescription Examples.shopSelectors)).
Proof.
  split; [vm_compute; reflexivity|].
  split; [vm_compute; reflexivity|].
  vm_compute. discriminate.
Qed.

(** C8.  The title and price checks complete without throwing whatever
    the page does.  A candidate whose evaluation throws is passed over:
    the entry reported is the one reported for the list without that
    candidate, so the candidates after it are still tried.  The element
    is reported not found exactly when every candidate fails. *)
Theorem C8_throwing_candidate_skipped
    (page : ProductPageTester.Page) (sel : ProductPageTester.Selectors)
    (r : ProductPageTester.Results) :
  (fst (ProductPageTester.testProductTitle page sel r) = Normal tt
   /\ fst (ProductPageTester.testProductPrice page sel r) = Normal tt)
  /\ (forall l1 s l2,
        ProductPageTester.productTitle sel = l1 ++ s :: l2 ->
        Spec.candidateThrows (ProductPageTester.query page) s ->
        ProductPageTester.e_title
          (ProductPageTester.elements
             (snd (ProductPageTester.testProductTitle page sel r)))
        = ProductPageTester.e_title
            (ProductPageTester.elements
               (snd (ProductPageTester.testProductTitle page
                       (Spec.withProductTitle (l1 ++ l2) sel) r))))
  /\ (forall l1 s l2,
        ProductPageTester.priceSelectors sel = l1 ++ s :: l2 ->
        Spec.candidateThrows (ProductPageTester.waitForSelector page) s ->
        ProductPageTester.e_price
          (ProductPageTester.elements
             (snd (ProductPageTester.testProductPrice page sel r)))
        = ProductPageTester.e_price
            (ProductPageTester.elements
               (snd (ProductPageTester.testProductPrice page
                       (Spec.withProductPrice (l1 ++ l2) sel) r))))
  /\ (ProductPageTester.e_title
        (ProductPageTester.elements
           (snd (ProductPageTester.testProductTitle page sel r)))
      = Some ProductPageTester.notFound
      <-> Forall (fun s => Spec.succeeds ProductPageTester.nonEmptyText
                             (ProductPageTester.query page) s = false)
            (ProductPageTester.productTitle sel))
  /\ (ProductPageTester.e_price
        (ProductPageTester.elements
           (snd (ProductPageTester.testProductPrice page sel r)))
      = Some ProductPageTester.notFound
      <-> Forall (fun s => Spec.succeeds ProductPageTester.looksLikePrice
                             (ProductPageTester.waitForSelector page) s = false)
            (ProductPageTester.priceSelectors sel)).
Proof.
  split; [|split; [|split; [|split]]].
  - rewrite testProductTitle_spec, testProductPrice_spec. split; reflexivity.
  - intros l1 s l2 Hl Hthrow.
    rewrite !title_entry. simpl ProductPageTester.productTitle. rewrite Hl.
    f_equal. apply resolution_skip, candidateThrows_fails, Hthrow.
  - intros l1 s l2 Hl Hthrow.
    rewrite !price_entry.
    change (ProductPageTester.priceSelectors (Spec.withProductPrice (l1 ++ l2) sel))
      with (l1 ++ l2).
    rewrite Hl.
    f_equal. apply resolution_skip, candidateThrows_fails, Hthrow.
  - rewrite title_entry, <- resolution_notFound.
    split; [intros H; injection H; intros ->; reflexivity|intros ->; reflexivity].
  - rewrite price_entry, <- resolution_notFound.
    split; [intros H; injection H; intros ->; reflexivity|intros ->; reflexivity].
Qed.

(** C8 on the shop page, whose first title candidate is malformed: the
    title is the one found without that candidate. *)
Lemma C8_throwing_candidate_skipped_witness :
  Spec.candidateThrows (ProductPageTester.query (Examples.shopPage false))
    (lit "h1:has(")
  /\ ProductPageTester.e_title
       (ProductPageTester.elements
          (snd (ProductPageTester.testProductTitle (Examples.shopPage false)
                  Examples.shopSelectors ProductPageTester.initial)))
     = ProductPageTester.e_title
         (ProductPageTester.elements
            (snd (ProductPageTester.testProductTitle (Examples.shopPage false)
                    (Spec.withProductTitle ([] ++ [lit "h1.title"; lit "h1"])
                       Examples.shopSelectors)
                    ProductPageTester.initial))).
Proof.
  assert (H : Spec.candidateThrows
                (ProductPageTester.query (Examples.shopPage false)) (lit "h1:has("))
    by (left; exists Examples.selectorError; vm_compute; reflexivity).
  split; [exact H|].
  apply (proj1 (proj2 (C8_throwing_candidate_skipped (Examples.shopPage false)
                  Examples.shopSelectors ProductPageTester.initial))
           [] (lit "h1:has(") [lit "h1.title"; lit "h1"]).
  - reflexivity.
  - exact H.
Defined.

Section Checklist.
Import ProductPageTester Spec.

Lemma buttonLoop_spec page sels l r :
  for_of sels (buttonBody page) (l, r)
  = (Normal tt,
     match firstButton (query page) sels with
     | Some (s, (v, e)) =>
         (mkButtonLocals true (buttonVisible l || v) (buttonEnabled l || e),
          set_elements (set_addToCart
            (mkInfo true (Some s) None (Some v) (Some e) None)) r)
     | None =>
         (mkButtonLocals (buttonFound l || existsb (matchesNode (query page)) sels)
                         (buttonVisible l) (buttonEnabled l), r)
     end).
Proof.
  revert l. induction sels as [|s sels IH]; intros l.
  - simpl. destruct l as [f v e]. simpl. rewrite orb_false_r. reflexivity.
  - cbn [firstButton existsb for_of]. unfold buttonState, matchesNode.
    unfold bind at 1, buttonBody at 1, try_catch, bind, await, evaluate, setL, setR, ret.
    destruct (query page s) as [[el|]|e] eqn:Hq; simpl.
    + unfold await. destruct (rejects el 0) as [e0|] eqn:Hr0; simpl.
      * rewrite IH. simpl. rewrite orb_true_r.
        destruct (firstButton _ sels) as [[s' [v' e']]|]; reflexivity.
      * destruct (rejects el 1) as [e1|] eqn:Hr1; simpl.
        -- rewrite IH. simpl. rewrite orb_true_r.
           destruct (firstButton _ sels) as [[s' [v' e']]|]; reflexivity.
        -- destruct l as [f v e]; simpl.
           destruct (hasBox (node el)), (notDisabled (node el)); simpl;
             rewrite ?orb_true_r, ?orb_false_r; reflexivity.
    + rewrite IH. reflexivity.
    + rewrite IH. reflexivity.
Qed.

Lemma testAddToCartButton_spec page sel r :
  testAddToCartButton page sel r
  = (Normal tt,
     match firstButton (query page) (addToCart sel) with
     | Some (s, (v, e)) =>
         let r1 := set_elements (set_addToCart
                     (mkInfo true (Some s) None (Some v) (Some e) None)) r in
         if negb v then push_error buttonNotVisible r1
         else if negb e then push_warning buttonDisabled r1
         else r1
     | None =>
         if existsb (matchesNode (query page)) (addToCart sel)
         then push_error buttonNotVisible r
         else set_elements (set_addToCart notFound)
                (push_error (buttonNotFound sel) r)
     end).
Proof.
  unfold testAddToCartButton, with_locals, bind.
  rewrite buttonLoop_spec.
  destruct (firstButton (query page) (addToCart sel)) as [[s [v e]]|]; simpl.
  - destruct v, e; reflexivity.
  - destruct (existsb _ _); reflexivity.
Qed.

Ltac frame :=
  unfold onlyWarns; simpl; repeat split; auto;
  intros; repeat (apply in_or_app; left); auto.

Lemma onlyWarns_refl r : onlyWarns r r.
Proof. unfold onlyWarns. tauto. Qed.

Lemma onlyWarns_trans r1 r2 r3 :
  onlyWarns r1 r2 -> onlyWarns r2 r3 -> onlyWarns r1 r3.
Proof.
  unfold onlyWarns. intros (A1 & A2 & A3 & A4 & A5) (B1 & B2 & B3 & B4 & B5).
  repeat split; try congruence. auto.
Qed.

Lemma onlyWarns_push_warning w r : onlyWarns r (push_warning w r).
Proof.
  unfold onlyWarns. simpl. repeat split; try reflexivity.
  intros w' H. apply in_or_app. left. exact H.
Qed.

(** A loop whose body keeps an invariant and never throws. *)
Lemma for_of_preserves {S A} (P : S -> Prop) (xs : list A)
    (body : A -> Op S LoopCtl) :
  (forall x s, P s -> P (snd (body x s)) /\ exists c, fst (body x s) = Normal c) ->
  forall s, P s ->
    fst (for_of xs body s) = Normal tt /\ P (snd (for_of xs body s)).
Proof.
  intros Hbody. induction xs as [|x xs IH]; intros s Hs; simpl.
  - split; [reflexivity|exact Hs].
  - unfold bind. destruct (Hbody x s Hs) as (HP & c & Hc).
    destruct (body x s) as [c' s']; simpl in *. subst c'.
    destruct c; [split; [reflexivity|exact HP]|apply IH, HP].
Qed.

Lemma waitForPageLoad_frame page r :
  fst (waitForPageLoad page r) = Normal tt
  /\ onlyWarns r (snd (waitForPageLoad page r)).
Proof.
  unfold waitForPageLoad, try_catch, await, modify.
  destruct (loadWait page); simpl; split; try reflexivity.
  - apply onlyWarns_push_warning.
  - apply onlyWarns_refl.
Qed.

Lemma testProductDescription_frame page sel r :
  fst (testProductDescription page sel r) = Normal tt
  /\ onlyWarns r (snd (testProductDescription page sel r)).
Proof.
  rewrite testProductDescription_spec. split; [reflexivity|].
  destruct (firstSuccess _ _ _); simpl.
  - frame.
  - frame.
Qed.

Lemma testProductImages_frame page sel r :
  fst (testProductImages page sel r) = Normal tt
  /\ onlyWarns r (snd (testProductImages page sel r)).
Proof.
  unfold testProductImages, with_locals, bind.
  destruct (for_of_preserves (fun s => onlyWarns r (snd s)) (productImage sel)
              (imagesBody page)) with (s := (false, r)) as (Hc & HP).
  - intros x [l r1] H. unfold imagesBody, try_catch, bind, await.
    destruct (queryAll page x) as [imgs|e]; simpl.
    + destruct (0 <? List.length imgs)%nat; simpl; [|eauto].
      split; [|eauto]. eapply onlyWarns_trans; [exact H|].
      frame.
    + eauto.
  - apply onlyWarns_refl.
  - destruct (for_of (productImage sel) (imagesBody page) (false, r))
      as [c [l r1]]; simpl in *. subst c.
    unfold getL. simpl. destruct l; simpl; split; try reflexivity; [exact HP|].
    eapply onlyWarns_trans; [exact HP|]. frame.
Qed.

Lemma testProductVariants_frame page sel r :
  fst (testProductVariants page sel r) = Normal tt
  /\ onlyWarns r (snd (testProductVariants page sel r)).
Proof.
  unfold testProductVariants, with_locals, bind.
  destruct (for_of_preserves (fun s => onlyWarns r (snd s)) (productVariant sel)
              (variantsBody page)) with (s := (false, r)) as (Hc & HP).
  - intros x [l r1] H. unfold variantsBody, try_catch, bind, await.
    destruct (queryAll page x) as [vs|e]; simpl.
    + destruct (0 <? List.length vs)%nat; simpl; [|eauto].
      split; [|eauto]. eapply onlyWarns_trans; [exact H|].
      frame.
    + eauto.
  - apply onlyWarns_refl.
  - destruct (for_of (productVariant sel) (variantsBody page) (false, r))
      as [c [l r1]]; simpl in *. subst c.
    unfold getL. simpl. destruct l; simpl; split; try reflexivity; [|exact HP].
    eapply onlyWarns_trans; [exact HP|].
    unfold onlyWarns, set_elements; simpl.
    destruct (e_variants (elements r1)); simpl; repeat split; auto.
Qed.

Lemma testMetaInformation_frame page r :
  fst (testMetaInformation page r) = Normal tt
  /\ onlyWarns r (snd (testMetaInformation page r)).
Proof.
  unfold testMetaInformation, try_catch, bind, await, modify, ret.
  destruct (title page) as [t|e]; [|split; [reflexivity|frame]].
  destruct (metaContent page) as [[|c0 c]|e];
    destruct (bool_decide (t = []) || (strlen t <? 5)%Z) eqn:Ht;
    simpl; rewrite ?Ht; simpl; split; try reflexivity; frame.
Qed.

Lemma firstButton_matches q sels s st :
  firstButton q sels = Some (s, st) -> existsb (matchesNode q) sels = true.
Proof.
  induction sels as [|c sels IH]; simpl; [discriminate|].
  unfold buttonState, matchesNode at 1.
  destruct (q c) as [[el|]|e]; simpl; auto.
Qed.

Lemma structural_shape page sel :
  exists r',
    test page sel initial
    = (Normal (set_passed (bool_decide (List.length (errors r') = 0%nat)) r'),
       set_passed (bool_decide (List.length (errors r') = 0%nat)) r')
    /\ errors r'
       = match firstSuccess nonEmptyText (query page) (productTitle sel) with
         | Some _ => []
         | None => [mkIssue (lit "critical") (Some (lit "product_title"))
                      (lit "Product title not found on page")
                      (Some (productTitle sel)) None]
         end
         ++ match firstSuccess looksLikePrice (waitForSelector page)
                    (priceSelectors sel) with
            | Some _ => []
            | None => [mkIssue (lit "critical") (Some (lit "product_price"))
                         (lit "Product price not found on page")
                         (Some (priceSelectors sel)) None]
            end
         ++ match firstButton (query page) (addToCart sel) with
            | Some (_, (v, _)) => if v then [] else [buttonNotVisible]
            | None =>
                if existsb (matchesNode (query page)) (addToCart sel)
                then [buttonNotVisible] else [buttonNotFound sel]
            end
    /\ e_title (elements r')
       = Some (resolution true nonEmptyText (query page) (productTitle sel))
    /\ e_price (elements r')
       = Some (resolution true looksLikePrice (waitForSelector page)
                 (priceSelectors sel))
    /\ e_addToCart (elements r')
       = match firstButton (query page) (addToCart sel) with
         | Some (s, (v, e)) =>
             Some (mkInfo true (Some s) None (Some v) (Some e) None)
         | None =>
             if existsb (matchesNode (query page)) (addToCart sel)
             then None else Some notFound
         end
    /\ (forall s, firstButton (query page) (addToCart sel)
                  = Some (s, (true, false)) ->
                  In buttonDisabled (warnings r')).
Proof.
  unfold test, bind, modify, get.
  destruct (waitForPageLoad_frame page initial) as (Hc0 & Hf0).
  destruct (waitForPageLoad page initial) as [c0 r0]; simpl in Hc0, Hf0; subst c0.
  rewrite testProductTitle_spec, testProductPrice_spec.
  set (r2 := match firstSuccess looksLikePrice _ _ with Some _ => _ | None => _ end).
  destruct (testProductDescription_frame page sel r2) as (Hc3 & Hf3).
  destruct (testProductDescription page sel r2) as [c3 r3]; simpl in Hc3, Hf3; subst c3.
  rewrite testAddToCartButton_spec. cbv zeta.
  set (r4 := match firstButton _ _ with Some _ => _ | None => _ end).
  destruct (testProductImages_frame page sel r4) as (Hc5 & Hf5).
  destruct (testProductImages page sel r4) as [c5 r5]; simpl in Hc5, Hf5; subst c5.
  destruct (testProductVariants_frame page sel r5) as (Hc6 & Hf6).
  destruct (testProductVariants page sel r5) as [c6 r6]; simpl in Hc6, Hf6; subst c6.
  destruct (testMetaInformation_frame page r6) as (Hc7 & Hf7).
  destruct (testMetaInformation page r6) as [c7 r7]; simpl in Hc7, Hf7; subst c7.
  exists r7. split; [reflexivity|].
  pose proof (onlyWarns_trans _ _ _ Hf5 (onlyWarns_trans _ _ _ Hf6 Hf7))
    as (He & Hw & Ht & Hp & Hb).
  destruct Hf0 as (He0 & _ & Ht0 & Hp0 & Hb0).
  destruct Hf3 as (He3 & Hw3 & Ht3 & Hp3 & Hb3).
  rewrite He, Ht, Hp, Hb. clear He Ht Hp Hb.
  unfold resolution. subst r4 r2.
  destruct (firstSuccess nonEmptyText (query page) (productTitle sel)) as [t|];
    destruct (firstSuccess looksLikePrice (waitForSelector page)
                (priceSelectors sel)) as [p|];
    destruct (firstButton (query page) (addToCart sel)) as [[s [v e]]|];
    try destruct v; try destruct e;
    try destruct (existsb (matchesNode (query page)) (addToCart sel));
    simpl in *; rewrite ?He3, ?Ht3, ?Hp3, ?Hb3; simpl;
    rewrite ?He0, ?Ht0, ?Hp0, ?Hb0; simpl;
    (repeat split; try reflexivity;
     intros s0 Hs0; try discriminate; apply Hw; simpl;
     apply in_or_app; right; left; reflexivity).
Qed.
End Checklist.

(** C3.  A page visit returns a structural result whose [passed] is
    false exactly when the title is not found, or the price is not
    found, or no add-to-cart candidate matches a node, or one matches
    and the check saw no visible one.  "Not found" is what the result
    reports in [elements].  An add-to-cart control that is found,
    visible and disabled adds a warning only: with title and price
    found the result has no error and [passed] is true. *)
Theorem C3_structural_verdict
    (page : ProductPageTester.Page) (sel : ProductPageTester.Selectors) :
  fst (ProductPageTester.test page sel ProductPageTester.initial)
  = Normal (Spec.structural page sel)
  /\ (ProductPageTester.passed (Spec.structural page sel) = false
      <-> Spec.titleMissing page sel \/ Spec.priceMissing page sel
          \/ Spec.buttonMissing page sel \/ Spec.buttonInvisible page sel)
  /\ (Spec.titleMissing page sel
      <-> ProductPageTester.e_title
            (ProductPageTester.elements (Spec.structural page sel))
          = Some ProductPageTester.notFound)
  /\ (Spec.priceMissing page sel
      <-> ProductPageTester.e_price
            (ProductPageTester.elements (Spec.structural page sel))
          = Some ProductPageTester.notFound)
  /\ (Spec.buttonMissing page sel
      <-> ProductPageTester.e_addToCart
            (ProductPageTester.elements (Spec.structural page sel))
          = Some ProductPageTester.notFound)
  /\ (forall s,
        Spec.firstButton (ProductPageTester.query page)
          (ProductPageTester.addToCart sel) = Some (s, (true, false)) ->
        ~ Spec.titleMissing page sel ->
        ~ Spec.priceMissing page sel ->
        ProductPageTester.passed (Spec.structural page sel) = true
        /\ ProductPageTester.errors (Spec.structural page sel) = []
        /\ In Spec.buttonDisabled
             (ProductPageTester.warnings (Spec.structural page sel))).
Proof.
  destruct (structural_shape page sel) as (r' & Htest & He & Ht & Hp & Hb & Hw).
  unfold Spec.structural. rewrite Htest. simpl fst. simpl snd.
  unfold Spec.titleMissing, Spec.priceMissing, Spec.buttonMissing,
    Spec.buttonInvisible.
  simpl ProductPageTester.passed. simpl ProductPageTester.elements.
  simpl ProductPageTester.errors. simpl ProductPageTester.warnings.
  rewrite Ht, Hp, Hb, He. unfold Spec.resolution.
  pose proof (firstButton_matches (ProductPageTester.query page)
                (ProductPageTester.addToCart sel)) as Hfm.
  split; [reflexivity|].
  destruct (Spec.firstSuccess ProductPageTester.nonEmptyText
              (ProductPageTester.query page) (ProductPageTester.productTitle sel))
    as [t|];
  destruct (Spec.firstSuccess ProductPageTester.looksLikePrice
              (ProductPageTester.waitForSelector page)
              (ProductPageTester.priceSelectors sel)) as [p|];
  destruct (Spec.firstButton (ProductPageTester.query page)
              (ProductPageTester.addToCart sel)) as [[s [v e]]|] eqn:Hfb;
  try (rewrite (Hfm _ _ eq_refl));
  try destruct v;
  try destruct (existsb (Spec.matchesNode (ProductPageTester.query page))
                  (ProductPageTester.addToCart sel)) eqn:Hex;
  simpl;
  (split; [split; [intros Hpass; try discriminate; try tauto;
                   try (right; right; right; split; [reflexivity|];
                        intros; discriminate)
                  |intros [H|[H|[H|(H1 & H2)]]]; try discriminate; try reflexivity;
                   try (exfalso; eapply H2; reflexivity)]
         |]);
  (split; [split; intros H; try discriminate; try reflexivity|]);
  (split; [split; intros H; try discriminate; try reflexivity|]);
  (split; [split; intros H; try discriminate; try reflexivity|]);
  intros s0 Hs0 Hnt Hnp; try discriminate; try (exfalso; tauto);
  (repeat split; try reflexivity; eapply Hw; exact Hs0).
Qed.

(** C3 on the shop page with its add-to-cart button disabled: the page
    passes, without error, with the warning recorded. *)
Lemma C3_structural_verdict_witness :
  ProductPageTester.passed
    (Spec.structural (Examples.shopPage true) Examples.shopSelectors) = true
  /\ ProductPageTester.errors
       (Spec.structural (Examples.shopPage true) Examples.shopSelectors) = []
  /\ In Spec.buttonDisabled
       (ProductPageTester.warnings
          (Spec.structural (Examples.shopPage true) Examples.shopSelectors)).
Proof.
  apply (proj2 (proj2 (proj2 (proj2 (proj2
           (C3_structural_verdict (Examples.shopPage true)
              Examples.shopSelectors)))))
           (lit "button.add")).
  - vm_compute; reflexivity.
  - unfold Spec.titleMissing. vm_compute. discriminate.
  - unfold Spec.priceMissing. vm_compute. discriminate.
Defined.

(* ===================================================================== *)
(** * Properties of the image checks *)
(* ===================================================================== *)

Section Rules.
Import ProgramLogic.

Lemma triple_bind {S A B} (P : S -> Prop) (c : Op S A) (k : A -> Op S B)
    (Q : A -> S -> Prop) (R : B -> S -> Prop) (E : Exn -> S -> Prop) :
  triple P c Q E -> (forall a, triple (Q a) (k a) R E) ->
  triple P (bind c k) R E.
Proof.
  intros Hc Hk s Hs. unfold bind. specialize (Hc s Hs).
  destruct (c s) as [[a|e] s']; [apply (Hk a s' Hc)|exact Hc].
Qed.

Lemma triple_try_catch {S A} (P : S -> Prop) (c : Op S A) (h : Exn -> Op S A)
    (Q : A -> S -> Prop) (E' E : Exn -> S -> Prop) :
  triple P c Q E' -> (forall e, triple (E' e) (h e) Q E) ->
  triple P (try_catch c h) Q E.
Proof.
  intros Hc Hh s Hs. unfold try_catch. specialize (Hc s Hs).
  destruct (c s) as [[a|e] s']; [exact Hc|apply (Hh e s' Hc)].
Qed.

Lemma triple_completes {S A} (P : S -> Prop) (c : Op S A) (Q : A -> S -> Prop)
    (E : Exn -> S -> Prop) :
  completes P c Q -> triple P c Q E.
Proof. intros Hc s Hs. destruct (Hc s Hs) as (a & s' & -> & Hq). exact Hq. Qed.

Lemma triple_await {S A} (P : S -> Prop) (o : Completion A) (E : Exn -> S -> Prop) :
  (forall e s, P s -> E e s) ->
  triple P (await o) (fun a s => P s /\ o = Normal a) E.
Proof. intros HE s Hs. unfold await. destruct o; [split; auto|apply HE, Hs]. Qed.

Lemma triple_await_keeps {S A} (P : S -> Prop) (o : Completion A) :
  triple P (await o) (fun _ => P) (fun _ => P).
Proof. intros s Hs. unfold await. destruct o; exact Hs. Qed.

Lemma triple_pure {S A} (phi : Prop) (P : S -> Prop) (c : Op S A)
    (Q : A -> S -> Prop) (E : Exn -> S -> Prop) :
  (phi -> triple P c Q E) -> triple (fun s => P s /\ phi) c Q E.
Proof. intros H s (Hs & Hphi). apply (H Hphi s Hs). Qed.

Lemma triple_weaken {S A} (P P' : S -> Prop) (c : Op S A)
    (Q Q' : A -> S -> Prop) (E E' : Exn -> S -> Prop) :
  triple P' c Q' E' -> (forall s, P s -> P' s) ->
  (forall a s, Q' a s -> Q a s) -> (forall e s, E' e s -> E e s) ->
  triple P c Q E.
Proof.
  intros Hc HP HQ HE s Hs. specialize (Hc s (HP s Hs)).
  destruct (c s) as [[a|e] s']; auto.
Qed.

Lemma completes_ret {S A} (P : S -> Prop) (a : A) (Q : A -> S -> Prop) :
  (forall s, P s -> Q a s) -> completes P (ret a) Q.
Proof. intros H s Hs. exists a, s. split; [reflexivity|auto]. Qed.

Lemma completes_bind {S A B} (P : S -> Prop) (c : Op S A) (k : A -> Op S B)
    (Q : A -> S -> Prop) (R : B -> S -> Prop) :
  completes P c Q -> (forall a, completes (Q a) (k a) R) ->
  completes P (bind c k) R.
Proof.
  intros Hc Hk s Hs. unfold bind.
  destruct (Hc s Hs) as (a & s' & -> & Hq). apply (Hk a s' Hq).
Qed.

Lemma completes_modify {S} (P : S -> Prop) (f : S -> S) (Q : unit -> S -> Prop) :
  (forall s, P s -> Q tt (f s)) -> completes P (modify f) Q.
Proof. intros H s Hs. exists tt, (f s). split; [reflexivity|auto]. Qed.

Lemma completes_get {S} (P : S -> Prop) (Q : S -> S -> Prop) :
  (forall s, P s -> Q s s) -> completes P get Q.
Proof. intros H s Hs. exists s, s. split; [reflexivity|auto]. Qed.

Lemma completes_weaken {S A} (P P' : S -> Prop) (c : Op S A)
    (Q Q' : A -> S -> Prop) :
  completes P' c Q' -> (forall s, P s -> P' s) ->
  (forall a s, Q' a s -> Q a s) -> completes P c Q.
Proof.
  intros Hc HP HQ s Hs. destruct (Hc s (HP s Hs)) as (a & s' & E & Hq).
  exists a, s'. split; [exact E|auto].
Qed.

(** [try { await oracle; k } catch { h }] where only the oracle throws. *)
Lemma completes_try_await {S A B} (P : S -> Prop) (o : Completion A)
    (k : A -> Op S B) (h : Exn -> Op S B) (Q : B -> S -> Prop) :
  (forall a, o = Normal a -> completes P (k a) Q) ->
  (forall e, o = Throw e -> completes P (h e) Q) ->
  completes P (try_catch (bind (await o) k) h) Q.
Proof.
  intros Hk Hh s Hs. unfold try_catch, bind, await.
  destruct o as [a|e].
  - destruct (Hk a eq_refl s Hs) as (b & s' & -> & Hq). exists b, s'. auto.
  - apply (Hh e eq_refl s Hs).
Qed.

Lemma completes_exists {S A X} (P : X -> S -> Prop) (c : Op S A)
    (Q : A -> S -> Prop) :
  (forall x, completes (P x) c Q) -> completes (fun s => exists x, P x s) c Q.
Proof. intros H s (x & Hx). apply (H x s Hx). Qed.

Lemma completes_pure {S A} (phi : Prop) (P : S -> Prop) (c : Op S A)
    (Q : A -> S -> Prop) :
  (phi -> completes P c Q) -> completes (fun s => phi /\ P s) c Q.
Proof. intros H s (Hphi & Hs). apply (H Hphi s Hs). Qed.

(** A loop whose body keeps [I] and completes keeps [I] and completes. *)
Lemma completes_for_of {S A} (I : S -> Prop) (xs : list A)
    (body : A -> Op S LoopCtl) :
  (forall x, completes I (body x) (fun _ => I)) ->
  completes I (for_of xs body) (fun _ => I).
Proof.
  intros Hbody. induction xs as [|x xs IH]; simpl.
  - apply completes_ret. auto.
  - eapply completes_bind; [apply Hbody|].
    intros [|]; [apply completes_ret; auto|exact IH].
Qed.

End Rules.

Section Images.
Import ImageValidator Spec ProgramLogic.

Lemma lookup_fresh {A} (h : list A) (i : A) : (h ++ [i]) !! List.length h = Some i.
Proof. induction h; simpl; auto. Qed.

Lemma insert_fresh {A} (h : list A) (i j : A) :
  <[List.length h := j]> (h ++ [i]) = h ++ [j].
Proof. induction h; simpl; [reflexivity|]. f_equal. exact IHh. Qed.

Lemma alloc_validating r img :
  completes (fun s => s = r)
    (alloc (mkImageInfo (strOr (src img) (currentSrc img)) (strOr (alt img) [])
                        (width img) (height img) false None None))
    (fun ref s => ref = List.length (heap r) /\ validating r img false s).
Proof.
  intros s ->. unfold alloc. eexists _, _. split; [reflexivity|].
  split; [reflexivity|]. unfold validating. eexists. simpl.
  rewrite app_nil_r. repeat split; reflexivity.
Qed.

Lemma update_validating r img pushed f :
  keepsIdentity f ->
  completes (validating r img pushed) (update (List.length (heap r)) f)
    (fun _ => validating r img pushed).
Proof.
  intros Hf. apply completes_modify.
  intros s (info & Hp & Ht & Hfl & Hi & Hw & Hh & Hs & Hwd & Hht).
  rewrite Hh, lookup_fresh, insert_fresh.
  destruct (Hf info) as (F1 & F2 & F3).
  exists (f info). simpl. repeat split; congruence.
Qed.

Lemma modify_validating r img pushed g :
  (forall s, passed (g s) = passed s /\ totalImages (g s) = totalImages s
             /\ failedImages (g s) = failedImages s /\ images (g s) = images s
             /\ warnings (g s) = warnings s /\ heap (g s) = heap s) ->
  completes (validating r img pushed) (modify g) (fun _ => validating r img pushed).
Proof.
  intros Hg. apply completes_modify.
  intros s (info & Hp & Ht & Hfl & Hi & Hw & Hh & Hs & Hwd & Hht).
  destruct (Hg s) as (G1 & G2 & G3 & G4 & G5 & G6).
  exists info. repeat split; congruence.
Qed.

Lemma push_failed_validating r img :
  completes (validating r img false) (modify (push_failed (List.length (heap r))))
    (fun _ => validating r img true).
Proof.
  apply completes_modify.
  intros s (info & Hp & Ht & Hfl & Hi & Hw & Hh & Hs & Hwd & Hht).
  exists info. simpl. rewrite Hfl, app_nil_r. repeat split; congruence.
Qed.


(** An [imageInfo] referenced from [failedImages] is found by its source. *)
Lemma own_entry_recorded r img s :
  validating r img true s ->
  recordedFailed s (strOr (src img) (currentSrc img)).
Proof.
  intros (info & Hp & Ht & Hfl & Hi & Hw & Hh & Hs & Hwd & Hht).
  unfold recordedFailed, failedHasSrc, deref.
  rewrite Hfl, omap_app, existsb_app. simpl.
  rewrite Hh, lookup_fresh. simpl.
  unfold streq. rewrite Hs, bool_decide_eq_true_2 by reflexivity.
  apply orb_true_r.
Qed.

Ltac keeps := intros [? ? ? ? ? ? ?]; simpl; repeat split; reflexivity.
Ltac untouched := intros [? ? ? ? ? ? ? ?]; simpl; repeat split; reflexivity.
Ltac upd := eapply completes_bind; [apply update_validating; keeps|intros ?; cbv beta].
Ltac last_mod pushed :=
  eapply completes_weaken;
  [first [apply push_failed_validating|apply modify_validating; untouched]
  |intros ? Hs; exact Hs|intros ? s Hs; exists pushed; exact Hs].

(** [validateImage] completes, with one more object on the heap, one
    more entry in [images] and at most one more in [failedImages]. *)
Lemma validateImage_validated page img m r :
  completes (fun s => s = r) (validateImage page img m)
    (fun _ => validated r img).
Proof.
  unfold validateImage.
  eapply completes_bind; [apply alloc_validating|].
  intros ref. apply completes_pure. intros ->.
  eapply completes_bind
    with (Q := fun _ s => exists pushed, validating r img pushed s).
  { destruct (complete img && (0 <? width img)%Z && (0 <? height img)%Z).
    - upd. last_mod false.
    - destruct (lookupResponse m img) as [response|].
      + upd. destruct (resp_status response =? 200)%Z.
        * upd. last_mod false.
        * upd. upd. last_mod true.
      + apply completes_try_await.
        * intros outcome _.
          destruct (probe_ok (probeResult outcome)
                    && (probe_status (probeResult outcome) =? 200)%Z).
          -- upd. upd. last_mod false.
          -- upd. upd. upd. last_mod true.
        * intros e _. upd. upd. last_mod true. }
  intros ?. apply completes_exists. intros pushed.
  eapply completes_bind with (Q := fun _ => validating r img pushed).
  { destruct (bool_decide (alt img = []) || (strlen (trim (alt img)) =? 0)%Z);
      [destruct ((50 <? width img)%Z && (50 <? height img)%Z
                 && negb (startsWith (src img) (lit "data:")))|];
      first [apply modify_validating; untouched
            |apply completes_ret; auto]. }
  intros ?. cbv beta.
  eapply completes_bind
    with (Q := fun _ s => exists pushed', validating r img pushed' s
                 /\ (zeroSized img ->
                     recordedFailed s (strOr (src img) (currentSrc img)))).
  { destruct ((width img =? 0)%Z || (height img =? 0)%Z) eqn:Hzero.
    - upd. intros s Hs. unfold bind, get, modify, ret.
      destruct (failedHasSrc s (strOr (src img) (currentSrc img))) eqn:Hf; simpl.
      + exists tt, s. split; [reflexivity|]. exists pushed. split; [exact Hs|].
        intros _. exact Hf.
      + destruct pushed.
        * apply own_entry_recorded in Hs. unfold recordedFailed in Hs. congruence.
        * destruct (push_failed_validating r img s Hs) as (u & s' & E & Hs').
          unfold modify in E. injection E as <- <-.
          eexists tt, _. split; [reflexivity|]. exists true.
          split; [exact Hs'|]. intros _. eapply own_entry_recorded, Hs'.
    - apply completes_ret. intros s Hs. exists pushed. split; [exact Hs|].
      intros [Hz|Hz]; rewrite Hz in Hzero; simpl in Hzero;
        rewrite ?orb_true_r in Hzero; discriminate. }
  intros ?. apply completes_modify.
  intros s (pushed' & (info & Hp & Ht & Hfl & Hi & Hw & Hh & Hs & Hwd & Hht) & Hz).
  exists info, pushed'. simpl. rewrite Hi.
  repeat split; assumption.
Qed.

Lemma validateImage_keeps I page img m :
  stable I -> completes I (validateImage page img m) (fun _ => I).
Proof.
  intros (Hst & _) s Hs.
  destruct (validateImage_validated page img m s s eq_refl) as (a & s' & E & Hv).
  exists a, s'. split; [exact E|]. eapply Hst; eassumption.
Qed.

Lemma validateEach_keeps I page imgs m :
  stable I -> completes I (validateEach page imgs m) (fun _ => I).
Proof.
  intros Hst. apply completes_for_of. intros img.
  eapply completes_bind; [apply validateImage_keeps, Hst|].
  intros ?. apply completes_ret. auto.
Qed.

Lemma scrollLoop_keeps I page sh :
  stable I ->
  forall fuel scroll,
    triple I (scrollLoop fuel page scroll sh)
      (fun o s => I s /\ ((0 < viewportHeight page)%Z ->
                          (sh - scroll <= Z.of_nat fuel)%Z -> o = Some tt))
      (fun _ => I).
Proof.
  intros Hst. induction fuel as [|fuel IH]; intros scroll; simpl;
    destruct (Z.ltb_spec scroll sh) as [Hlt|Hge].
  - intros s Hs. simpl. split; [exact Hs|]. intros _ Hle. simpl in Hle. lia.
  - intros s Hs. simpl. auto.
  - eapply triple_bind; [apply triple_await_keeps|]. intros ?. cbv beta.
    eapply triple_bind with (Q := fun _ s => I s).
    { unfold getAllImages. eapply triple_bind; [apply triple_await_keeps|].
      intros imgs. apply triple_completes, completes_ret. auto. }
    intros newImages. cbv beta.
    eapply triple_bind with (Q := fun r s => I s).
    { apply triple_completes, completes_get. auto. }
    intros r. eapply triple_bind with (Q := fun _ s => I s).
    { apply triple_completes.
      destruct (totalImages r <? Z.of_nat (List.length newImages))%Z.
      - apply validateEach_keeps, Hst.
      - apply completes_ret. auto. }
    intros ?. eapply triple_weaken; [apply IH|auto| |auto].
    intros o s (Hs & Ho). split; [exact Hs|]. intros Hvh Hle. apply Ho; [exact Hvh|lia].
  - intros s Hs. simpl. auto.
Qed.

Lemma checkLazyLoadedImages_keeps I fuel page :
  stable I ->
  triple I (checkLazyLoadedImages fuel page)
    (fun o s => I s /\ (enoughFuel fuel page -> o = Some tt))
    (fun _ _ => False).
Proof.
  intros Hst. unfold checkLazyLoadedImages.
  apply triple_try_catch with (E' := fun _ => I).
  - eapply triple_bind; [apply triple_await; auto|].
    intros sh. apply triple_pure. intros Hsh.
    eapply triple_bind; [apply scrollLoop_keeps, Hst|].
    intros finished. apply triple_pure. intros Hfin.
    destruct finished as [[]|].
    + eapply triple_bind; [apply triple_await_keeps|].
      intros ?. apply triple_completes, completes_ret. auto.
    + apply triple_completes, completes_ret. intros s Hs. split; [exact Hs|].
      intros (Hvh & Hfuel). apply Hfin; [exact Hvh|].
      specialize (Hfuel sh Hsh). lia.
  - intros e. eapply triple_bind with (Q := fun _ => I).
    + apply triple_completes, completes_modify. intros s Hs. apply Hst, Hs.
    + intros ?. apply triple_completes, completes_ret. auto.
Qed.

Lemma validate_keeps I fuel page :
  stable I ->
  (forall imgs, initialImages page = Normal imgs ->
     I (set_totalImages (Z.of_nat (List.length (List.map describe imgs))) initial)) ->
  triple (fun s => s = initial) (validate fuel page)
    (fun o s => (enoughFuel fuel page -> o <> None)
                /\ forall r, o = Some r ->
                     r = s /\ exists r5, I r5 /\ r = concluded r5)
    (fun e _ => initialImages page = Throw e).
Proof.
  intros Hst Hinit. unfold validate.
  eapply triple_bind
    with (Q := fun imgs s => s = initial
                 /\ exists nodes, initialImages page = Normal nodes
                                  /\ imgs = List.map describe nodes).
  { intros s ->. unfold getAllImages, bind, await, ret.
    destruct (initialImages page) as [nodes|e]; [|reflexivity].
    split; [reflexivity|]. exists nodes. auto. }
  intros imgs. apply triple_pure. intros (nodes & Hnodes & ->).
  eapply triple_bind with (Q := fun _ => I).
  { apply triple_completes, completes_modify. intros s ->. apply Hinit, Hnodes. }
  intros ?. eapply triple_bind with (Q := fun _ => I).
  { apply triple_completes, validateEach_keeps, Hst. }
  intros ?. eapply triple_bind.
  { eapply triple_weaken; [apply (checkLazyLoadedImages_keeps I fuel page Hst)
                          |auto|intros o s H; exact H|intros e s []]. }
  intros finished. apply triple_pure. intros Hfin.
  destruct finished as [[]|].
  - intros s Hs. unfold bind, modify, get, ret. simpl.
    split; [discriminate|]. intros r [= <-]. split; [reflexivity|].
    exists s. split; [exact Hs|reflexivity].
  - intros s Hs. unfold ret. simpl. split; [|discriminate].
    intros Hf. specialize (Hfin Hf). discriminate.
Qed.

Lemma omap_lookup_extend {A} (h x : list A) (refs : list nat) :
  Forall (fun i => (i < List.length h)%nat) refs ->
  omap (fun i => (h ++ x) !! i) refs = omap (fun i => h !! i) refs.
Proof.
  induction 1 as [|i refs Hi _ IH]; [reflexivity|].
  cbn [omap list_omap]. rewrite IH, lookup_app_l by exact Hi. reflexivity.
Qed.

Lemma In_omap_singleton {A} (h : list A) (x y : A) :
  In y (omap (fun i => (h ++ [x]) !! i) [List.length h]) -> y = x.
Proof.
  cbn [omap list_omap]. rewrite lookup_fresh. simpl. intros [H|[]]. auto.
Qed.

Lemma Forall_lt_extend (n : nat) (refs : list nat) :
  Forall (fun i => (i < n)%nat) refs -> Forall (fun i => (i < n + 1)%nat) refs.
Proof. apply List.Forall_impl. intros; lia. Qed.

Lemma recorded_stable : stable (fun r => wellFormed r /\ zeroSizedRecorded r).
Proof.
  split.
  - intros r img s ((Hwf1 & Hwf2) & Hz)
      (info & pushed & Hp & Ht & Hfl & Hi & Hw & Hh & Hs & Hwd & Hht & Hrec).
    assert (Hmono : forall source, recordedFailed r source -> recordedFailed s source).
    { unfold recordedFailed, failedHasSrc, deref. intros source H.
      rewrite Hfl, Hh, omap_app, existsb_app, omap_lookup_extend by exact Hwf1.
      rewrite H. reflexivity. }
    split.
    + unfold wellFormed. rewrite Hfl, Hi, Hh, length_app. simpl. split.
      * apply Forall_app. split; [apply Forall_lt_extend, Hwf1|].
        destruct pushed; constructor; [lia|constructor].
      * apply Forall_app. split; [apply Forall_lt_extend, Hwf2|].
        constructor; [lia|constructor].
    + intros i Hin Hzero. unfold deref in Hin.
      rewrite Hi, Hh, omap_app in Hin. apply in_app_or in Hin as [Hin|Hin].
      * rewrite omap_lookup_extend in Hin by exact Hwf2.
        apply Hmono, Hz; assumption.
      * apply In_omap_singleton in Hin. subst i. rewrite Hs. apply Hrec.
        unfold zeroSized. rewrite <- Hwd, <- Hht. exact Hzero.
  - intros r w (Hwf & Hz). split; [exact Hwf|exact Hz].
Qed.

Lemma recorded_nonempty r source :
  recordedFailed r source -> failedImages r <> [].
Proof.
  unfold recordedFailed, failedHasSrc, deref. intros H Hnil.
  rewrite Hnil in H. discriminate.
Qed.
End Images.

Section Audit.

Import ImageValidator Spec ProgramLogic.

Lemma recorded_initially n :
  wellFormed (set_totalImages n initial)
  /\ zeroSizedRecorded (set_totalImages n initial).
Proof.
  split.
  - split; constructor.
  - intros info [].
Qed.

(** What holds of the result of [validate] for a property that is
    [stable] and holds once [totalImages] is set. *)
Lemma audit_concluded (I : Results -> Prop) fuel page r :
  stable I ->
  (forall imgs, initialImages page = Normal imgs ->
     I (set_totalImages (Z.of_nat (List.length (List.map describe imgs))) initial)) ->
  audit fuel page = Normal (Some r) ->
  exists r5, I r5 /\ r = concluded r5.
Proof.
  intros Hst Hinit Hr. unfold audit in Hr.
  pose proof (validate_keeps I fuel page Hst Hinit initial eq_refl) as H.
  destruct (validate fuel page initial) as [[o|e] s]; simpl in Hr; [|discriminate].
  injection Hr as ->. destruct H as (_ & H).
  destruct (H r eq_refl) as (_ & r5 & H5 & ->). exists r5. auto.
Qed.

Lemma audit_terminates fuel page :
  enoughFuel fuel page -> audit fuel page <> Normal None.
Proof.
  intros Hf Hr. unfold audit in Hr.
  assert (Hst : stable (fun _ : Results => True)) by (split; auto).
  pose proof (validate_keeps (fun _ => True) fuel page Hst (fun _ _ => I)
                initial eq_refl) as H.
  destruct (validate fuel page initial) as [[o|e] s]; simpl in Hr; [|discriminate].
  injection Hr as ->. destruct H as (H & _). apply (H Hf). reflexivity.
Qed.

Lemma totalImages_stable page :
  stable (fun r => exists nodes, initialImages page = Normal nodes
                                 /\ totalImages r = Z.of_nat (List.length nodes)).
Proof.
  split.
  - intros r img s (nodes & Hn & Ht) (info & pushed & _ & Ht' & _).
    exists nodes. split; [exact Hn|congruence].
  - intros r w H. exact H.
Qed.

End Audit.

(** C5.  An image whose recorded width or height is 0 is recorded in
    [failedImages], whatever its completion flag, the intercepted
    responses and the probe say: [validateImage] completes and leaves an
    entry with the image's source there; and in every result [validate]
    returns, each processed image with a zero dimension has such an
    entry and [passed] is false. *)
Theorem C5_zero_dimension_failed :
  (forall (page : ImageValidator.Page) (img : ImageValidator.Img)
          (imageResponses : gmap jsstring ImageValidator.Response)
          (r : ImageValidator.Results),
      Spec.zeroSized img ->
      exists s,
        ImageValidator.validateImage page img imageResponses r = (Normal tt, s)
        /\ Spec.recordedFailed s
             (ImageValidator.strOr (ImageValidator.src img)
                (ImageValidator.currentSrc img))
        /\ ImageValidator.failedImages s <> [])
  /\ (forall (fuel : nat) (page : ImageValidator.Page) (r : ImageValidator.Results),
        Spec.audit fuel page = Normal (Some r) ->
        forall info,
          In info (ImageValidator.deref r (ImageValidator.images r)) ->
          (ImageValidator.info_width info = 0
           \/ ImageValidator.info_height info = 0)%Z ->
          Spec.recordedFailed r (ImageValidator.info_src info)
          /\ ImageValidator.passed r = false).
Proof.
  split.
  - intros page img m r Hz.
    destruct (validateImage_validated page img m r r eq_refl)
      as ([] & s & E & info & pushed & _ & _ & _ & _ & _ & _ & _ & _ & _ & Hrec).
    exists s. split; [exact E|].
    split; [exact (Hrec Hz)|]. eapply recorded_nonempty, Hrec, Hz.
  - intros fuel page r Hr info Hin Hzero.
    destruct (audit_concluded _ fuel page r recorded_stable
                (fun imgs _ => recorded_initially _) Hr)
      as (r5 & (_ & Hz5) & ->).
    assert (Hrec : Spec.recordedFailed r5 (ImageValidator.info_src info))
      by (apply Hz5; assumption).
    split; [exact Hrec|].
    apply recorded_nonempty in Hrec. simpl.
    apply bool_decide_eq_false_2.
    destruct (ImageValidator.failedImages r5); [congruence|discriminate].
Qed.

(** C5 on a picture reported complete, answered with status 200, and
    of width 0. *)
Lemma C5_zero_dimension_failed_witness :
  Spec.zeroSized Examples.flatImage
  /\ exists s,
       ImageValidator.validateImage Examples.lazyPage Examples.flatImage
         Examples.flatResponses ImageValidator.initial = (Normal tt, s)
       /\ Spec.recordedFailed s
            (ImageValidator.strOr (ImageValidator.src Examples.flatImage)
               (ImageValidator.currentSrc Examples.flatImage))
       /\ ImageValidator.failedImages s <> [].
Proof.
  split; [left; reflexivity|].
  apply (proj1 C5_zero_dimension_failed Examples.lazyPage Examples.flatImage
           Examples.flatResponses ImageValidator.initial).
  left; reflexivity.
Defined.

(** C9.  Whenever [validate] returns, [loadedImages] is [totalImages]
    minus the length of [failedImages], and [totalImages] is the number
    of images enumerated before the lazy-load sweep; the value the
    per-image increments had reached plays no part in it.  When the only
    image appears during the sweep and fails, [loadedImages] is -1.
    With a positive scroll step and enough fuel, [validate] does return
    or throw. *)
Theorem C9_loaded_images_recomputed :
  (forall (fuel : nat) (page : ImageValidator.Page),
      Spec.enoughFuel fuel page -> Spec.audit fuel page <> Normal None)
  /\ (forall (fuel : nat) (page : ImageValidator.Page) (r : ImageValidator.Results),
        Spec.audit fuel page = Normal (Some r) ->
        ImageValidator.loadedImages r
        = (ImageValidator.totalImages r
           - Z.of_nat (List.length (ImageValidator.failedImages r)))%Z
        /\ (exists nodes,
              ImageValidator.initialImages page = Normal nodes
              /\ ImageValidator.totalImages r = Z.of_nat (List.length nodes))
        /\ (exists r5,
              r = Spec.concluded r5
              /\ forall n, Spec.concluded (ImageValidator.set_loadedImages n r5) = r))
  /\ (exists r,
        Spec.audit 1 Examples.emptyThenBroken = Normal (Some r)
        /\ ImageValidator.totalImages r = 0%Z
        /\ List.length (ImageValidator.failedImages r) = 1%nat
        /\ ImageValidator.loadedImages r = (-1)%Z).
Proof.
  split; [exact audit_terminates|]. split.
  - intros fuel page r Hr.
    destruct (audit_concluded _ fuel page r (totalImages_stable page)) as
      (r5 & (nodes & Hn & Ht) & ->).
    + intros imgs Himgs. exists imgs. split; [exact Himgs|].
      simpl. rewrite length_map. reflexivity.
    + exact Hr.
    + split; [reflexivity|]. split.
      * exists nodes. split; [exact Hn|exact Ht].
      * exists r5. split; reflexivity.
  - eexists. split; [vm_compute; reflexivity|].
    repeat split; reflexivity.
Qed.

(** C9 on the page whose only image appears during the sweep. *)
Lemma C9_loaded_images_recomputed_witness :
  Spec.enoughFuel 900 Examples.emptyThenBroken
  /\ Spec.audit 900 Examples.emptyThenBroken <> Normal None.
Proof.
  assert (H : Spec.enoughFuel 900 Examples.emptyThenBroken).
  { split; [reflexivity|]. intros sh [= <-]. reflexivity. }
  split; [exact H|].
  exact (proj1 C9_loaded_images_recomputed 900%nat Examples.emptyThenBroken H).
Defined.

(* ===================================================================== *)
(** * Properties of the runner *)
(* ===================================================================== *)

Section RunnerFacts.
Import Runner Spec.
Variable toLowerCase : jsstring -> jsstring.

Lemma detectPlatform_eq {S} (b : Session) (s : S) :
  detectPlatform b s = (Normal (detectedPlatform b), s).
Proof.
  unfold detectedPlatform, call, detectPlatform, try_catch, bind, await, ret.
  destruct (indicators b) as [[sh bc]|e]; simpl; [|reflexivity].
  destruct sh; [reflexivity|]. destruct bc; [reflexivity|].
  destruct (currentUrl b) as [u|e]; simpl; [|reflexivity].
  destruct (includes u (lit "shopify") || includes u (lit "myshopify.com"));
    [reflexivity|].
  destruct (includes u (lit "bigcommerce")); reflexivity.
Qed.

Lemma tryBlock_all_return fuel b config platform x y r :
  productTester_test toLowerCase config (effectivePlatform b platform) (dom b)
  = Normal x ->
  audit fuel (pictures b) = Normal (Some y) ->
  exists r',
    tryBlock toLowerCase fuel b config platform r = (Normal (Some tt), r')
    /\ passed (overall r')
       = ProductPageTester.passed x && ImageValidator.passed y
         && ErrorDetector.passed
              (finalized toLowerCase (errorTolerance config) (metrics b)
                 (ErrorDetector.listen (events b) ErrorDetector.initial))
    /\ error (overall r') = error (overall r)
    /\ productPage r' = Some x /\ images r' = Some y
    /\ errors r'
       = Some (finalized toLowerCase (errorTolerance config) (metrics b)
                 (ErrorDetector.listen (events b) ErrorDetector.initial)).
Proof.
  intros Hx Hy. unfold tryBlock, effectivePlatform in *.
  unfold bind at 1.
  assert (Hnav : exists (u : unit),
            try_catch (await (outcome (goto b)))
              (fun _ => try_catch (await (outcome (gotoFallback b)))
                          (fun _ => ret tt)) r = (Normal u, r)).
  { unfold try_catch, await, outcome, ret.
    destruct (goto b); [destruct (gotoFallback b)|]; eexists; reflexivity. }
  destruct Hnav as (u & ->).
  unfold audit in Hy. unfold call.
  destruct (bool_decide (platform = []) || streq platform (lit "auto")).
  - unfold bind, modify, ret, await. rewrite detectPlatform_eq.
    rewrite Hx, Hy, detect_returns. simpl.
    eexists. split; [reflexivity|]. simpl. repeat split; reflexivity.
  - unfold bind, modify, ret, await.
    rewrite Hx, Hy, detect_returns. simpl.
    eexists. split; [reflexivity|]. simpl. repeat split; reflexivity.
Qed.
End RunnerFacts.

(** C6, on the code.  On a page two viewports high that shows one image
    at first and a second, broken one after the first scroll step, the
    sweep validates the second image at both scroll steps: [images]
    ends with two entries for it and [failedImages] holds it twice. *)
Theorem C6_lazy_image_validated_twice :
  exists r,
    Spec.audit 2 Examples.lazyPage = Normal (Some r)
    /\ ImageValidator.totalImages r = 1%Z
    /\ List.map ImageValidator.info_src
         (ImageValidator.deref r (ImageValidator.images r))
       = [lit "https://shop.example/hero.jpg";
          lit "https://shop.example/detail.jpg";
          lit "https://shop.example/detail.jpg"]
    /\ ImageValidator.failedImages r = [1%nat; 2%nat].
Proof.
  eexists. split; [vm_compute; reflexivity|].
  repeat split; vm_compute; reflexivity.
Qed.

(** C1.  When the structural check, the image check and the signal
    check each return a result, every [PageTestResult] the run returns
    carries these three results and has [overall.passed] equal to the
    conjunction of their [passed] flags; and the run does return one
    when opening and closing the page do not fail. *)
Theorem C1_overall_is_conjunction
    (toLowerCase : jsstring -> jsstring) (fuel : nat) (b : Runner.Session)
    (url : jsstring) (config : Runner.Config) (platform : jsstring)
    (x : ProductPageTester.Results) (y : ImageValidator.Results) :
  Runner.productTester_test toLowerCase config
    (Spec.effectivePlatform b platform) (Runner.dom b) = Normal x ->
  Spec.audit fuel (Runner.pictures b) = Normal (Some y) ->
  Runner.call
    (ErrorDetector.detect toLowerCase (Runner.errorTolerance config) (Runner.metrics b))
    (ErrorDetector.listen (Runner.events b) ErrorDetector.initial)
  = Normal (Spec.finalized toLowerCase (Runner.errorTolerance config)
              (Runner.metrics b)
              (ErrorDetector.listen (Runner.events b) ErrorDetector.initial))
  /\ (forall r,
        Runner.testProductPage toLowerCase fuel b url config platform
        = Some (Normal r) ->
        Runner.passed (Runner.overall r)
        = ProductPageTester.passed x && ImageValidator.passed y
          && ErrorDetector.passed
               (Spec.finalized toLowerCase (Runner.errorTolerance config)
                  (Runner.metrics b)
                  (ErrorDetector.listen (Runner.events b) ErrorDetector.initial))
        /\ Runner.error (Runner.overall r) = None
        /\ Runner.productPage r = Some x
        /\ Runner.images r = Some y
        /\ Runner.errors r
           = Some (Spec.finalized toLowerCase (Runner.errorTolerance config)
                     (Runner.metrics b)
                     (ErrorDetector.listen (Runner.events b) ErrorDetector.initial)))
  /\ (Runner.newPage b = None -> Runner.close b = None ->
      exists r,
        Runner.testProductPage toLowerCase fuel b url config platform
        = Some (Normal r)).
Proof.
  intros Hx Hy.
  split; [apply detect_returns|].
  unfold Runner.testProductPage.
  destruct (tryBlock_all_return toLowerCase fuel b config platform x y
              (Runner.mkResult url platform (Runner.mkOverall true None None)
                 None None None) Hx Hy)
    as (r' & Htry & Hpass & Herr & Hpp & Him & Her).
  destruct (Runner.newPage b) as [e|].
  - split; [intros r [=]|intros [=]].
  - unfold try_finally, try_catch. rewrite Htry. simpl.
    unfold await, Runner.outcome.
    destruct (Runner.close b) as [e|]; simpl.
    + split; [intros r [=]|intros _ [=]].
    + split.
      * intros r [= <-]. rewrite Hpass, Herr. repeat split; assumption.
      * intros _ _. exists r'. reflexivity.
Qed.

(** C1 on the shop: the page is opened and closed without fault and
    the three checks return, so the run returns a result. *)
Lemma C1_overall_is_conjunction_witness :
  exists r,
    Runner.testProductPage Spec.asciiToLowerCase 2 Examples.shopSession
      (lit "https://shop.example/products/shirt") Examples.shopConfig (lit "auto")
    = Some (Normal r).
Proof.
  apply (proj2 (proj2
           (C1_overall_is_conjunction Spec.asciiToLowerCase 2 Examples.shopSession
              (lit "https://shop.example/products/shirt") Examples.shopConfig
              (lit "auto")
              (Spec.structural (Examples.shopPage false) Examples.shopSelectors)
              (Spec.concluded
                 (snd (ImageValidator.checkLazyLoadedImages 2 Examples.lazyPage
                         (snd (ImageValidator.validateEach Examples.lazyPage
                                 [ImageValidator.describe Examples.heroNode] ∅
                                 (ImageValidator.set_totalImages 1
                                    ImageValidator.initial))))))
              ltac:(vm_compute; reflexivity) ltac:(vm_compute; reflexivity)))).
  - reflexivity.
  - reflexivity.
Defined.

(* ===================================================================== *)
(** * Further properties of the signal classifier *)
(* ===================================================================== *)

Section SignalCounts.

Import ErrorDetector Spec Signals.

Variable toLowerCase : jsstring -> jsstring.

(** The critical entries among network and resource failures. *)
Lemma handle_criticalFailures r ev :
  (List.length (List.filter (fun f => isCritical (f_severity f))
                  (networkFailures (handle r ev)))
   + List.length (List.filter (fun f => isCritical (f_severity f))
                    (resourceFailures (handle r ev))))%nat
  = (List.length (List.filter (fun f => isCritical (f_severity f)) (networkFailures r))
     + List.length (List.filter (fun f => isCritical (f_severity f)) (resourceFailures r))
     + match ev with
       | ResponseReceived response => if criticalResponse response then 1 else 0
       | _ => 0
       end)%nat.
Proof.
  destruct ev as [type text|error|url method errorText|response]; simpl.
  - unfold onConsole. destruct (streq type (lit "error")); simpl; [lia|].
    destruct (streq type (lit "warning")); simpl; lia.
  - lia.
  - unfold onRequestFailed.
    destruct (match errorText with Some t => _ | None => false end); simpl;
      rewrite ?List.filter_app, ?length_app; simpl; lia.
  - unfold onResponse, criticalResponse.
    match goal with
    | |- context [checkSecurityIssues response ?a] =>
        destruct (checkSecurityIssues_frame response a) as (_ & -> & -> & _)
    end.
    destruct (400 <=? r_status response)%Z eqn:H4;
      destruct (500 <=? r_status response)%Z eqn:H5; simpl;
      try destruct (isCriticalResource (r_url response)); simpl;
      rewrite ?List.filter_app, ?length_app; simpl; lia.
Qed.

Lemma handle_totalWarnings r ev :
  totalWarnings (handle r ev)
  = (totalWarnings r + if warningSignal ev then 1 else 0)%Z.
Proof.
  destruct ev as [type text|error|url method errorText|response]; simpl.
  - unfold onConsole. destruct (streq type (lit "error")); simpl; [lia|].
    destruct (streq type (lit "warning")); simpl; lia.
  - lia.
  - unfold onRequestFailed.
    destruct (match errorText with Some t => _ | None => false end); simpl; lia.
  - unfold onResponse, warningResponse.
    match goal with
    | |- context [checkSecurityIssues response ?a] =>
        destruct (checkSecurityIssues_frame response a) as (_ & _ & _ & ->)
    end.
    destruct (400 <=? r_status response)%Z eqn:H4;
      destruct (500 <=? r_status response)%Z eqn:H5; simpl;
      try destruct (isCriticalResource (r_url response)); simpl; lia.
Qed.

(** The critical entries a console event leaves after classification. *)
Lemma classified_console_entries ev :
  List.length
    (List.filter (fun e => isCritical (ce_severity e))
       (List.map (categorize toLowerCase)
          (List.filter (notIgnorable toLowerCase) (newConsoleEntries ev))))
  = match ev with
    | ResponseReceived _ => 0%nat
    | _ => if criticalSignal toLowerCase ev then 1%nat else 0%nat
    end.
Proof.
  destruct ev as [type text|error|url method errorText|response]; simpl;
    try reflexivity.
  - destruct (streq type (lit "error")); simpl; [|reflexivity].
    unfold notIgnorable, noise, faultMessage. simpl ce_message.
    destruct (existsb _ ignorablePatterns); simpl; [reflexivity|].
    unfold categorize. simpl ce_message.
    destruct (includes (toLowerCase text) (lit "uncaught")
              || includes (toLowerCase text) (lit "syntax error")
              || includes (toLowerCase text) (lit "reference error")
              || includes (toLowerCase text) (lit "type error")); reflexivity.
  - unfold notIgnorable, noise, faultMessage. simpl ce_message.
    destruct (existsb _ ignorablePatterns); simpl; [reflexivity|].
    unfold categorize. simpl ce_message.
    destruct (includes (toLowerCase (message error)) (lit "uncaught")
              || includes (toLowerCase (message error)) (lit "syntax error")
              || includes (toLowerCase (message error)) (lit "reference error")
              || includes (toLowerCase (message error)) (lit "type error"));
      reflexivity.
Qed.

Lemma criticalCount_listen tolerance metrics events r :
  criticalCount (finalized toLowerCase tolerance metrics (listen events r))
  = (criticalCount (finalized toLowerCase tolerance metrics r)
     + countOf (criticalSignal toLowerCase) events)%Z.
Proof.
  unfold countOf. revert r.
  induction events as [|ev evs IH]; intros r.
  - simpl. lia.
  - change (listen (ev :: evs) r) with (listen evs (handle r ev)).
    rewrite IH. clear IH.
    unfold criticalCount.
    destruct (finalized_fields toLowerCase tolerance metrics (handle r ev))
      as (-> & -> & -> & _).
    destruct (finalized_fields toLowerCase tolerance metrics r)
      as (-> & -> & -> & _).
    rewrite handle_consoleErrors, List.filter_app, List.map_app, List.filter_app,
      length_app.
    pose proof (handle_criticalFailures r ev) as Hf.
    pose proof (classified_console_entries ev) as Hc.
    cbn [List.filter]. 
    destruct ev as [type text|error|url method errorText|response];
      cbn [criticalSignal] in *;
      try destruct (streq type (lit "error") && negb (noise toLowerCase text)
                    && faultMessage toLowerCase text);
      try destruct (negb (noise toLowerCase (message error))
                    && faultMessage toLowerCase (message error));
      try destruct (criticalResponse response);
      cbn [List.length] in *; lia.
Qed.

Lemma totalWarnings_listen tolerance metrics events r :
  totalWarnings (finalized toLowerCase tolerance metrics (listen events r))
  = (totalWarnings r + countOf warningSignal events)%Z.
Proof.
  destruct (finalized_fields toLowerCase tolerance metrics (listen events r))
    as (_ & _ & _ & ->).
  unfold countOf, listen. revert r.
  induction events as [|ev evs IH]; intros r; simpl.
  - lia.
  - rewrite IH, handle_totalWarnings.
    destruct (warningSignal ev); simpl List.length; lia.
Qed.

End SignalCounts.

Section VerdictFromEvents.

Import ErrorDetector Spec Signals.

Variable toLowerCase : jsstring -> jsstring.

Lemma countOf_app kind evs1 evs2 :
  countOf kind (evs1 ++ evs2) = (countOf kind evs1 + countOf kind evs2)%Z.
Proof. unfold countOf. rewrite List.filter_app, length_app. lia. Qed.

Lemma countOf_nonneg kind evs : (0 <= countOf kind evs)%Z.
Proof. unfold countOf. lia. Qed.

Lemma countOf_In kind evs ev :
  In ev evs -> kind ev = true -> (1 <= countOf kind evs)%Z.
Proof.
  intros Hin Hk. apply in_split in Hin as (l1 & l2 & ->).
  rewrite countOf_app.
  change (ev :: l2) with ([ev] ++ l2). rewrite countOf_app.
  pose proof (countOf_nonneg kind l1). pose proof (countOf_nonneg kind l2).
  unfold countOf at 2. simpl. rewrite Hk. simpl. lia.
Qed.

Lemma criticalCount_nonneg r : (0 <= criticalCount r)%Z.
Proof. unfold criticalCount. lia. Qed.

(** The verdict reads two numbers off the signal set. *)
Lemma passed_by_counts tolerance metrics r r' :
  criticalCount (finalized toLowerCase tolerance metrics r)
  = criticalCount (finalized toLowerCase tolerance metrics r') ->
  totalWarnings (finalized toLowerCase tolerance metrics r)
  = totalWarnings (finalized toLowerCase tolerance metrics r') ->
  passed (finalized toLowerCase tolerance metrics r)
  = passed (finalized toLowerCase tolerance metrics r').
Proof.
  intros Hc Hw. apply eq_true_iff_eq.
  rewrite !passed_finalized, Hc, Hw. reflexivity.
Qed.

End VerdictFromEvents.

(** C2, as the code has it.  For every tolerance configuration and
    every finalized signal set, [passed] is true exactly when the number
    of critical console errors, critical network failures and critical
    resource failures is at most the critical tolerance and the warning
    counter [totalWarnings] is at most the warning tolerance.  The
    counter is raised by the console messages of type [warning] and by
    the 4xx responses on resources that are not critical, and by nothing
    else: classification leaves it alone, so a console error tagged
    [warning] is not in it.  With tolerances 0 and 5: no critical signal
    and 5 counted warnings pass, no critical signal and 6 counted
    warnings fail, one critical signal and no warning fails. *)
Theorem C2_signal_verdict
    (toLowerCase : jsstring -> jsstring)
    (tolerance : ErrorDetector.ErrorTolerance)
    (metrics : Completion ErrorDetector.Metrics)
    (collected : ErrorDetector.Results) (network : Z) :
  (ErrorDetector.passed (Spec.finalized toLowerCase tolerance metrics collected) = true
   <-> (Spec.criticalCount (Spec.finalized toLowerCase tolerance metrics collected)
          <= ErrorDetector.tol_critical tolerance
        /\ ErrorDetector.totalWarnings
             (Spec.finalized toLowerCase tolerance metrics collected)
          <= ErrorDetector.tol_warning tolerance)%Z)
  /\ (forall events,
        ErrorDetector.totalWarnings
          (Spec.finalized toLowerCase tolerance metrics
             (ErrorDetector.listen events collected))
        = (ErrorDetector.totalWarnings collected
           + Signals.countOf Signals.warningSignal events)%Z)
  /\ (Spec.criticalCount
        (Spec.finalized toLowerCase (ErrorDetector.mkTolerance 0 5 network) metrics collected) = 0%Z ->
      ErrorDetector.totalWarnings
        (Spec.finalized toLowerCase (ErrorDetector.mkTolerance 0 5 network) metrics collected) = 5%Z ->
      ErrorDetector.passed
        (Spec.finalized toLowerCase (ErrorDetector.mkTolerance 0 5 network) metrics collected) = true)
  /\ (Spec.criticalCount
        (Spec.finalized toLowerCase (ErrorDetector.mkTolerance 0 5 network) metrics collected) = 0%Z ->
      ErrorDetector.totalWarnings
        (Spec.finalized toLowerCase (ErrorDetector.mkTolerance 0 5 network) metrics collected) = 6%Z ->
      ErrorDetector.passed
        (Spec.finalized toLowerCase (ErrorDetector.mkTolerance 0 5 network) metrics collected) = false)
  /\ (Spec.criticalCount
        (Spec.finalized toLowerCase (ErrorDetector.mkTolerance 0 5 network) metrics collected) = 1%Z ->
      ErrorDetector.totalWarnings
        (Spec.finalized toLowerCase (ErrorDetector.mkTolerance 0 5 network) metrics collected) = 0%Z ->
      ErrorDetector.passed
        (Spec.finalized toLowerCase (ErrorDetector.mkTolerance 0 5 network) metrics collected) = false).
Proof.
  split; [apply passed_finalized|].
  split; [intros events; apply totalWarnings_listen|].
  pose proof (passed_finalized toLowerCase
                (ErrorDetector.mkTolerance 0 5 network) metrics collected) as H.
  simpl ErrorDetector.tol_critical in H. simpl ErrorDetector.tol_warning in H.
  repeat split; intros Hc Hw; rewrite Hc, Hw in H.
  - apply H; lia.
  - apply not_true_is_false. intros Hp. apply H in Hp. lia.
  - apply not_true_is_false. intros Hp. apply H in Hp. lia.
Qed.

(** C2 at concrete signal sets: five console warnings among six plain
    console errors; five console warnings and a 404 on a picture; one
    uncaught fault. *)
Lemma C2_signal_verdict_witness :
  ErrorDetector.passed
    (Spec.finalized Spec.asciiToLowerCase (ErrorDetector.mkTolerance 0 5 2)
       Examples.noMetrics
       (ErrorDetector.listen
          (Examples.consoleWarnings 5 ++ Examples.plainConsoleErrors 6)
          ErrorDetector.initial)) = true
  /\ ErrorDetector.passed
       (Spec.finalized Spec.asciiToLowerCase (ErrorDetector.mkTolerance 0 5 2)
          Examples.noMetrics
          (ErrorDetector.listen
             (Examples.consoleWarnings 5 ++ [Examples.missingPicture])
             ErrorDetector.initial)) = false
  /\ ErrorDetector.passed
       (Spec.finalized Spec.asciiToLowerCase (ErrorDetector.mkTolerance 0 5 2)
          Examples.noMetrics
          (ErrorDetector.listen [Examples.uncaughtTypeError] ErrorDetector.initial)) = false.
Proof.
  split; [|split].
  - apply (proj1 (proj2 (proj2 (C2_signal_verdict Spec.asciiToLowerCase
             ErrorDetector.defaultTolerance Examples.noMetrics
             (ErrorDetector.listen
                (Examples.consoleWarnings 5 ++ Examples.plainConsoleErrors 6)
                ErrorDetector.initial) 2))));
      vm_compute; reflexivity.
  - apply (proj1 (proj2 (proj2 (proj2 (C2_signal_verdict Spec.asciiToLowerCase
             ErrorDetector.defaultTolerance Examples.noMetrics
             (ErrorDetector.listen
                (Examples.consoleWarnings 5 ++ [Examples.missingPicture])
                ErrorDetector.initial) 2)))));
      vm_compute; reflexivity.
  - apply (proj2 (proj2 (proj2 (proj2 (C2_signal_verdict Spec.asciiToLowerCase
             ErrorDetector.defaultTolerance Examples.noMetrics
             (ErrorDetector.listen [Examples.uncaughtTypeError]
                ErrorDetector.initial) 2)))));
      vm_compute; reflexivity.
Defined.

(** C2 with warnings counted by severity class fails: six console
    errors that name no fault are all tagged [warning] on
    classification, no signal is critical, and the page passes under
    tolerances 0 and 5. *)
Lemma C2_warning_class_counterexample :
  Spec.criticalCount
    (Spec.finalized Spec.asciiToLowerCase (ErrorDetector.mkTolerance 0 5 2)
       Examples.noMetrics
       (ErrorDetector.listen (Examples.plainConsoleErrors 6)
          ErrorDetector.initial)) = 0%Z
  /\ Spec.warningClassCount
       (Spec.finalized Spec.asciiToLowerCase (ErrorDetector.mkTolerance 0 5 2)
          Examples.noMetrics
          (ErrorDetector.listen (Examples.plainConsoleErrors 6)
             ErrorDetector.initial)) = 6%Z
  /\ ErrorDetector.passed
       (Spec.finalized Spec.asciiToLowerCase (ErrorDetector.mkTolerance 0 5 2)
          Examples.noMetrics
          (ErrorDetector.listen (Examples.plainConsoleErrors 6)
             ErrorDetector.initial)) = true
  /\ ~ (ErrorDetector.passed
         (Spec.finalized Spec.asciiToLowerCase (ErrorDetector.mkTolerance 0 5 2)
            Examples.noMetrics
            (ErrorDetector.listen (Examples.plainConsoleErrors 6)
               ErrorDetector.initial)) = true
       <-> (Spec.criticalCount
              (Spec.finalized Spec.asciiToLowerCase
                 (ErrorDetector.mkTolerance 0 5 2) Examples.noMetrics
                 (ErrorDetector.listen (Examples.plainConsoleErrors 6)
                    ErrorDetector.initial)) <= 0
            /\ Spec.warningClassCount
                 (Spec.finalized Spec.asciiToLowerCase
                    (ErrorDetector.mkTolerance 0 5 2) Examples.noMetrics
                    (ErrorDetector.listen (Examples.plainConsoleErrors 6)
                       ErrorDetector.initial)) <= 5)%Z).
Proof.
  assert (Hc : Spec.criticalCount
    (Spec.finalized Spec.asciiToLowerCase (ErrorDetector.mkTolerance 0 5 2)
       Examples.noMetrics
       (ErrorDetector.listen (Examples.plainConsoleErrors 6)
          ErrorDetector.initial)) = 0%Z) by (vm_compute; reflexivity).
  assert (Hw : Spec.warningClassCount
       (Spec.finalized Spec.asciiToLowerCase (ErrorDetector.mkTolerance 0 5 2)
          Examples.noMetrics
          (ErrorDetector.listen (Examples.plainConsoleErrors 6)
             ErrorDetector.initial)) = 6%Z) by (vm_compute; reflexivity).
  assert (Hp : ErrorDetector.passed
       (Spec.finalized Spec.asciiToLowerCase (ErrorDetector.mkTolerance 0 5 2)
          Examples.noMetrics
          (ErrorDetector.listen (Examples.plainConsoleErrors 6)
             ErrorDetector.initial)) = true) by (vm_compute; reflexivity).
  repeat split; try assumption.
  rewrite Hc, Hw. intros (H & _). specialize (H Hp). lia.
Qed.

(** X1.  The verdict of a run is decided by two counts over the events
    delivered to the listeners: the critical signals (console errors and
    uncaught exceptions that are not noise and name an unhandled fault,
    5xx responses, 4xx responses on critical resources) and the warning
    signals (console warnings, 4xx responses on other resources).  The
    page passes exactly when each count is within its tolerance. *)
Theorem verdict_from_event_counts
    (toLowerCase : jsstring -> jsstring)
    (tolerance : ErrorDetector.ErrorTolerance)
    (metrics : Completion ErrorDetector.Metrics)
    (events : list ErrorDetector.Event) :
  Spec.criticalCount
    (Spec.finalized toLowerCase tolerance metrics
       (ErrorDetector.listen events ErrorDetector.initial))
  = Signals.countOf (Signals.criticalSignal toLowerCase) events
  /\ ErrorDetector.totalWarnings
       (Spec.finalized toLowerCase tolerance metrics
          (ErrorDetector.listen events ErrorDetector.initial))
     = Signals.countOf Signals.warningSignal events
  /\ (ErrorDetector.passed
        (Spec.finalized toLowerCase tolerance metrics
           (ErrorDetector.listen events ErrorDetector.initial)) = true
      <-> (Signals.countOf (Signals.criticalSignal toLowerCase) events
             <= ErrorDetector.tol_critical tolerance
           /\ Signals.countOf Signals.warningSignal events
             <= ErrorDetector.tol_warning tolerance)%Z).
Proof.
  assert (Hc : Spec.criticalCount
                 (Spec.finalized toLowerCase tolerance metrics
                    (ErrorDetector.listen events ErrorDetector.initial))
               = Signals.countOf (Signals.criticalSignal toLowerCase) events).
  { rewrite criticalCount_listen.
    unfold Spec.criticalCount at 1.
    destruct (finalized_fields toLowerCase tolerance metrics ErrorDetector.initial)
      as (-> & -> & -> & _).
    simpl. lia. }
  assert (Hw : ErrorDetector.totalWarnings
                 (Spec.finalized toLowerCase tolerance metrics
                    (ErrorDetector.listen events ErrorDetector.initial))
               = Signals.countOf Signals.warningSignal events).
  { rewrite totalWarnings_listen. simpl. lia. }
  split; [exact Hc|]. split; [exact Hw|].
  rewrite passed_finalized, Hc, Hw. reflexivity.
Qed.

(** X2.  A failed request never changes the verdict, whatever the
    reason of the failure.  It is filed under [corsErrors], and not
    under [networkFailures], when the reason mentions CORS, and under
    [networkFailures], and not under [corsErrors], when it does not; in
    both cases without a severity and counted in [totalErrors].  The
    critical count, the warning counter and [passed] are those of the
    run without it. *)
Theorem failed_request_never_changes_verdict
    (toLowerCase : jsstring -> jsstring)
    (tolerance : ErrorDetector.ErrorTolerance)
    (metrics : Completion ErrorDetector.Metrics)
    (collected : ErrorDetector.Results)
    (before after : list ErrorDetector.Event)
    (url method : jsstring) (errorText : option jsstring) :
  (forall r,
     ErrorDetector.f_severity (Signals.failedRequest url method errorText) = None
     /\ (Signals.mentionsCors errorText = true ->
         ErrorDetector.corsErrors
           (ErrorDetector.handle r (ErrorDetector.RequestFailed url method errorText))
         = ErrorDetector.corsErrors r ++ [Signals.failedRequest url method errorText]
         /\ ErrorDetector.networkFailures
              (ErrorDetector.handle r (ErrorDetector.RequestFailed url method errorText))
            = ErrorDetector.networkFailures r)
     /\ (Signals.mentionsCors errorText = false ->
         ErrorDetector.networkFailures
           (ErrorDetector.handle r (ErrorDetector.RequestFailed url method errorText))
         = ErrorDetector.networkFailures r ++ [Signals.failedRequest url method errorText]
         /\ ErrorDetector.corsErrors
              (ErrorDetector.handle r (ErrorDetector.RequestFailed url method errorText))
            = ErrorDetector.corsErrors r)
     /\ ErrorDetector.totalErrors
          (ErrorDetector.handle r (ErrorDetector.RequestFailed url method errorText))
        = (ErrorDetector.totalErrors r + 1)%Z)
  /\ Spec.criticalCount
       (Spec.finalized toLowerCase tolerance metrics
          (ErrorDetector.listen
             (before ++ ErrorDetector.RequestFailed url method errorText :: after)
             collected))
     = Spec.criticalCount
         (Spec.finalized toLowerCase tolerance metrics
            (ErrorDetector.listen (before ++ after) collected))
  /\ ErrorDetector.totalWarnings
       (Spec.finalized toLowerCase tolerance metrics
          (ErrorDetector.listen
             (before ++ ErrorDetector.RequestFailed url method errorText :: after)
             collected))
     = ErrorDetector.totalWarnings
         (Spec.finalized toLowerCase tolerance metrics
            (ErrorDetector.listen (before ++ after) collected))
  /\ ErrorDetector.passed
       (Spec.finalized toLowerCase tolerance metrics
          (ErrorDetector.listen
             (before ++ ErrorDetector.RequestFailed url method errorText :: after)
             collected))
     = ErrorDetector.passed
         (Spec.finalized toLowerCase tolerance metrics
            (ErrorDetector.listen (before ++ after) collected)).
Proof.
  split.
  { intros r. simpl. unfold ErrorDetector.onRequestFailed.
    fold (Signals.failedRequest url method errorText).
    fold (Signals.mentionsCors errorText).
    split; [reflexivity|].
    destruct (Signals.mentionsCors errorText).
    - split; [intros _; split; reflexivity|].
      split; [intros Hm; discriminate Hm|reflexivity].
    - split; [intros Hm; discriminate Hm|].
      split; [intros _; split; reflexivity|reflexivity]. }
  assert (Hc : Spec.criticalCount
       (Spec.finalized toLowerCase tolerance metrics
          (ErrorDetector.listen
             (before ++ ErrorDetector.RequestFailed url method errorText :: after)
             collected))
     = Spec.criticalCount
         (Spec.finalized toLowerCase tolerance metrics
            (ErrorDetector.listen (before ++ after) collected))).
  { rewrite !criticalCount_listen, !countOf_app.
    change (ErrorDetector.RequestFailed url method errorText :: after)
      with ([ErrorDetector.RequestFailed url method errorText] ++ after).
    rewrite countOf_app. unfold Signals.countOf at 2. simpl. lia. }
  assert (Hw : ErrorDetector.totalWarnings
       (Spec.finalized toLowerCase tolerance metrics
          (ErrorDetector.listen
             (before ++ ErrorDetector.RequestFailed url method errorText :: after)
             collected))
     = ErrorDetector.totalWarnings
         (Spec.finalized toLowerCase tolerance metrics
            (ErrorDetector.listen (before ++ after) collected))).
  { rewrite !totalWarnings_listen, !countOf_app.
    change (ErrorDetector.RequestFailed url method errorText :: after)
      with ([ErrorDetector.RequestFailed url method errorText] ++ after).
    rewrite countOf_app. unfold Signals.countOf at 2. simpl. lia. }
  split; [exact Hc|]. split; [exact Hw|].
  apply passed_by_counts; assumption.
Qed.

Section UncountedEvents.

Import ErrorDetector Spec Signals.

Variable toLowerCase : jsstring -> jsstring.

(** An event of neither kind leaves both counts, and so the verdict, as
    they are without it. *)
Lemma uncounted_event tolerance metrics collected before after ev :
  criticalSignal toLowerCase ev = false ->
  warningSignal ev = false ->
  criticalCount (finalized toLowerCase tolerance metrics
                   (listen (before ++ ev :: after) collected))
  = criticalCount (finalized toLowerCase tolerance metrics
                     (listen (before ++ after) collected))
  /\ totalWarnings (finalized toLowerCase tolerance metrics
                      (listen (before ++ ev :: after) collected))
     = totalWarnings (finalized toLowerCase tolerance metrics
                        (listen (before ++ after) collected))
  /\ passed (finalized toLowerCase tolerance metrics
               (listen (before ++ ev :: after) collected))
     = passed (finalized toLowerCase tolerance metrics
                 (listen (before ++ after) collected)).
Proof.
  intros Hc Hw.
  assert (H1 : criticalCount (finalized toLowerCase tolerance metrics
                   (listen (before ++ ev :: after) collected))
  = criticalCount (finalized toLowerCase tolerance metrics
                     (listen (before ++ after) collected))).
  { rewrite !criticalCount_listen, !countOf_app.
    change (ev :: after) with ([ev] ++ after).
    rewrite countOf_app. unfold countOf at 2. simpl. rewrite Hc. simpl. lia. }
  assert (H2 : totalWarnings (finalized toLowerCase tolerance metrics
                      (listen (before ++ ev :: after) collected))
     = totalWarnings (finalized toLowerCase tolerance metrics
                        (listen (before ++ after) collected))).
  { rewrite !totalWarnings_listen, !countOf_app.
    change (ev :: after) with ([ev] ++ after).
    rewrite countOf_app. unfold countOf at 2. simpl. rewrite Hw. simpl. lia. }
  split; [exact H1|]. split; [exact H2|].
  apply passed_by_counts; assumption.
Qed.

End UncountedEvents.

(** X3.  A console error whose lower-cased message contains none of
    [uncaught], [syntax error], [reference error] and [type error] is
    tagged [warning] and then counts toward neither tolerance: the tag
    is not what [totalWarnings] counts.  The critical count, the warning
    counter and [passed] are those of the run without the message,
    while the entry stays in the finalized [consoleErrors] unless it is
    noise. *)
Theorem plain_console_error_never_counted
    (toLowerCase : jsstring -> jsstring)
    (tolerance : ErrorDetector.ErrorTolerance)
    (metrics : Completion ErrorDetector.Metrics)
    (collected : ErrorDetector.Results)
    (before after : list ErrorDetector.Event) (text : jsstring) :
  Signals.faultMessage toLowerCase text = false ->
  Spec.criticalCount
    (Spec.finalized toLowerCase tolerance metrics
       (ErrorDetector.listen
          (before ++ ErrorDetector.ConsoleMessage (lit "error") text :: after)
          collected))
  = Spec.criticalCount
      (Spec.finalized toLowerCase tolerance metrics
         (ErrorDetector.listen (before ++ after) collected))
  /\ ErrorDetector.totalWarnings
       (Spec.finalized toLowerCase tolerance metrics
          (ErrorDetector.listen
             (before ++ ErrorDetector.ConsoleMessage (lit "error") text :: after)
             collected))
     = ErrorDetector.totalWarnings
         (Spec.finalized toLowerCase tolerance metrics
            (ErrorDetector.listen (before ++ after) collected))
  /\ ErrorDetector.passed
       (Spec.finalized toLowerCase tolerance metrics
          (ErrorDetector.listen
             (before ++ ErrorDetector.ConsoleMessage (lit "error") text :: after)
             collected))
     = ErrorDetector.passed
         (Spec.finalized toLowerCase tolerance metrics
            (ErrorDetector.listen (before ++ after) collected))
  /\ (Signals.noise toLowerCase text = false ->
      In (ErrorDetector.mkConsoleError (lit "console_error") text
            (Some ErrorDetector.warning))
         (ErrorDetector.consoleErrors
            (Spec.finalized toLowerCase tolerance metrics
               (ErrorDetector.listen
                  (before ++ ErrorDetector.ConsoleMessage (lit "error") text :: after)
                  collected)))).
Proof.
  intros Hf.
  destruct (uncounted_event toLowerCase tolerance metrics collected before after
              (ErrorDetector.ConsoleMessage (lit "error") text))
    as (H1 & H2 & H3).
  { simpl. rewrite Hf. apply andb_false_r. }
  { reflexivity. }
  repeat split; try assumption.
  intros Hn.
  destruct (finalized_fields toLowerCase tolerance metrics
              (ErrorDetector.listen
                 (before ++ ErrorDetector.ConsoleMessage (lit "error") text :: after)
                 collected)) as (-> & _).
  rewrite listen_consoleErrors, flat_map_app. simpl flat_map.
  apply List.in_map_iff.
  exists (ErrorDetector.mkConsoleError (lit "console_error") text None).
  split.
  - unfold ErrorDetector.categorize. simpl ErrorDetector.ce_message.
    unfold Signals.faultMessage in Hf. rewrite Hf. reflexivity.
  - apply List.filter_In. split.
    + apply in_or_app. right. apply in_or_app. right. left. reflexivity.
    + unfold ErrorDetector.notIgnorable. simpl ErrorDetector.ce_message.
      unfold Signals.noise in Hn. rewrite Hn. reflexivity.
Qed.

(** X4.  One critical signal among the events fails the page when no
    critical error is tolerated, whatever else was collected: a 5xx
    response, a 4xx response on a critical resource, or a console error
    or uncaught exception that is not noise and names an unhandled
    fault. *)
Theorem critical_signal_fails_page
    (toLowerCase : jsstring -> jsstring)
    (tolerance : ErrorDetector.ErrorTolerance)
    (metrics : Completion ErrorDetector.Metrics)
    (collected : ErrorDetector.Results)
    (events : list ErrorDetector.Event) (ev : ErrorDetector.Event) :
  In ev events ->
  Signals.criticalSignal toLowerCase ev = true ->
  (ErrorDetector.tol_critical tolerance <= 0)%Z ->
  ErrorDetector.passed
    (Spec.finalized toLowerCase tolerance metrics
       (ErrorDetector.listen events collected)) = false.
Proof.
  intros Hin Hc Htol.
  apply not_true_is_false. intros Hp.
  apply passed_finalized in Hp as (Hcrit & _).
  rewrite criticalCount_listen in Hcrit.
  pose proof (countOf_In _ _ _ Hin Hc).
  pose proof (criticalCount_nonneg
                (Spec.finalized toLowerCase tolerance metrics collected)).
  lia.
Qed.

(** X5.  Load timing is informational.  [detect] appends one slow-load
    finding exactly when the metrics can be read and report a load time
    above 5000 ms; a fault while reading them is swallowed; and the
    classified console errors, both counts and [passed] do not depend on
    the metrics at all. *)
Theorem performance_never_changes_verdict
    (toLowerCase : jsstring -> jsstring)
    (tolerance : ErrorDetector.ErrorTolerance)
    (metrics metrics' : Completion ErrorDetector.Metrics)
    (collected : ErrorDetector.Results) :
  ErrorDetector.performanceWarnings
    (Spec.finalized toLowerCase tolerance metrics collected)
  = ErrorDetector.performanceWarnings collected
    ++ match metrics with
       | Normal m =>
           if (5000 <? ErrorDetector.loadComplete m)%Z
           then [SignalsMore.slowLoad m] else []
       | Throw _ => []
       end
  /\ ErrorDetector.consoleErrors
       (Spec.finalized toLowerCase tolerance metrics collected)
     = ErrorDetector.consoleErrors
         (Spec.finalized toLowerCase tolerance metrics' collected)
  /\ Spec.criticalCount (Spec.finalized toLowerCase tolerance metrics collected)
     = Spec.criticalCount (Spec.finalized toLowerCase tolerance metrics' collected)
  /\ ErrorDetector.totalWarnings
       (Spec.finalized toLowerCase tolerance metrics collected)
     = ErrorDetector.totalWarnings
         (Spec.finalized toLowerCase tolerance metrics' collected)
  /\ ErrorDetector.passed (Spec.finalized toLowerCase tolerance metrics collected)
     = ErrorDetector.passed (Spec.finalized toLowerCase tolerance metrics' collected).
Proof.
  split.
  { rewrite finalized_eq. cbv zeta. simpl.
    unfold ErrorDetector.checkPerformanceMetrics, try_catch, bind, await, modify, ret.
    destruct metrics as [m|e]; simpl; [|now rewrite app_nil_r].
    destruct (5000 <? ErrorDetector.loadComplete m)%Z; simpl;
      [reflexivity|now rewrite app_nil_r]. }
  destruct (finalized_fields toLowerCase tolerance metrics collected)
    as (Hc & Hn & Hr & Hw).
  destruct (finalized_fields toLowerCase tolerance metrics' collected)
    as (Hc' & Hn' & Hr' & Hw').
  assert (H1 : Spec.criticalCount (Spec.finalized toLowerCase tolerance metrics collected)
     = Spec.criticalCount (Spec.finalized toLowerCase tolerance metrics' collected)).
  { unfold Spec.criticalCount. rewrite Hc, Hn, Hr, Hc', Hn', Hr'. reflexivity. }
  assert (H2 : ErrorDetector.totalWarnings
       (Spec.finalized toLowerCase tolerance metrics collected)
     = ErrorDetector.totalWarnings
         (Spec.finalized toLowerCase tolerance metrics' collected))
    by congruence.
  split; [congruence|]. split; [exact H1|]. split; [exact H2|].
  apply eq_true_iff_eq. rewrite !passed_finalized, H1, H2. reflexivity.
Qed.

Section SecurityFindings.

Import ErrorDetector Spec Signals SignalsMore.

Lemma cookie_findings pageUrl url cookies r :
  exists found,
    securityErrors
      (fold_left
         (fun acc cookie =>
            if negb (includes cookie (lit "Secure"))
               && startsWith pageUrl (lit "https://")
            then push_securityError
                   (mkFinding (lit "insecure_cookie") (Some url)
                      (lit "Cookie set without Secure flag on HTTPS page")) acc
            else acc)
         cookies r)
    = securityErrors r ++ found
    /\ List.length found
       = if startsWith pageUrl (lit "https://")
         then List.length (List.filter (fun cookie => negb (includes cookie (lit "Secure")))
                             cookies)
         else 0%nat.
Proof.
  revert r. induction cookies as [|c cs IH]; intros r; simpl.
  - exists []. rewrite app_nil_r. destruct (startsWith _ _); auto.
  - destruct (IH (if negb (includes c (lit "Secure"))
                     && startsWith pageUrl (lit "https://")
                  then push_securityError
                         (mkFinding (lit "insecure_cookie") (Some url)
                            (lit "Cookie set without Secure flag on HTTPS page")) r
                  else r)) as (found & -> & Hlen).
    destruct (startsWith pageUrl (lit "https://"));
      destruct (includes c (lit "Secure")); simpl.
    + exists found. auto.
    + eexists (_ :: found). rewrite <- app_assoc. simpl. split; [reflexivity|].
      simpl. rewrite Hlen. reflexivity.
    + exists found. auto.
    + exists found. auto.
Qed.

Lemma checkSecurityIssues_findings response r :
  exists found,
    securityErrors (checkSecurityIssues response r) = securityErrors r ++ found
    /\ List.length found = findingsOf response.
Proof.
  unfold checkSecurityIssues, findingsOf, cookiesOf.
  match goal with
  | |- context [fold_left ?f ?cs ?r1] =>
      destruct (cookie_findings (r_pageUrl response) (r_url response) cs r1)
        as (found & -> & Hlen)
  end.
  destruct (startsWith (r_pageUrl response) (lit "https://"));
    destruct (startsWith (r_url response) (lit "http://")); simpl.
  - eexists (_ :: found). rewrite <- app_assoc. simpl. split; [reflexivity|].
    simpl. rewrite Hlen. reflexivity.
  - exists found. auto.
  - exists found. auto.
  - exists found. auto.
Qed.

Lemma handle_findings r ev :
  exists found,
    securityErrors (handle r ev) = securityErrors r ++ found
    /\ List.length found
       = match ev with
         | ResponseReceived response => findingsOf response
         | _ => 0%nat
         end.
Proof.
  destruct ev as [type text|error|url method errorText|response]; simpl.
  - exists []. rewrite app_nil_r. unfold onConsole.
    destruct (streq type (lit "error")); [auto|].
    destruct (streq type (lit "warning")); auto.
  - exists []. rewrite app_nil_r. auto.
  - exists []. rewrite app_nil_r. unfold onRequestFailed.
    destruct (match errorText with Some t => _ | None => false end); auto.
  - unfold onResponse.
    match goal with
    | |- context [checkSecurityIssues response ?a] =>
        destruct (checkSecurityIssues_findings response a) as (found & -> & Hlen);
        assert (Ha : securityErrors a = securityErrors r)
    end.
    { repeat (destruct (_ <=? _)%Z; simpl; try reflexivity).
      destruct (isCriticalResource _); reflexivity. }
    rewrite Ha. exists found. auto.
Qed.

Lemma listen_findings events r :
  exists found,
    securityErrors (listen events r) = securityErrors r ++ found
    /\ List.length found = findingsIn events.
Proof.
  unfold listen, findingsIn. revert r.
  induction events as [|ev evs IH]; intros r; simpl.
  - exists []. rewrite app_nil_r. auto.
  - destruct (IH (handle r ev)) as (found & -> & Hlen).
    destruct (handle_findings r ev) as (found0 & -> & Hlen0).
    exists (found0 ++ found). rewrite app_assoc. split; [reflexivity|].
    rewrite length_app, Hlen, Hlen0. reflexivity.
Qed.

Lemma finalized_securityErrors toLowerCase tolerance metrics r :
  securityErrors (finalized toLowerCase tolerance metrics r) = securityErrors r.
Proof.
  rewrite finalized_eq. cbv zeta. simpl.
  unfold checkPerformanceMetrics, try_catch, bind, await, modify, ret.
  destruct metrics as [m|e]; simpl; [|reflexivity].
  destruct (5000 <? loadComplete m)%Z; reflexivity.
Qed.

Lemma findingsIn_http events :
  (forall r, In (ResponseReceived r) events ->
     startsWith (r_pageUrl r) (lit "https://") = false) ->
  findingsIn events = 0%nat.
Proof.
  unfold findingsIn. induction events as [|ev evs IH]; intros Hhttp;
    [reflexivity|]. simpl.
  rewrite IH; [|intros r Hr; apply Hhttp; right; exact Hr].
  destruct ev as [| | |r]; try reflexivity.
  unfold findingsOf. rewrite (Hhttp r); [reflexivity|left; reflexivity].
Qed.

End SecurityFindings.

(** X6.  Security findings are informational and are only made on
    HTTPS pages.  A run records one finding per HTTP resource loaded on
    an HTTPS page and one per cookie set without the text [Secure] on an
    HTTPS page, and nothing else; when no response arrives on an HTTPS
    page the findings stay as they were.  The verdict does not read the
    cookies or the page URL of a response. *)
Theorem security_findings_informational
    (toLowerCase : jsstring -> jsstring)
    (tolerance : ErrorDetector.ErrorTolerance)
    (metrics : Completion ErrorDetector.Metrics)
    (collected : ErrorDetector.Results)
    (events before after : list ErrorDetector.Event)
    (response response' : ErrorDetector.HttpResponse) :
  (exists found,
     ErrorDetector.securityErrors
       (Spec.finalized toLowerCase tolerance metrics
          (ErrorDetector.listen events collected))
     = ErrorDetector.securityErrors collected ++ found
     /\ List.length found = SignalsMore.findingsIn events)
  /\ ((forall r, In (ErrorDetector.ResponseReceived r) events ->
         startsWith (ErrorDetector.r_pageUrl r) (lit "https://") = false) ->
      ErrorDetector.securityErrors
        (Spec.finalized toLowerCase tolerance metrics
           (ErrorDetector.listen events collected))
      = ErrorDetector.securityErrors collected)
  /\ (ErrorDetector.r_status response = ErrorDetector.r_status response' ->
      ErrorDetector.r_url response = ErrorDetector.r_url response' ->
      ErrorDetector.passed
        (Spec.finalized toLowerCase tolerance metrics
           (ErrorDetector.listen
              (before ++ ErrorDetector.ResponseReceived response :: after) collected))
      = ErrorDetector.passed
          (Spec.finalized toLowerCase tolerance metrics
             (ErrorDetector.listen
                (before ++ ErrorDetector.ResponseReceived response' :: after)
                collected))).
Proof.
  split; [|split].
  - rewrite finalized_securityErrors. apply listen_findings.
  - intros Hhttp. rewrite finalized_securityErrors.
    destruct (listen_findings events collected) as (found & -> & Hlen).
    rewrite (findingsIn_http events Hhttp) in Hlen. destruct found; [apply app_nil_r|discriminate].
  - intros Hs Hu.
    apply passed_by_counts.
    + rewrite !criticalCount_listen, !countOf_app.
      change (ErrorDetector.ResponseReceived response :: after)
        with ([ErrorDetector.ResponseReceived response] ++ after).
      change (ErrorDetector.ResponseReceived response' :: after)
        with ([ErrorDetector.ResponseReceived response'] ++ after).
      rewrite !countOf_app. unfold Signals.countOf at 2 5. simpl.
      unfold Signals.criticalResponse. rewrite Hs, Hu.
      match goal with |- context [if ?c then _ else _] => destruct c end;
        reflexivity.
    + rewrite !totalWarnings_listen, !countOf_app.
      change (ErrorDetector.ResponseReceived response :: after)
        with ([ErrorDetector.ResponseReceived response] ++ after).
      change (ErrorDetector.ResponseReceived response' :: after)
        with ([ErrorDetector.ResponseReceived response'] ++ after).
      rewrite !countOf_app. unfold Signals.countOf at 2 5. simpl.
      unfold Signals.warningResponse. rewrite Hs, Hu.
      match goal with |- context [if ?c then _ else _] => destruct c end;
        reflexivity.
Qed.

Section Reclassification.

Import ErrorDetector Spec Signals SignalsMore.

Variable toLowerCase : jsstring -> jsstring.

Lemma notIgnorable_categorize e :
  notIgnorable toLowerCase (categorize toLowerCase e) = notIgnorable toLowerCase e.
Proof. reflexivity. Qed.

Lemma categorize_twice e :
  categorize toLowerCase (categorize toLowerCase e) = categorize toLowerCase e.
Proof. reflexivity. Qed.

Lemma classify_twice l :
  List.map (categorize toLowerCase)
    (List.filter (notIgnorable toLowerCase)
       (List.map (categorize toLowerCase)
          (List.filter (notIgnorable toLowerCase) l)))
  = List.map (categorize toLowerCase) (List.filter (notIgnorable toLowerCase) l).
Proof.
  induction l as [|e l IH]; [reflexivity|]. simpl.
  destruct (notIgnorable toLowerCase e) eqn:He; [|exact IH].
  simpl. rewrite notIgnorable_categorize, He. simpl.
  rewrite categorize_twice, IH. reflexivity.
Qed.

Lemma classified_severity l :
  Forall (fun e => ce_severity e = Some critical \/ ce_severity e = Some warning)
    (List.map (categorize toLowerCase) l).
Proof.
  induction l as [|e l IH]; simpl; constructor; [|exact IH].
  unfold categorize. simpl. destruct (_ || _); auto.
Qed.

End Reclassification.

(** X7.  Classification is idempotent.  Running [analyzeErrors] on
    console errors that are already classified changes nothing, every
    finalized console error carries a severity, and a second [detect] on
    the result of the first returns the same critical count, warning
    counter and verdict. *)
Theorem classification_idempotent
    (toLowerCase : jsstring -> jsstring)
    (tolerance : ErrorDetector.ErrorTolerance)
    (metrics metrics' : Completion ErrorDetector.Metrics)
    (collected : ErrorDetector.Results) :
  ErrorDetector.analyzeErrors toLowerCase
    (ErrorDetector.analyzeErrors toLowerCase collected)
  = ErrorDetector.analyzeErrors toLowerCase collected
  /\ Forall (fun e => ErrorDetector.ce_severity e = Some ErrorDetector.critical
                      \/ ErrorDetector.ce_severity e = Some ErrorDetector.warning)
       (ErrorDetector.consoleErrors
          (Spec.finalized toLowerCase tolerance metrics collected))
  /\ Spec.criticalCount
       (Spec.finalized toLowerCase tolerance metrics'
          (Spec.finalized toLowerCase tolerance metrics collected))
     = Spec.criticalCount (Spec.finalized toLowerCase tolerance metrics collected)
  /\ ErrorDetector.passed
       (Spec.finalized toLowerCase tolerance metrics'
          (Spec.finalized toLowerCase tolerance metrics collected))
     = ErrorDetector.passed (Spec.finalized toLowerCase tolerance metrics collected).
Proof.
  split.
  { unfold ErrorDetector.analyzeErrors. simpl.
    rewrite classify_twice. reflexivity. }
  destruct (finalized_fields toLowerCase tolerance metrics collected)
    as (Hc & Hn & Hr & Hw).
  split.
  { rewrite Hc. apply classified_severity. }
  destruct (finalized_fields toLowerCase tolerance metrics'
              (Spec.finalized toLowerCase tolerance metrics collected))
    as (Hc2 & Hn2 & Hr2 & Hw2).
  assert (H1 : Spec.criticalCount
       (Spec.finalized toLowerCase tolerance metrics'
          (Spec.finalized toLowerCase tolerance metrics collected))
     = Spec.criticalCount (Spec.finalized toLowerCase tolerance metrics collected)).
  { unfold Spec.criticalCount. rewrite Hc2, Hn2, Hr2, Hc, classify_twice.
    reflexivity. }
  split; [exact H1|].
  apply eq_true_iff_eq. rewrite !passed_finalized, H1, Hw2. reflexivity.
Qed.

Section ErrorBookkeeping.

Import ErrorDetector Spec Signals SignalsMore.

Lemma checkSecurityIssues_totals response r :
  corsErrors (checkSecurityIssues response r) = corsErrors r
  /\ totalErrors (checkSecurityIssues response r) = totalErrors r.
Proof.
  unfold checkSecurityIssues.
  match goal with
  | |- context [fold_left ?f ?cs ?r1] =>
      assert (Hf : forall l x, corsErrors (fold_left f l x) = corsErrors x
                               /\ totalErrors (fold_left f l x) = totalErrors x);
      [|destruct (Hf cs r1) as (-> & ->)]
  end.
  - induction l as [|c l IH]; intros x; simpl; [tauto|].
    destruct (IH (if negb (includes c (lit "Secure"))
                     && startsWith (r_pageUrl response) (lit "https://")
                  then push_securityError
                         (mkFinding (lit "insecure_cookie") (Some (r_url response))
                            (lit "Cookie set without Secure flag on HTTPS page")) x
                  else x)) as (-> & ->).
    destruct (_ && _); simpl; tauto.
  - destruct (_ && _); simpl; tauto.
Qed.

(** Every listener adds to [totalErrors] what it adds to the entries
    counted as errors. *)
Lemma handle_totalErrors r ev :
  (totalErrors (handle r ev) - errorEntries (handle r ev)
   = totalErrors r - errorEntries r)%Z.
Proof.
  unfold errorEntries.
  destruct ev as [type text|error|url method errorText|response]; simpl.
  - unfold onConsole. destruct (streq type (lit "error")); simpl.
    + rewrite length_app. simpl. lia.
    + destruct (streq type (lit "warning")); simpl; lia.
  - rewrite length_app. simpl. lia.
  - unfold onRequestFailed.
    destruct (match errorText with Some t => _ | None => false end); simpl;
      rewrite ?List.filter_app, ?length_app; simpl; lia.
  - unfold onResponse.
    match goal with
    | |- context [checkSecurityIssues response ?a] =>
        destruct (checkSecurityIssues_frame response a) as (-> & -> & -> & _);
        destruct (checkSecurityIssues_totals response a) as (-> & ->)
    end.
    destruct (400 <=? r_status response)%Z;
      destruct (500 <=? r_status response)%Z; simpl;
      try destruct (isCriticalResource (r_url response)); simpl;
      rewrite ?List.filter_app, ?length_app; simpl; lia.
Qed.

Lemma listen_totalErrors events r :
  (totalErrors (listen events r) - errorEntries (listen events r)
   = totalErrors r - errorEntries r)%Z.
Proof.
  unfold listen. revert r. induction events as [|ev evs IH]; intros r; simpl.
  - reflexivity.
  - rewrite IH. apply handle_totalErrors.
Qed.

Variable toLowerCase : jsstring -> jsstring.

(** The console entries of the events that classification keeps. *)
Lemma kept_console_entries events :
  (Z.of_nat (List.length (List.filter (notIgnorable toLowerCase)
                            (flat_map newConsoleEntries events)))
   = Z.of_nat (List.length (flat_map newConsoleEntries events))
     - countOf (noiseSignal toLowerCase) events)%Z.
Proof.
  unfold countOf. induction events as [|ev evs IH]; [reflexivity|].
  cbn [flat_map List.filter]. rewrite List.filter_app, !length_app.
  destruct ev as [type text|error|url method errorText|response];
    cbn [newConsoleEntries noiseSignal].
  - destruct (streq type (lit "error")); cbn [andb List.filter List.length];
      [|lia].
    unfold notIgnorable at 1, noise. cbn [ce_message].
    destruct (existsb _ ignorablePatterns); cbn [negb List.filter List.length]; lia.
  - unfold notIgnorable at 1, noise. cbn [ce_message List.filter].
    destruct (existsb _ ignorablePatterns); cbn [negb List.filter List.length]; lia.
  - cbn [List.filter List.length]. lia.
  - cbn [List.filter List.length]. lia.
Qed.

Lemma finalized_other_fields tolerance metrics r :
  corsErrors (finalized toLowerCase tolerance metrics r) = corsErrors r
  /\ totalErrors (finalized toLowerCase tolerance metrics r) = totalErrors r.
Proof.
  rewrite finalized_eq. cbv zeta. simpl.
  unfold checkPerformanceMetrics, try_catch, bind, await, modify, ret.
  destruct metrics as [m|e]; simpl; [|tauto].
  destruct (5000 <? loadComplete m)%Z; simpl; tauto.
Qed.

End ErrorBookkeeping.

(** X8.  [totalErrors] is a running count that classification does not
    correct.  After a run it equals the number of entries still held in
    [consoleErrors], [corsErrors], [resourceFailures] and the
    [networkFailures] that are not 4xx warnings, plus the number of
    console errors and uncaught exceptions removed as noise. *)
Theorem totalErrors_counts_removed_noise
    (toLowerCase : jsstring -> jsstring)
    (tolerance : ErrorDetector.ErrorTolerance)
    (metrics : Completion ErrorDetector.Metrics)
    (events : list ErrorDetector.Event) :
  ErrorDetector.totalErrors
    (Spec.finalized toLowerCase tolerance metrics
       (ErrorDetector.listen events ErrorDetector.initial))
  = (SignalsMore.errorEntries
       (Spec.finalized toLowerCase tolerance metrics
          (ErrorDetector.listen events ErrorDetector.initial))
     + Signals.countOf (SignalsMore.noiseSignal toLowerCase) events)%Z.
Proof.
  pose proof (listen_totalErrors events ErrorDetector.initial) as H.
  destruct (finalized_other_fields toLowerCase tolerance metrics
              (ErrorDetector.listen events ErrorDetector.initial)) as (Hco & ->).
  destruct (finalized_fields toLowerCase tolerance metrics
              (ErrorDetector.listen events ErrorDetector.initial))
    as (Hc & Hn & Hr & _).
  unfold SignalsMore.errorEntries in *.
  rewrite Hc, Hn, Hr, Hco, length_map.
  rewrite listen_consoleErrors in *. simpl in *.
  pose proof (kept_console_entries toLowerCase events). lia.
Qed.

(** X3 on a console error about a missing favicon. *)
Lemma plain_console_error_never_counted_witness :
  Signals.faultMessage Spec.asciiToLowerCase
    (lit "Failed to load resource: favicon.ico") = false
  /\ ErrorDetector.passed
       (Spec.finalized Spec.asciiToLowerCase ErrorDetector.defaultTolerance
          Examples.noMetrics
          (ErrorDetector.listen
             ([] ++ ErrorDetector.ConsoleMessage (lit "error")
                      (lit "Failed to load resource: favicon.ico") :: [])
             ErrorDetector.initial))
     = ErrorDetector.passed
         (Spec.finalized Spec.asciiToLowerCase ErrorDetector.defaultTolerance
            Examples.noMetrics
            (ErrorDetector.listen ([] ++ []) ErrorDetector.initial)).
Proof.
  split; [vm_compute; reflexivity|].
  apply (plain_console_error_never_counted Spec.asciiToLowerCase
           ErrorDetector.defaultTolerance Examples.noMetrics ErrorDetector.initial
           [] [] (lit "Failed to load resource: favicon.ico")).
  vm_compute; reflexivity.
Defined.

(** X4 on a run whose only critical signal is a 503 response among
    two console warnings. *)
Lemma critical_signal_fails_page_witness :
  ErrorDetector.passed
    (Spec.finalized Spec.asciiToLowerCase ErrorDetector.defaultTolerance
       Examples.noMetrics
       (ErrorDetector.listen
          (Examples.consoleWarnings 2
           ++ [ErrorDetector.ResponseReceived Runs.serverError])
          ErrorDetector.initial)) = false.
Proof.
  apply (critical_signal_fails_page Spec.asciiToLowerCase
           ErrorDetector.defaultTolerance Examples.noMetrics ErrorDetector.initial
           (Examples.consoleWarnings 2
            ++ [ErrorDetector.ResponseReceived Runs.serverError])
           (ErrorDetector.ResponseReceived Runs.serverError)).
  - apply in_or_app. right. left. reflexivity.
  - vm_compute; reflexivity.
  - vm_compute. discriminate.
Defined.

(** X6 on a 503 response seen with and without a cookie on an HTTP and
    an HTTPS page. *)
Lemma security_findings_informational_witness :
  ErrorDetector.passed
    (Spec.finalized Spec.asciiToLowerCase ErrorDetector.defaultTolerance
       Examples.noMetrics
       (ErrorDetector.listen
          ([] ++ ErrorDetector.ResponseReceived Runs.serverError :: [])
          ErrorDetector.initial))
  = ErrorDetector.passed
      (Spec.finalized Spec.asciiToLowerCase ErrorDetector.defaultTolerance
         Examples.noMetrics
         (ErrorDetector.listen
            ([] ++ ErrorDetector.ResponseReceived Runs.serverErrorHttp :: [])
            ErrorDetector.initial)).
Proof.
  apply (proj2 (proj2 (security_findings_informational Spec.asciiToLowerCase
                  ErrorDetector.defaultTolerance Examples.noMetrics
                  ErrorDetector.initial [] [] []
                  Runs.serverError Runs.serverErrorHttp)));
    reflexivity.
Defined.

Section Substrings.

Lemma startsWith_app p b : startsWith (p ++ b) p = true.
Proof.
  induction p as [|c p IH]; simpl; [destruct b; reflexivity|].
  rewrite N.eqb_refl. exact IH.
Qed.

Lemma startsWith_prefix s p :
  startsWith s p = true -> exists b, s = p ++ b.
Proof.
  revert s. induction p as [|c p IH]; intros s H.
  - exists s. reflexivity.
  - destruct s as [|d s]; [discriminate|]. simpl in H.
    apply andb_true_iff in H as (Hc & Hp). apply N.eqb_eq in Hc. subst d.
    destruct (IH s Hp) as (b & ->). exists b. reflexivity.
Qed.

(** [s.includes(p)] holds exactly when [p] occurs in [s]. *)
Lemma includes_occurs s p :
  includes s p = true <-> exists a b, s = a ++ p ++ b.
Proof.
  split.
  - induction s as [|d s IH]; cbn [includes]; intros H.
    + rewrite orb_false_r in H. apply startsWith_prefix in H as (b & Hb).
      exists [], b. exact Hb.
    + apply orb_true_iff in H as [H|H].
      * apply startsWith_prefix in H as (b & Hb). exists [], b. exact Hb.
      * destruct (IH H) as (a & b & ->). exists (d :: a), b. reflexivity.
  - intros (a & b & ->). induction a as [|d a IH].
    + cbn [app]. destruct (p ++ b) eqn:E; cbn [includes].
      * rewrite orb_false_r. rewrite <- E. apply startsWith_app.
      * rewrite <- E, startsWith_app. reflexivity.
    + cbn [app includes]. rewrite IH. apply orb_true_r.
Qed.

Lemma includes_embedded a s b p :
  includes s p = true -> includes (a ++ s ++ b) p = true.
Proof.
  rewrite !includes_occurs. intros (a' & b' & ->).
  exists (a ++ a'), (b' ++ b). rewrite <- !app_assoc. reflexivity.
Qed.

End Substrings.

(** X9.  Critical resources are recognised by substring, wherever the
    pattern occurs.  A URL that contains a critical URL is critical, so
    an origin in front or a query string behind never hides one; and a
    4xx response on any URL that contains [.css] is filed as a critical
    resource failure of type stylesheet and counted as an error. *)
Theorem critical_resource_by_substring
    (before url after : jsstring) (response : ErrorDetector.HttpResponse)
    (r : ErrorDetector.Results) :
  (ErrorDetector.isCriticalResource url = true ->
   ErrorDetector.isCriticalResource (before ++ url ++ after) = true)
  /\ ((400 <= ErrorDetector.r_status response < 500)%Z ->
      includes (ErrorDetector.r_url response) (lit ".css") = true ->
      ErrorDetector.resourceFailures
        (ErrorDetector.handle r (ErrorDetector.ResponseReceived response))
      = ErrorDetector.resourceFailures r
        ++ [ErrorDetector.mkFailure (ErrorDetector.r_url response)
              (match ErrorDetector.r_method response with
               | Some m => m
               | None => lit "GET"
               end)
              None (Some (ErrorDetector.r_status response))
              (Some (ErrorDetector.r_statusText response))
              (Some ErrorDetector.critical) (Some (lit "stylesheet"))]
      /\ ErrorDetector.totalErrors
           (ErrorDetector.handle r (ErrorDetector.ResponseReceived response))
         = (ErrorDetector.totalErrors r + 1)%Z
      /\ ErrorDetector.totalWarnings
           (ErrorDetector.handle r (ErrorDetector.ResponseReceived response))
         = ErrorDetector.totalWarnings r).
Proof.
  split.
  - unfold ErrorDetector.isCriticalResource. rewrite !existsb_exists.
    intros (p & Hp & Hi). exists p. split; [exact Hp|].
    apply includes_embedded, Hi.
  - intros (H4 & H5) Hcss. simpl. unfold ErrorDetector.onResponse.
    assert (Hcrit : ErrorDetector.isCriticalResource
                      (ErrorDetector.r_url response) = true).
    { unfold ErrorDetector.isCriticalResource. apply existsb_exists.
      exists (lit ".css"). split; [simpl; tauto|exact Hcss]. }
    assert (Hty : ErrorDetector.getResourceType (ErrorDetector.r_url response)
                  = lit "stylesheet").
    { unfold ErrorDetector.getResourceType. rewrite Hcss. reflexivity. }
    destruct (Z.leb_spec 400 (ErrorDetector.r_status response)); [|lia].
    destruct (Z.leb_spec 500 (ErrorDetector.r_status response)); [lia|].
    rewrite Hcrit, Hty.
    match goal with
    | |- context [ErrorDetector.checkSecurityIssues response ?a] =>
        destruct (checkSecurityIssues_frame response a) as (_ & _ & -> & ->);
        destruct (checkSecurityIssues_totals response a) as (_ & ->)
    end.
    simpl. repeat split; reflexivity.
Qed.

(** X9 on a 404 for a stylesheet served from a CDN with a version query. *)
Lemma critical_resource_by_substring_witness :
  ErrorDetector.isCriticalResource
    (lit "https://cdn.example/" ++ lit "theme.css" ++ lit "?v=3") = true
  /\ ErrorDetector.totalErrors
       (ErrorDetector.handle ErrorDetector.initial
          (ErrorDetector.ResponseReceived Runs.missingStylesheet))
     = (ErrorDetector.totalErrors ErrorDetector.initial + 1)%Z.
Proof.
  destruct (critical_resource_by_substring (lit "https://cdn.example/")
              (lit "theme.css") (lit "?v=3") Runs.missingStylesheet
              ErrorDetector.initial) as (H1 & H2).
  split.
  - apply H1. reflexivity.
  - apply H2; [simpl; lia|reflexivity].
Defined.

(* ===================================================================== *)
(** * Further properties of the image checks *)
(* ===================================================================== *)

Section ImageDecision.

Import ImageValidator Spec Pictures ProgramLogic.

Ltac crunch Hwf :=
  repeat (cbn -[lookup insert lit strlen trim startsWith httpError Z.ltb Z.eqb
                omap existsb numOr];
          rewrite ?lookup_fresh, ?insert_fresh, ?omap_app,
                  ?(omap_lookup_extend _ _ _ Hwf)).

(** [validateImage] as a function of the image and the state it starts in. *)
Lemma validateImage_exact page img m r :
  wellFormed r ->
  exists info,
    validateImage page img m r
    = (Normal tt,
       mkResults (passed r) (totalImages r)
         (loadedImages r + if countsAsLoaded page m img then 1 else 0)
         (failedImages r ++ failedRef page m img r)
         (missingAltText r
          ++ if needsAlt img
             then [mkAltEntry (strOr (src img) (currentSrc img))
                     (width img) (height img)]
             else [])
         (images r ++ [List.length (heap r)]) (warnings r)
         (heap r ++ [info]))
    /\ info_src info = strOr (src img) (currentSrc img)
    /\ info_width info = width img
    /\ info_height info = height img
    /\ loaded info = countsAsLoaded page m img.
Proof.
  intros (Hwf & _).
  destruct r as [p t l f ma im w h]. cbn [heap failedImages] in Hwf.
  unfold failedRef, countsAsLoaded, needsAlt, zeroSizedb, probeSucceeds,
    failedHasSrc, deref.
  unfold validateImage, bind, alloc, update, modify, try_catch, await, get, ret,
    incr_loaded, failedHasSrc, deref.
  cbn [heap failedImages passed totalImages loadedImages missingAltText images
       warnings].
  destruct (complete img && (0 <? width img)%Z && (0 <? height img)%Z) eqn:Hc;
  [| destruct (lookupResponse m img) as [resp|];
     [ destruct (resp_status resp =? 200)%Z
     | destruct (fetchHead page (strOr (src img) (currentSrc img))) as [o|e];
       [ destruct (probe_ok (probeResult o)
                   && (probe_status (probeResult o) =? 200)%Z) |] ] ];
  destruct (bool_decide (alt img = []) || (strlen (trim (alt img)) =? 0)%Z);
  destruct ((50 <? width img)%Z && (50 <? height img)%Z
            && negb (startsWith (src img) (lit "data:")));
  destruct ((width img =? 0)%Z || (height img =? 0)%Z);
  crunch Hwf;
  try (destruct (existsb _ (omap _ f)); crunch Hwf).
  all: try (rewrite ?app_nil_r, ?Z.add_0_r; eexists; split; [reflexivity|];
            repeat split; reflexivity).
  all: rewrite existsb_app; cbn [omap list_omap]; rewrite lookup_fresh;
    cbn [existsb mbind option_bind set_error set_loaded set_status info_src];
    unfold streq;
    rewrite bool_decide_eq_true_2 by reflexivity; rewrite orb_true_l, orb_true_r;
    crunch Hwf; rewrite ?app_nil_r, ?Z.add_0_r; eexists;
    (split; [reflexivity|]); repeat split; reflexivity.
Qed.

End ImageDecision.

Section ImageBookkeeping.

Import ImageValidator Spec Pictures ProgramLogic.

Lemma tidy_stable : stable tidy.
Proof.
  split.
  - intros r img s (Hi & Hf)
      (info & pushed & _ & _ & Hfl & Him & _ & Hh & _).
    unfold tidy. rewrite Him, Hfl, Hh, Hi, length_app. simpl.
    rewrite seq_app. simpl. split; [reflexivity|].
    rewrite <- Hi. apply sublist_app; [exact Hf|].
    destruct pushed; [reflexivity|apply sublist_nil_l].
  - intros r w H. exact H.
Qed.

Lemma tidy_concluded r5 : tidy r5 -> tidy (concluded r5).
Proof. intros H. exact H. Qed.

Lemma deref_all {A} (h0 h : list A) :
  omap (fun i => (h0 ++ h) !! i) (seq (List.length h0) (List.length h)) = h.
Proof.
  revert h0. induction h as [|x h IH]; intros h0; [reflexivity|].
  cbn [List.length seq omap list_omap].
  rewrite lookup_app_r, Nat.sub_diag by lia. simpl. f_equal.
  specialize (IH (h0 ++ [x])). rewrite <- app_assoc, length_app in IH.
  simpl in IH. rewrite Nat.add_1_r in IH. exact IH.
Qed.

End ImageBookkeeping.

Section ImageRuns.

Import ImageValidator Spec Pictures ProgramLogic.

Lemma validateEach_grows page m imgs :
  forall r, exists s,
    validateEach page imgs m r = (Normal tt, s) /\ grownBy (List.length imgs) r s.
Proof.
  unfold validateEach.
  induction imgs as [|img imgs IH]; intros r; cbn [for_of].
  - exists r. split; [reflexivity|]. unfold grownBy.
    rewrite Nat.add_0_r. auto.
  - destruct (validateImage_validated page img m r r eq_refl)
      as ([] & s1 & E & info & pushed & Hp & Ht & _ & Hi & Hw & _).
    destruct (IH s1) as (s & Es & Hp' & Ht' & Hw' & Hi').
    exists s. split.
    + unfold bind at 1. unfold bind at 1. rewrite E. exact Es.
    + unfold grownBy. rewrite Hp', Ht', Hw', Hi', Hp, Ht, Hw, Hi, length_app.
      simpl. repeat split; lia.
Qed.

Lemma scrollLoop_never_ends page sh :
  (viewportHeight page <= 0)%Z ->
  (forall y, scrollTo page y = None) ->
  (forall y, exists nodes, imagesAt page y = Normal nodes) ->
  forall fuel scroll r,
    (scroll < sh)%Z ->
    exists s, scrollLoop fuel page scroll sh r = (Normal None, s).
Proof.
  intros Hvh Hto Hat. induction fuel as [|fuel IH]; intros scroll r Hlt;
    cbn [scrollLoop]; rewrite (proj2 (Z.ltb_lt _ _) Hlt).
  - exists r. reflexivity.
  - destruct (Hat scroll) as (nodes & Hn).
    unfold bind at 1. rewrite Hto. unfold await at 1.
    unfold bind at 1. unfold getAllImages, bind at 1, await at 1. rewrite Hn.
    unfold ret at 1. unfold bind at 1, get at 1. unfold bind at 1.
    destruct (totalImages r <? Z.of_nat (List.length (List.map describe nodes)))%Z.
    + destruct (validateEach_grows page ∅
                  (slice (totalImages r) (List.map describe nodes)) r)
        as (s & -> & _).
      apply IH. lia.
    + unfold ret at 1. apply IH. lia.
Qed.

End ImageRuns.

(** X10.  What one call of [validateImage] does, on a state whose
    references point into the heap: it never throws; the image counts
    as loaded by the DOM signal, else by the intercepted response, else
    by the probe, and the new object is flagged accordingly; the object
    enters [failedImages] when the image does not count as loaded, or
    when it does, has a zero dimension and no earlier failed entry has
    its source; it is reported for missing alt text exactly when the alt
    text is blank, both dimensions exceed 50 and [src] is no data URI;
    and it always enters [images]. *)
Theorem validateImage_decision
    (page : ImageValidator.Page) (img : ImageValidator.Img)
    (m : gmap jsstring ImageValidator.Response) (r : ImageValidator.Results) :
  Spec.wellFormed r ->
  exists s info,
    ImageValidator.validateImage page img m r = (Normal tt, s)
    /\ ImageValidator.heap s = ImageValidator.heap r ++ [info]
    /\ ImageValidator.loaded info = Pictures.countsAsLoaded page m img
    /\ ImageValidator.loadedImages s
       = (ImageValidator.loadedImages r
          + if Pictures.countsAsLoaded page m img then 1 else 0)%Z
    /\ ImageValidator.failedImages s
       = ImageValidator.failedImages r ++ Pictures.failedRef page m img r
    /\ ImageValidator.missingAltText s
       = ImageValidator.missingAltText r
         ++ (if Pictures.needsAlt img
             then [ImageValidator.mkAltEntry
                     (ImageValidator.strOr (ImageValidator.src img)
                        (ImageValidator.currentSrc img))
                     (ImageValidator.width img) (ImageValidator.height img)]
             else [])
    /\ ImageValidator.images s
       = ImageValidator.images r ++ [List.length (ImageValidator.heap r)]
    /\ ImageValidator.passed s = ImageValidator.passed r
    /\ ImageValidator.totalImages s = ImageValidator.totalImages r
    /\ ImageValidator.warnings s = ImageValidator.warnings r.
Proof.
  intros Hwf.
  destruct (validateImage_exact page img m r Hwf) as (info & E & _ & _ & _ & Hl).
  eexists _, info. split; [exact E|]. simpl. repeat split; auto.
Qed.

(** X10 on the flat image: complete, answered with 200, of width 0. *)
Lemma validateImage_decision_witness :
  exists s info,
    ImageValidator.validateImage Examples.lazyPage Examples.flatImage
      Examples.flatResponses ImageValidator.initial = (Normal tt, s)
    /\ ImageValidator.heap s = [info]
    /\ ImageValidator.loaded info = true
    /\ ImageValidator.failedImages s = [0%nat].
Proof.
  destruct (validateImage_decision Examples.lazyPage Examples.flatImage
              Examples.flatResponses ImageValidator.initial)
    as (s & info & E & Hh & Hl & _ & Hf & _).
  - split; constructor.
  - exists s, info. repeat split; assumption.
Defined.

(** X11.  In every result of [validate], [images] holds every
    [imageInfo] object that was made, once and in order, [failedImages]
    holds a selection of the same objects without repetition, and
    [loadedImages] lies between [totalImages - images.length] and
    [totalImages]. *)
Theorem failed_images_among_processed
    (fuel : nat) (page : ImageValidator.Page) (r : ImageValidator.Results) :
  Spec.audit fuel page = Normal (Some r) ->
  ImageValidator.deref r (ImageValidator.images r) = ImageValidator.heap r
  /\ sublist (ImageValidator.failedImages r) (ImageValidator.images r)
  /\ NoDup (ImageValidator.failedImages r)
  /\ (List.length (ImageValidator.failedImages r)
      <= List.length (ImageValidator.images r))%nat
  /\ (ImageValidator.totalImages r
      - Z.of_nat (List.length (ImageValidator.images r))
      <= ImageValidator.loadedImages r <= ImageValidator.totalImages r)%Z.
Proof.
  intros Hr.
  destruct (audit_concluded Pictures.tidy fuel page r tidy_stable) as (r5 & (Hi & Hf) & ->);
    [intros imgs _; split; [reflexivity|apply sublist_nil_l]|exact Hr|].
  assert (Hlen := sublist_length _ _ Hf).
  unfold Spec.concluded, ImageValidator.deref. simpl.
  repeat split.
  - rewrite Hi. apply (deref_all [] (ImageValidator.heap r5)).
  - exact Hf.
  - eapply sublist_NoDup; [|exact Hf]. rewrite Hi. apply NoDup_ListNoDup, seq_NoDup.
  - exact Hlen.
  - lia.
  - lia.
Qed.

(** X11 on the page whose second picture appears on scrolling. *)
Lemma failed_images_among_processed_witness :
  exists r,
    Spec.audit 3 Examples.lazyPage = Normal (Some r)
    /\ ImageValidator.deref r (ImageValidator.images r) = ImageValidator.heap r
    /\ NoDup (ImageValidator.failedImages r).
Proof.
  eexists. split; [vm_compute; reflexivity|].
  match goal with
  | |- ImageValidator.deref ?r _ = _ /\ _ =>
      destruct (failed_images_among_processed 3 Examples.lazyPage r)
        as (H1 & _ & H3 & _)
  end.
  - vm_compute; reflexivity.
  - split; assumption.
Defined.

(** X12.  [validate] rejects exactly when the first listing of the
    images rejects, and then with that error: no fault of a probe or of
    the scroll sweep escapes it. *)
Theorem validate_rejects_with_first_listing
    (fuel : nat) (page : ImageValidator.Page) (e : Exn) :
  Spec.audit fuel page = Throw e <-> ImageValidator.initialImages page = Throw e.
Proof.
  split.
  - intros Hr. unfold Spec.audit in Hr.
    assert (Hst : Spec.stable (fun _ : ImageValidator.Results => True))
      by (split; auto).
    pose proof (validate_keeps (fun _ => True) fuel page Hst (fun _ _ => I)
                  ImageValidator.initial eq_refl) as H.
    destruct (ImageValidator.validate fuel page ImageValidator.initial)
      as [[o|e'] s]; simpl in Hr; [discriminate|].
    injection Hr as ->. exact H.
  - intros H. unfold Spec.audit, ImageValidator.validate,
      ImageValidator.getAllImages, bind, await.
    rewrite H. reflexivity.
Qed.

(** X13.  A fault while reading the document height ends the scroll
    sweep at once and is reported as one warning: whatever the fuel,
    [validate] returns, the result covers the images of the first
    listing only, and the verdict is taken from them. *)
Theorem sweep_fault_becomes_warning
    (fuel : nat) (page : ImageValidator.Page)
    (nodes : list ImageValidator.DomImg) (e : Exn) :
  ImageValidator.initialImages page = Normal nodes ->
  ImageValidator.scrollHeight page = Throw e ->
  exists r,
    Spec.audit fuel page = Normal (Some r)
    /\ ImageValidator.warnings r = Some [Pictures.sweepWarning e]
    /\ ImageValidator.totalImages r = Z.of_nat (List.length nodes)
    /\ List.length (ImageValidator.images r) = List.length nodes
    /\ ImageValidator.passed r
       = bool_decide (List.length (ImageValidator.failedImages r) = 0%nat)
    /\ ImageValidator.loadedImages r
       = (ImageValidator.totalImages r
          - Z.of_nat (List.length (ImageValidator.failedImages r)))%Z.
Proof.
  intros Hn Hs.
  unfold Spec.audit, ImageValidator.validate, ImageValidator.getAllImages.
  unfold bind at 1. unfold bind at 1. unfold await at 1. rewrite Hn.
  unfold ret at 1. unfold bind at 1, modify at 1. unfold bind at 1.
  destruct (validateEach_grows page (ImageValidator.imageResponses page)
              (List.map ImageValidator.describe nodes)
              (ImageValidator.set_totalImages
                 (Z.of_nat (List.length (List.map ImageValidator.describe nodes)))
                 ImageValidator.initial))
    as (s & -> & Hp & Ht & Hw & Hi).
  unfold bind at 1. unfold ImageValidator.checkLazyLoadedImages.
  unfold try_catch at 1. unfold bind at 1, await at 1. rewrite Hs.
  unfold bind at 1, modify at 1, ret at 1.
  unfold bind, modify, get, ret. eexists. split; [reflexivity|].
  rewrite length_map in *. simpl in *.
  rewrite Hw, Ht, Hi. unfold Pictures.sweepWarning. repeat split.
Qed.

(** X13 on a page whose document height cannot be read. *)
Lemma sweep_fault_becomes_warning_witness :
  exists r,
    Spec.audit 0 Pages.noHeightPage = Normal (Some r)
    /\ ImageValidator.warnings r = Some [Pictures.sweepWarning Pages.detached].
Proof.
  destruct (sweep_fault_becomes_warning 0 Pages.noHeightPage
              [Examples.heroNode] Pages.detached)
    as (r & E & Hw & _); [reflexivity|reflexivity|].
  exists r. split; assumption.
Defined.

(** X14.  The scroll sweep ends only when the scroll position reaches
    the document height.  With a viewport height of 0 or less, a
    document of positive height and a page that answers every call,
    [validate] never returns: no amount of fuel gives a result. *)
Theorem sweep_never_ends_without_viewport
    (page : ImageValidator.Page) (nodes : list ImageValidator.DomImg) (sh : Z) :
  ImageValidator.initialImages page = Normal nodes ->
  ImageValidator.scrollHeight page = Normal sh ->
  (0 < sh)%Z ->
  (ImageValidator.viewportHeight page <= 0)%Z ->
  (forall y, ImageValidator.scrollTo page y = None) ->
  (forall y, exists found, ImageValidator.imagesAt page y = Normal found) ->
  forall fuel, Spec.audit fuel page = Normal None.
Proof.
  intros Hn Hs Hpos Hvh Hto Hat fuel.
  unfold Spec.audit, ImageValidator.validate, ImageValidator.getAllImages.
  unfold bind at 1. unfold bind at 1. unfold await at 1. rewrite Hn.
  unfold ret at 1. unfold bind at 1, modify at 1. unfold bind at 1.
  destruct (validateEach_grows page (ImageValidator.imageResponses page)
              (List.map ImageValidator.describe nodes)
              (ImageValidator.set_totalImages
                 (Z.of_nat (List.length (List.map ImageValidator.describe nodes)))
                 ImageValidator.initial))
    as (s & -> & _).
  unfold bind at 1. unfold ImageValidator.checkLazyLoadedImages.
  unfold try_catch at 1. unfold bind at 1, await at 1. rewrite Hs.
  unfold bind at 1.
  destruct (scrollLoop_never_ends page sh Hvh Hto Hat fuel 0%Z s Hpos)
    as (s' & ->).
  reflexivity.
Qed.

(** X14 on a page shown in a viewport of height 0. *)
Lemma sweep_never_ends_without_viewport_witness :
  Spec.audit 1000 Pages.flatViewportPage = Normal None.
Proof.
  apply (sweep_never_ends_without_viewport Pages.flatViewportPage
           [Examples.heroNode] 900%Z);
    try reflexivity; try lia.
  intros y. eexists. reflexivity.
Defined.

(* ===================================================================== *)
(** * The structural checklist, step by step *)
(* ===================================================================== *)

Section StepByStep.

Import ProductPageTester Spec Steps.

Lemma record_eq r es ws f r' :
  passed r' = passed r -> errors r' = errors r ++ es ->
  warnings r' = warnings r ++ ws -> elements r' = f (elements r) ->
  r' = record (mkDelta es ws f) r.
Proof.
  destruct r, r'. unfold record. simpl. intros -> -> -> ->. reflexivity.
Qed.

Ltac delta :=
  apply record_eq; simpl; rewrite ?app_nil_r; reflexivity.

Lemma waitForPageLoad_step page r :
  waitForPageLoad page r = (Normal tt, record (pageLoad page) r).
Proof.
  unfold waitForPageLoad, try_catch, await, modify, pageLoad.
  destruct (loadWait page); f_equal; delta.
Qed.

Lemma testProductTitle_step page sel r :
  testProductTitle page sel r = (Normal tt, record (titleStep page sel) r).
Proof.
  rewrite testProductTitle_spec. unfold titleStep, resolution.
  destruct (firstSuccess _ _ _); f_equal; delta.
Qed.

Lemma testProductPrice_step page sel r :
  testProductPrice page sel r = (Normal tt, record (priceStep page sel) r).
Proof.
  rewrite testProductPrice_spec. unfold priceStep, resolution.
  destruct (firstSuccess _ _ _); f_equal; delta.
Qed.

Lemma testProductDescription_step page sel r :
  testProductDescription page sel r
  = (Normal tt, record (descriptionStep page sel) r).
Proof.
  rewrite testProductDescription_spec. unfold descriptionStep, resolution.
  destruct (firstSuccess _ _ _); f_equal; delta.
Qed.

Lemma testAddToCartButton_step page sel r :
  testAddToCartButton page sel r = (Normal tt, record (buttonStep page sel) r).
Proof.
  rewrite testAddToCartButton_spec. unfold buttonStep.
  destruct (firstButton _ _) as [[s [[] []]]|];
    [| | | |destruct (existsb _ _)]; f_equal; delta.
Qed.

Lemma imagesLoop_spec page sels l r :
  for_of sels (imagesBody page) (l, r)
  = (Normal tt,
     match firstListing (queryAll page) sels with
     | Some found => (true, set_elements (set_images (listed found)) r)
     | None => (l, r)
     end).
Proof.
  induction sels as [|s sels IH]; [reflexivity|].
  cbn [for_of firstListing]. unfold bind, imagesBody at 1, try_catch, await.
  destruct (queryAll page s) as [imgs|e]; [|exact IH].
  unfold bind. destruct (0 <? List.length imgs)%nat; [reflexivity|exact IH].
Qed.

Lemma variantsLoop_spec page sels l r :
  for_of sels (variantsBody page) (l, r)
  = (Normal tt,
     match firstListing (queryAll page) sels with
     | Some found => (true, set_elements (set_variants (listed found)) r)
     | None => (l, r)
     end).
Proof.
  induction sels as [|s sels IH]; [reflexivity|].
  cbn [for_of firstListing]. unfold bind, variantsBody at 1, try_catch, await.
  destruct (queryAll page s) as [vs|e]; [|exact IH].
  unfold bind. destruct (0 <? List.length vs)%nat; [reflexivity|exact IH].
Qed.

Lemma testProductImages_step page sel r :
  testProductImages page sel r = (Normal tt, record (imagesStep page sel) r).
Proof.
  unfold testProductImages, with_locals, bind. rewrite imagesLoop_spec.
  unfold imagesStep.
  destruct (firstListing _ _); simpl; f_equal; delta.
Qed.

Lemma testProductVariants_step page sel r :
  testProductVariants page sel r = (Normal tt, record (variantsStep page sel) r).
Proof.
  unfold testProductVariants, with_locals, bind. rewrite variantsLoop_spec.
  unfold variantsStep.
  destruct (firstListing _ _); simpl; f_equal; delta.
Qed.

Lemma testMetaInformation_step page r :
  testMetaInformation page r = (Normal tt, record (metaStep page) r).
Proof.
  unfold testMetaInformation, metaStep, metaDescription, try_catch, bind,
    await, modify, ret.
  destruct (title page) as [t|e]; [|f_equal; delta].
  destruct (metaContent page) as [[|c0 c]|e];
    destruct (bool_decide (t = []) || (strlen t <? 5)%Z) eqn:Ht;
    cbn [orNull]; rewrite ?Ht; f_equal; apply record_eq; simpl;
    rewrite ?Ht, ?app_nil_r, <- ?app_assoc; reflexivity.
Qed.

(** [test] runs the checklist and then takes the verdict from [errors]. *)
Lemma test_steps page sel r :
  test page sel r
  = (let r' := fold_left (fun r d => record d r) (checklist page sel) r in
     (Normal (set_passed (bool_decide (List.length (errors r') = 0%nat)) r'),
      set_passed (bool_decide (List.length (errors r') = 0%nat)) r')).
Proof.
  unfold test, bind.
  rewrite waitForPageLoad_step, testProductTitle_step, testProductPrice_step,
    testProductDescription_step, testAddToCartButton_step,
    testProductImages_step, testProductVariants_step, testMetaInformation_step.
  reflexivity.
Qed.

Lemma fold_record_warnings ds r :
  warnings (fold_left (fun r d => record d r) ds r)
  = warnings r ++ concat (List.map d_warnings ds).
Proof.
  revert r. induction ds as [|d ds IH]; intros r; simpl.
  - rewrite app_nil_r. reflexivity.
  - rewrite IH. simpl. rewrite <- app_assoc. reflexivity.
Qed.

Lemma fold_record_errors ds r :
  errors (fold_left (fun r d => record d r) ds r)
  = errors r ++ concat (List.map d_errors ds).
Proof.
  revert r. induction ds as [|d ds IH]; intros r; simpl.
  - rewrite app_nil_r. reflexivity.
  - rewrite IH. simpl. rewrite <- app_assoc. reflexivity.
Qed.

End StepByStep.

(** X15.  A run of [test] is the composition of its eight steps, and
    what a step adds depends on the page and the selectors only, never
    on what the earlier steps recorded: from any state, [test] returns
    the state it leaves, which is the fold of the steps' contributions
    with [passed] set from [errors]; [errors] receives the entries of
    the title, price and add-to-cart steps in this order, and
    [warnings] those of the page-load, description, add-to-cart, image
    and meta steps in this order.  The variants step adds neither. *)
Theorem test_composes_steps
    (page : ProductPageTester.Page) (sel : ProductPageTester.Selectors)
    (r : ProductPageTester.Results) :
  let r' := fold_left (fun r d => Steps.record d r) (Steps.checklist page sel) r in
  let result :=
    ProductPageTester.set_passed
      (bool_decide (List.length (ProductPageTester.errors r') = 0%nat)) r' in
  ProductPageTester.test page sel r = (Normal result, result)
  /\ ProductPageTester.errors result
     = ProductPageTester.errors r
       ++ Steps.d_errors (Steps.titleStep page sel)
       ++ Steps.d_errors (Steps.priceStep page sel)
       ++ Steps.d_errors (Steps.buttonStep page sel)
  /\ ProductPageTester.warnings result
     = ProductPageTester.warnings r
       ++ Steps.d_warnings (Steps.pageLoad page)
       ++ Steps.d_warnings (Steps.descriptionStep page sel)
       ++ Steps.d_warnings (Steps.buttonStep page sel)
       ++ Steps.d_warnings (Steps.imagesStep page sel)
       ++ Steps.d_warnings (Steps.metaStep page).
Proof.
  cbv zeta. split; [apply test_steps|].
  cbn [ProductPageTester.set_passed ProductPageTester.errors
       ProductPageTester.warnings].
  rewrite fold_record_errors, fold_record_warnings.
  assert (He : Steps.d_errors (Steps.imagesStep page sel) = []).
  { unfold Steps.imagesStep. destruct (Steps.firstListing _ _); reflexivity. }
  assert (Hm : Steps.d_errors (Steps.metaStep page) = []).
  { unfold Steps.metaStep. destruct (ProductPageTester.title page); reflexivity. }
  unfold Steps.checklist. cbn [List.map concat].
  rewrite He, Hm. cbn [Steps.d_errors Steps.d_warnings Steps.pageLoad
    Steps.titleStep Steps.priceStep Steps.descriptionStep Steps.variantsStep].
  rewrite ?app_nil_r. split; reflexivity.
Qed.

(** X16.  The entries of [elements] for the optional checks in the
    result of a page visit.  The description entry is the first
    candidate whose text is longer than 10 code units.  The images
    entry is the first candidate for which the page lists at least one
    element, with their number, a candidate whose query throws being
    skipped; it is [found: false] when there is none.  The variants
    entry is set only when a candidate lists an element, and is never
    [found: false].  The meta entry holds the page title and the meta
    description, each [null] when empty, the description also when it
    cannot be read; it is absent when reading the page title fails. *)
Theorem optional_entries
    (page : ProductPageTester.Page) (sel : ProductPageTester.Selectors) :
  let e := ProductPageTester.elements (Spec.structural page sel) in
  ProductPageTester.e_description e
  = Some (Spec.resolution false ProductPageTester.longEnoughText
            (ProductPageTester.query page)
            (ProductPageTester.productDescription sel))
  /\ ProductPageTester.e_images e
     = Some match Steps.firstListing (ProductPageTester.queryAll page)
                    (ProductPageTester.productImage sel) with
            | Some found => Steps.listed found
            | None => ProductPageTester.notFound
            end
  /\ ProductPageTester.e_variants e
     = option_map Steps.listed
         (Steps.firstListing (ProductPageTester.queryAll page)
            (ProductPageTester.productVariant sel))
  /\ ProductPageTester.e_variants e <> Some ProductPageTester.notFound
  /\ ProductPageTester.e_meta e
     = match ProductPageTester.title page with
       | Normal pageTitle =>
           Some (ProductPageTester.mkMeta
                   (ProductPageTester.orNull (Some pageTitle))
                   (Steps.metaDescription page))
       | Throw _ => None
       end.
Proof.
  cbv zeta. unfold Spec.structural. rewrite test_steps. cbv zeta.
  unfold Steps.checklist. cbn [fold_left snd ProductPageTester.set_passed
    ProductPageTester.elements].
  unfold Steps.record at 1 2 3 4 5 6 7 8.
  cbn [ProductPageTester.elements].
  unfold Steps.buttonStep, Steps.imagesStep, Steps.variantsStep, Steps.metaStep.
  destruct (Spec.firstButton _ _) as [[s [v en]]|];
    [|destruct (existsb _ _)];
    destruct (Steps.firstListing (ProductPageTester.queryAll page)
                (ProductPageTester.productImage sel));
    destruct (Steps.firstListing (ProductPageTester.queryAll page)
                (ProductPageTester.productVariant sel));
    destruct (ProductPageTester.title page);
    simpl; repeat split; discriminate.
Qed.

(* ===================================================================== *)
(** * Further properties of the runner *)
(* ===================================================================== *)

Section RunnerOutcomes.

Import Runner Spec Sessions.

Variable toLowerCase : jsstring -> jsstring.

Lemma navigation_returns (b : Session) (r : PageTestResult) :
  try_catch (await (outcome (goto b)))
    (fun _ => try_catch (await (outcome (gotoFallback b))) (fun _ => ret tt)) r
  = (Normal tt, r).
Proof.
  unfold try_catch, await, outcome, ret.
  destruct (goto b); [destruct (gotoFallback b)|]; reflexivity.
Qed.

Lemma set_platform_fresh (b : Session) (url platform : jsstring) :
  (if bool_decide (platform = []) || streq platform (lit "auto")
   then set_platform (detectedPlatform b) (fresh url platform)
   else fresh url platform)
  = settled b url platform.
Proof.
  unfold settled, effectivePlatform, fresh.
  destruct (bool_decide (platform = []) || streq platform (lit "auto"));
    reflexivity.
Qed.

(** The [try] block of [testProductPage], by the outcome of the checks. *)
Lemma tryBlock_cases fuel (b : Session) config (url platform : jsstring) :
  tryBlock toLowerCase fuel b config platform (fresh url platform)
  = match productTester_test toLowerCase config (effectivePlatform b platform)
            (dom b) with
    | Throw e => (Throw e, settled b url platform)
    | Normal x =>
        match audit fuel (pictures b) with
        | Throw e => (Throw e, set_productPage x (settled b url platform))
        | Normal None => (Normal None, set_productPage x (settled b url platform))
        | Normal (Some y) =>
            let z := finalized toLowerCase (errorTolerance config) (metrics b)
                       (ErrorDetector.listen (events b) ErrorDetector.initial) in
            (Normal (Some tt),
             mkResult url (effectivePlatform b platform)
               (mkOverall (ProductPageTester.passed x && ImageValidator.passed y
                           && ErrorDetector.passed z) None None)
               (Some x) (Some y) (Some z))
        end
    end.
Proof.
  rewrite <- set_platform_fresh.
  unfold tryBlock, effectivePlatform, audit, call.
  unfold bind at 1. rewrite navigation_returns.
  destruct (bool_decide (platform = []) || streq platform (lit "auto")).
  - unfold bind, modify, ret, await. rewrite detectPlatform_eq.
    destruct (productTester_test _ _ _ _) as [x|e]; [|reflexivity].
    destruct (ImageValidator.validate fuel (pictures b) ImageValidator.initial)
      as [[[y|]|e] s]; simpl; try reflexivity.
    rewrite detect_returns. reflexivity.
  - unfold bind, modify, ret, await.
    destruct (productTester_test _ _ _ _) as [x|e]; [|reflexivity].
    destruct (ImageValidator.validate fuel (pictures b) ImageValidator.initial)
      as [[[y|]|e] s]; simpl; try reflexivity.
    rewrite detect_returns. reflexivity.
Qed.

(** [testProductPage], by the outcome of opening the page, of the
    checks and of closing the page. *)
Lemma testProductPage_cases fuel (b : Session) config (url platform : jsstring) :
  testProductPage toLowerCase fuel b url config platform
  = match newPage b with
    | Some e => Some (Throw e)
    | None =>
        match fst (tryBlock toLowerCase fuel b config platform
                     (fresh url platform)) with
        | Normal None => None
        | Normal (Some _) =>
            match close b with
            | Some e => Some (Throw e)
            | None =>
                Some (Normal (snd (tryBlock toLowerCase fuel b config platform
                                     (fresh url platform))))
            end
        | Throw error =>
            match close b with
            | Some e => Some (Throw e)
            | None =>
                Some (Normal
                  (set_overall (failedWith error)
                     (snd (tryBlock toLowerCase fuel b config platform
                             (fresh url platform)))))
            end
        end
    end.
Proof.
  unfold testProductPage. fold (fresh url platform).
  destruct (newPage b); [reflexivity|].
  unfold try_finally, try_catch, bind, modify, ret, await, outcome.
  destruct (tryBlock toLowerCase fuel b config platform (fresh url platform))
    as [[[u|]|e] s]; simpl; destruct (close b); reflexivity.
Qed.

End RunnerOutcomes.

Section Profiles.

Import Runner Spec.

Variable toLowerCase : jsstring -> jsstring.

Lemma test_returns_structural page sel :
  call (ProductPageTester.test page sel) ProductPageTester.initial
  = Normal (structural page sel).
Proof.
  unfold call, structural. rewrite test_steps. reflexivity.
Qed.

End Profiles.

(** X18.  A fault of a check is reported in the result, not thrown.
    When the page opens and closes without fault, [testProductPage]
    never rejects: an exception of the structural check gives a result
    with [overall.passed] false, [overall.error] its message and the
    three subsystem results still empty; an exception of the image
    check gives the same with the structural result in place; the
    signal set is not classified in either case. *)
Theorem check_fault_reported
    (toLowerCase : jsstring -> jsstring) (fuel : nat) (b : Runner.Session)
    (url : jsstring) (config : Runner.Config) (platform : jsstring) :
  Runner.newPage b = None ->
  Runner.close b = None ->
  (forall e,
     Runner.productTester_test toLowerCase config
       (Spec.effectivePlatform b platform) (Runner.dom b) = Throw e ->
     Runner.testProductPage toLowerCase fuel b url config platform
     = Some (Normal
         (Runner.mkResult url (Spec.effectivePlatform b platform)
            (Sessions.failedWith e) None None None)))
  /\ (forall x e,
        Runner.productTester_test toLowerCase config
          (Spec.effectivePlatform b platform) (Runner.dom b) = Normal x ->
        Spec.audit fuel (Runner.pictures b) = Throw e ->
        Runner.testProductPage toLowerCase fuel b url config platform
        = Some (Normal
            (Runner.mkResult url (Spec.effectivePlatform b platform)
               (Sessions.failedWith e) (Some x) None None)))
  /\ (forall e,
        Runner.testProductPage toLowerCase fuel b url config platform
        <> Some (Throw e)).
Proof.
  intros Hopen Hclose.
  rewrite testProductPage_cases, tryBlock_cases, Hopen, Hclose.
  repeat split.
  - intros e ->. reflexivity.
  - intros x e -> ->. reflexivity.
  - intros e.
    destruct (Runner.productTester_test _ _ _ _) as [x|e']; [|discriminate].
    destruct (Spec.audit fuel (Runner.pictures b)) as [[y|]|e']; discriminate.
Qed.

(** X18 on the shop while its images cannot be listed. *)
Lemma check_fault_reported_witness :
  Runner.testProductPage Spec.asciiToLowerCase 0 Sessions.closedSession
    (lit "https://shop.example/products/shirt") Examples.shopConfig (lit "auto")
  = Some (Normal
      (Runner.mkResult (lit "https://shop.example/products/shirt")
         (Spec.effectivePlatform Sessions.closedSession (lit "auto"))
         (Sessions.failedWith Pages.detached)
         (Some (Spec.structural (Examples.shopPage false) Examples.shopSelectors))
         None None)).
Proof.
  apply (proj1 (proj2 (check_fault_reported Spec.asciiToLowerCase 0
                         Sessions.closedSession
                         (lit "https://shop.example/products/shirt")
                         Examples.shopConfig (lit "auto") eq_refl eq_refl)));
    vm_compute; reflexivity.
Defined.

(** X19.  A fault of the page handle escapes.  When [browser.newPage()]
    rejects, [testProductPage] rejects with that error before any check
    runs; when [page.close()] rejects, every run that comes to an end
    rejects with that error, whatever the checks found. *)
Theorem page_fault_escapes
    (toLowerCase : jsstring -> jsstring) (fuel : nat) (b : Runner.Session)
    (url : jsstring) (config : Runner.Config) (platform : jsstring) (e : Exn) :
  (Runner.newPage b = Some e ->
   Runner.testProductPage toLowerCase fuel b url config platform
   = Some (Throw e))
  /\ (Runner.newPage b = None -> Runner.close b = Some e ->
      Runner.testProductPage toLowerCase fuel b url config platform <> None ->
      Runner.testProductPage toLowerCase fuel b url config platform
      = Some (Throw e)).
Proof.
  rewrite testProductPage_cases. split.
  - intros ->. reflexivity.
  - intros -> ->.
    destruct (fst (Runner.tryBlock toLowerCase fuel b config platform
                     (Sessions.fresh url platform))) as [[u|]|e'];
      [reflexivity|intros H; destruct (H eq_refl)|reflexivity].
Qed.

(** X19 on the shop with a page that fails to close. *)
Lemma page_fault_escapes_witness :
  Runner.testProductPage Spec.asciiToLowerCase 2 Sessions.stuckSession
    (lit "https://shop.example/products/shirt") Examples.shopConfig (lit "auto")
  = Some (Throw (mkExn (lit "Protocol error: Target closed") [])).
Proof.
  apply (proj2 (page_fault_escapes Spec.asciiToLowerCase 2 Sessions.stuckSession
                  (lit "https://shop.example/products/shirt")
                  Examples.shopConfig (lit "auto")
                  (mkExn (lit "Protocol error: Target closed") []))).
  - reflexivity.
  - reflexivity.
  - vm_compute. discriminate.
Defined.

(** X20.  The selector profile of a run.  The platform name is
    lower-cased and looked up in [config.selectors].  A profile held
    under that name is used.  A name that is no own property but is
    inherited from the object prototype, such as [constructor] or
    [__proto__], gives a truthy value that is no profile: the [shopify]
    fallback is not taken and the structural check throws.  Any other
    name without a profile is checked with the [shopify] profile, and
    the structural check throws when that one is missing too. *)
Theorem profile_falls_back_to_shopify
    (toLowerCase : jsstring -> jsstring) (config : Runner.Config)
    (platform : jsstring) (page : ProductPageTester.Page) :
  (forall sel,
     Runner.selectors config !! toLowerCase platform = Some sel ->
     Runner.productTester_test toLowerCase config platform page
     = Normal (Spec.structural page sel))
  /\ (Runner.selectors config !! toLowerCase platform = None ->
      Runner.inherited (toLowerCase platform) = true ->
      Runner.productTester_test toLowerCase config platform page
      = Throw (mkExn (lit "this.selectors.productTitle is not iterable") []))
  /\ (forall sel,
        Runner.selectors config !! toLowerCase platform = None ->
        Runner.inherited (toLowerCase platform) = false ->
        Runner.selectors config !! lit "shopify" = Some sel ->
        Runner.productTester_test toLowerCase config platform page
        = Normal (Spec.structural page sel))
  /\ (Runner.selectors config !! toLowerCase platform = None ->
      Runner.inherited (toLowerCase platform) = false ->
      Runner.selectors config !! lit "shopify" = None ->
      exists e,
        Runner.productTester_test toLowerCase config platform page = Throw e).
Proof.
  unfold Runner.productTester_test, Runner.property. repeat split.
  - intros sel ->. apply test_returns_structural.
  - intros -> ->. reflexivity.
  - intros sel -> -> ->. apply test_returns_structural.
  - intros -> -> ->. eexists. reflexivity.
Qed.

(** X20 on the shop's configuration, asked for a BigCommerce page and
    for a platform named [Constructor], and on a configuration without
    profiles. *)
Lemma profile_falls_back_to_shopify_witness :
  Runner.productTester_test Spec.asciiToLowerCase Examples.shopConfig
    (lit "BigCommerce") (Examples.shopPage false)
  = Normal (Spec.structural (Examples.shopPage false) Examples.shopSelectors)
  /\ Runner.productTester_test Spec.asciiToLowerCase Examples.shopConfig
       (lit "Constructor") (Examples.shopPage false)
     = Throw (mkExn (lit "this.selectors.productTitle is not iterable") [])
  /\ exists e,
       Runner.productTester_test Spec.asciiToLowerCase Sessions.bareConfig
         (lit "shopify") (Examples.shopPage false) = Throw e.
Proof.
  split; [|split].
  - apply (proj1 (proj2 (proj2 (profile_falls_back_to_shopify
                                  Spec.asciiToLowerCase Examples.shopConfig
                                  (lit "BigCommerce")
                                  (Examples.shopPage false)))));
      vm_compute; reflexivity.
  - apply (proj1 (proj2 (profile_falls_back_to_shopify
                           Spec.asciiToLowerCase Examples.shopConfig
                           (lit "Constructor") (Examples.shopPage false))));
      vm_compute; reflexivity.
  - apply (proj2 (proj2 (proj2 (profile_falls_back_to_shopify
                                  Spec.asciiToLowerCase Sessions.bareConfig
                                  (lit "shopify")
                                  (Examples.shopPage false)))));
      vm_compute; reflexivity.
Defined.

(** X21.  What every returned result carries: the URL it was asked
    for, the platform passed in or, for none or ['auto'], the detected
    one; and a result that passed has no error message and holds the
    results of all three checks, while a result with an error message
    did not pass and lacks the signal result. *)
Theorem returned_result_shape
    (toLowerCase : jsstring -> jsstring) (fuel : nat) (b : Runner.Session)
    (url : jsstring) (config : Runner.Config) (platform : jsstring)
    (r : Runner.PageTestResult) :
  Runner.testProductPage toLowerCase fuel b url config platform
  = Some (Normal r) ->
  Runner.url r = url
  /\ Runner.platform r = Spec.effectivePlatform b platform
  /\ (Runner.passed (Runner.overall r) = true ->
      Runner.error (Runner.overall r) = None
      /\ Runner.productPage r <> None /\ Runner.images r <> None
      /\ Runner.errors r <> None)
  /\ (Runner.error (Runner.overall r) <> None ->
      Runner.passed (Runner.overall r) = false /\ Runner.errors r = None).
Proof.
  rewrite testProductPage_cases, tryBlock_cases.
  destruct (Runner.newPage b); [discriminate|].
  destruct (Runner.productTester_test _ _ _ _) as [x|e];
    [destruct (Spec.audit fuel (Runner.pictures b)) as [[y|]|e]|];
    cbn [fst snd]; try discriminate;
    (destruct (Runner.close b); [discriminate|]);
    intros [= <-]; simpl; repeat split; try discriminate; try congruence;
    intros H; try discriminate; try (destruct (H eq_refl)).
Qed.

(** X21 on the shop. *)
Lemma returned_result_shape_witness :
  exists r,
    Runner.testProductPage Spec.asciiToLowerCase 2 Examples.shopSession
      (lit "https://shop.example/products/shirt") Examples.shopConfig (lit "auto")
    = Some (Normal r)
    /\ Runner.platform r = lit "shopify".
Proof.
  eexists. split; [vm_compute; reflexivity|].
  match goal with
  | |- Runner.platform ?r = _ =>
      destruct (returned_result_shape Spec.asciiToLowerCase 2
                  Examples.shopSession
                  (lit "https://shop.example/products/shirt")
                  Examples.shopConfig (lit "auto") r) as (_ & H & _)
  end.
  - vm_compute; reflexivity.
  - rewrite H. vm_compute; reflexivity.
Defined.

(* ===================================================================== *)
(** * Properties of the reporter *)
(* ===================================================================== *)

Section ReporterFacts.

Import Reporter.

Lemma filter_partition_length {A} (p : A -> bool) (l : list A) :
  (List.length (List.filter p l)
   + List.length (List.filter (fun x => negb (p x)) l))%nat
  = List.length l.
Proof.
  induction l as [|x l IH]; [reflexivity|].
  cbn [List.filter]. destruct (p x); simpl; lia.
Qed.

Lemma forallb_no_failure {A} (p : A -> bool) (l : list A) :
  forallb p l = true <-> List.filter (fun x => negb (p x)) l = [].
Proof.
  induction l as [|x l IH]; [simpl; tauto|].
  cbn [forallb List.filter]. destruct (p x); simpl.
  - exact IH.
  - split; discriminate.
Qed.

Lemma describeResult_outcome index result summary :
  exists summary',
    describeResult index result summary
    = (if complete result then Normal tt else Throw lengthOfUndefined, summary').
Proof.
  unfold describeResult, complete, bind, append, modify, throw.
  destruct (Runner.productPage result); [|eexists; reflexivity].
  destruct (Runner.images result); [|eexists; reflexivity].
  destruct (Runner.errors result); eexists; reflexivity.
Qed.

Lemma forEach_outcome results :
  forall index summary,
  exists summary',
    forEach results index describeResult summary
    = (if forallb complete results then Normal tt else Throw lengthOfUndefined,
       summary').
Proof.
  induction results as [|r results IH]; intros index summary.
  - eexists. reflexivity.
  - cbn [forEach forallb]. unfold bind at 1.
    destruct (describeResult_outcome index r summary) as (s1 & ->).
    destruct (complete r); [apply IH|eexists; reflexivity].
Qed.

Lemma escapeUnit_nonempty c : escapeUnit c <> [].
Proof.
  unfold escapeUnit.
  repeat match goal with |- context [if ?b then _ else _] => destruct b end;
    discriminate.
Qed.

Ltac classify c :=
  destruct (N.eqb_spec c 38);
  [|destruct (N.eqb_spec c 60);
    [|destruct (N.eqb_spec c 62);
      [|destruct (N.eqb_spec c 34);
        [|destruct (N.eqb_spec c 39)]]]].

Ltac literals :=
  repeat match goal with
         | |- context [lit ?s] =>
             let v := eval vm_compute in (lit s) in change (lit s) with v
         end.

Lemma escapeUnit_split a c x y :
  escapeUnit a ++ x = escapeUnit c ++ y -> a = c /\ x = y.
Proof.
  unfold escapeUnit.
  classify a; classify c; cbv beta iota; literals; cbn [app]; intros H;
    try discriminate H; injection H; intros; subst; try congruence;
    split; reflexivity.
Qed.

Lemma escapeUnit_plain c : forallb (fun u => negb (markup u)) (escapeUnit c) = true.
Proof.
  unfold escapeUnit, markup.
  destruct (N.eqb_spec c 38); [reflexivity|].
  destruct (N.eqb_spec c 60); [reflexivity|].
  destruct (N.eqb_spec c 62); [reflexivity|].
  destruct (N.eqb_spec c 34); [reflexivity|].
  destruct (N.eqb_spec c 39); [reflexivity|].
  cbn [forallb].
  destruct (N.eqb_spec c 60); [congruence|].
  destruct (N.eqb_spec c 62); [congruence|].
  destruct (N.eqb_spec c 34); [congruence|].
  destruct (N.eqb_spec c 39); [congruence|].
  reflexivity.
Qed.

End ReporterFacts.

(** X22.  The counts of a report.  [passed] and [failed] add up to
    [totalTests], and the overall status is PASSED exactly when no
    result failed; so a batch without results is reported as PASSED. *)
Theorem summary_counts (testResults : list Runner.PageTestResult) :
  let s := Reporter.jsonSummary testResults in
  (Reporter.passed s + Reporter.failed s)%nat = Reporter.totalTests s
  /\ (Reporter.overallStatus s = lit "PASSED" <-> Reporter.failed s = 0%nat)
  /\ (Reporter.overallStatus s = lit "FAILED" <-> (0 < Reporter.failed s)%nat).
Proof.
  cbv zeta. unfold Reporter.jsonSummary, Reporter.getOverallStatus.
  cbn [Reporter.passed Reporter.failed Reporter.totalTests Reporter.overallStatus].
  split; [apply filter_partition_length|].
  pose proof (forallb_no_failure Reporter.passedOverall testResults) as H.
  destruct (forallb Reporter.passedOverall testResults).
  - rewrite (proj1 H eq_refl). simpl. split; split; auto; try discriminate; lia.
  - destruct (List.filter _ testResults) as [|x l] eqn:E.
    + destruct H as (_ & H). discriminate (H eq_refl).
    + simpl. split; split; auto; try discriminate; lia.
Qed.

(** X23.  The text summary is produced exactly for batches in which
    every result holds the results of all three checks.  A result that
    lacks one, as [testProductPage] returns after a fault of a check,
    makes [generateSummary] throw a TypeError, since it reads [length]
    of a list the empty result object does not have. *)
Theorem summary_needs_complete_results
    (generated : jsstring) (testResults : list Runner.PageTestResult) :
  if forallb Reporter.complete testResults
  then exists summary,
         Reporter.generateSummary generated testResults = Normal summary
  else Reporter.generateSummary generated testResults
       = Throw Reporter.lengthOfUndefined.
Proof.
  unfold Reporter.generateSummary, Runner.call. cbv zeta.
  unfold bind at 1 2 3 4 5 6 7 8, Reporter.append, modify.
  match goal with
  | |- context [Reporter.forEach testResults 0 Reporter.describeResult ?s] =>
      destruct (forEach_outcome testResults 0%nat s) as (s' & E)
  end.
  unfold bind. rewrite E.
  destruct (forallb Reporter.complete testResults); [eexists|]; reflexivity.
Qed.

(** X24.  [escapeHtml] leaves no angle bracket, double quote or
    apostrophe in its output and loses no information: different texts
    have different escapes.  It works code unit by code unit, so the
    escape of a concatenation is the concatenation of the escapes. *)
Theorem escapeHtml_safe_and_injective (text other : jsstring) :
  forallb (fun c => negb (Reporter.markup c)) (Reporter.escapeHtml text) = true
  /\ Reporter.escapeHtml (text ++ other)
     = Reporter.escapeHtml text ++ Reporter.escapeHtml other
  /\ (Reporter.escapeHtml text = Reporter.escapeHtml other -> text = other).
Proof.
  unfold Reporter.escapeHtml. repeat split.
  - induction text as [|c text IH]; [reflexivity|].
    cbn [flat_map]. rewrite forallb_app, IH, escapeUnit_plain. reflexivity.
  - apply flat_map_app.
  - revert other. induction text as [|a text IH]; intros [|c other];
      cbn [flat_map]; intros H.
    + reflexivity.
    + destruct (escapeUnit_nonempty c).
      destruct (Reporter.escapeUnit c); [reflexivity|discriminate H].
    + destruct (escapeUnit_nonempty a).
      destruct (Reporter.escapeUnit a); [reflexivity|discriminate H].
    + destruct (escapeUnit_split a c _ _ H) as (-> & H').
      f_equal. apply IH, H'.
Qed.

(** X24 on a tag and itself. *)
Lemma escapeHtml_safe_and_injective_witness :
  Reporter.escapeHtml (lit "<b>Tom & Jerry</b>")
  = lit "&lt;b&gt;Tom &amp; Jerry&lt;/b&gt;"
  /\ lit "<b>Tom & Jerry</b>" = lit "<b>Tom & Jerry</b>".
Proof.
  split; [vm_compute; reflexivity|].
  apply (proj2 (proj2 (escapeHtml_safe_and_injective
                         (lit "<b>Tom & Jerry</b>") (lit "<b>Tom & Jerry</b>")))).
  reflexivity.
Defined.

(* ===================================================================== *)
(** * Properties of the configuration and of a batch *)
(* ===================================================================== *)

Section ConfigFacts.

Import Config.

Lemma merged_profile userConfig platform :
  Runner.selectors (mergeConfig userConfig) !! platform
  = match userProfile userConfig platform with
    | Some profile => Some profile
    | None => defaultSelectors !! platform
    end.
Proof.
  unfold mergeConfig, userProfile. cbn [Runner.selectors].
  destruct (u_selectors userConfig) as [user|]; [|reflexivity].
  destruct (user !! platform) as [profile|] eqn:E.
  - apply lookup_union_Some_l, E.
  - apply lookup_union_r, E.
Qed.

Lemma default_shopify : defaultSelectors !! lit "shopify" = Some shopify.
Proof. unfold defaultSelectors. apply lookup_insert_eq. Qed.

End ConfigFacts.

Section BatchFacts.

Import Runner Main Sessions.

Variable toLowerCase : jsstring -> jsstring.

(** A result of the run shows that a check faulted. *)
Lemma faulted_result_incomplete fuel (b : Session) config (url platform : jsstring) r :
  testProductPage toLowerCase fuel b url config platform = Some (Normal r) ->
  error (overall r) <> None ->
  Reporter.complete r = false.
Proof.
  rewrite testProductPage_cases, tryBlock_cases.
  destruct (newPage b); [discriminate|].
  destruct (productTester_test _ _ _ _) as [x|e];
    [destruct (Spec.audit fuel (pictures b)) as [[y|]|e]|];
    cbn [fst snd]; try discriminate;
    (destruct (close b); [discriminate|]);
    intros [= <-]; simpl; intros H; try reflexivity; destruct (H eq_refl).
Qed.

Lemma testProductPage_url fuel (b : Session) config (u platform : jsstring) r :
  testProductPage toLowerCase fuel b u config platform = Some (Normal r) ->
  url r = u.
Proof.
  rewrite testProductPage_cases, tryBlock_cases.
  destruct (newPage b); [discriminate|].
  destruct (productTester_test _ _ _ _) as [x|e];
    [destruct (Spec.audit fuel (pictures b)) as [[y|]|e]|];
    cbn [fst snd]; try discriminate;
    (destruct (close b); [discriminate|]);
    intros [= <-]; reflexivity.
Qed.

Lemma runAll_results fuel config platform visits :
  forall testResults results,
    runAll toLowerCase fuel visits config platform testResults
    = Some (Normal results) ->
    exists new,
      results = testResults ++ new
      /\ Forall2 (fun visit r =>
                    testProductPage toLowerCase fuel (snd visit) (fst visit)
                      config (ImageValidator.strOr platform (lit "auto"))
                    = Some (Normal r))
           visits new.
Proof.
  induction visits as [|[u b] visits IH]; intros testResults results;
    cbn [runAll].
  - intros [= <-]. exists []. rewrite app_nil_r. split; constructor.
  - destruct (testProductPage toLowerCase fuel b u config
                (ImageValidator.strOr platform (lit "auto")))
      as [[r|e]|] eqn:E; try discriminate.
    intros H. destruct (IH _ _ H) as (new & -> & Hall).
    exists (r :: new). rewrite <- app_assoc. split; [reflexivity|].
    constructor; [exact E|exact Hall].
Qed.

Lemma runAll_app fuel config platform before :
  forall testResults after results,
    runAll toLowerCase fuel before config platform testResults
    = Some (Normal results) ->
    runAll toLowerCase fuel (before ++ after) config platform testResults
    = runAll toLowerCase fuel after config platform results.
Proof.
  induction before as [|[u b] before IH]; intros testResults after results;
    cbn [runAll app].
  - intros [= <-]. reflexivity.
  - destruct (testProductPage toLowerCase fuel b u config
                (ImageValidator.strOr platform (lit "auto")))
      as [[r|e]|]; try discriminate.
    apply IH.
Qed.

End BatchFacts.

(** X25.  A fault of a check on one page keeps the text summary of the
    whole batch from being written: the result [testProductPage]
    returns with an error message lacks the result of a check, and
    [generateSummary] throws on every batch that contains it. *)
Theorem faulted_page_breaks_summary
    (toLowerCase : jsstring -> jsstring) (fuel : nat) (b : Runner.Session)
    (url : jsstring) (config : Runner.Config) (platform : jsstring)
    (r : Runner.PageTestResult) (generated : jsstring)
    (before after : list Runner.PageTestResult) :
  Runner.testProductPage toLowerCase fuel b url config platform
  = Some (Normal r) ->
  Runner.error (Runner.overall r) <> None ->
  Reporter.generateSummary generated (before ++ r :: after)
  = Throw Reporter.lengthOfUndefined.
Proof.
  intros Hr He.
  pose proof (faulted_result_incomplete toLowerCase fuel b config url platform
                r Hr He) as Hc.
  unfold Reporter.generateSummary, Runner.call. cbv zeta.
  unfold bind at 1 2 3 4 5 6 7 8, Reporter.append, modify.
  match goal with
  | |- context [Reporter.forEach ?rs 0 Reporter.describeResult ?s] =>
      destruct (forEach_outcome rs 0%nat s) as (s' & E)
  end.
  unfold bind. rewrite E.
  rewrite forallb_app. cbn [forallb]. rewrite Hc, andb_false_r. reflexivity.
Qed.

(** X25 on the shop while its images cannot be listed. *)
Lemma faulted_page_breaks_summary_witness :
  exists r,
    Runner.testProductPage Spec.asciiToLowerCase 0 Sessions.closedSession
      (lit "https://shop.example/products/shirt") Examples.shopConfig (lit "auto")
    = Some (Normal r)
    /\ Reporter.generateSummary (lit "1/1/2025") ([] ++ r :: [])
       = Throw Reporter.lengthOfUndefined.
Proof.
  eexists. split; [vm_compute; reflexivity|].
  apply (faulted_page_breaks_summary Spec.asciiToLowerCase 0
           Sessions.closedSession (lit "https://shop.example/products/shirt")
           Examples.shopConfig (lit "auto")).
  - vm_compute; reflexivity.
  - vm_compute. discriminate.
Defined.

(** X26.  What [mergeConfig] hands to the checks.  A selector profile
    of the user replaces the default profile of that platform as a
    whole, and platforms the user does not mention keep theirs; a
    tolerance limit of the user replaces the default limit of that key
    only; an empty user configuration gives the defaults.  A [shopify]
    profile is therefore always present: with a merged configuration
    the structural check returns for every platform name that has a
    profile or is not inherited from the object prototype, and throws
    for an inherited name without a profile, such as [constructor]. *)
Theorem mergeConfig_keeps_defaults
    (toLowerCase : jsstring -> jsstring) (userConfig : Config.UserConfig)
    (platform : jsstring) (page : ProductPageTester.Page) :
  Runner.selectors (Config.mergeConfig userConfig) !! platform
  = match Config.userProfile userConfig platform with
    | Some profile => Some profile
    | None => Config.defaultSelectors !! platform
    end
  /\ (forall user,
        Config.u_errorTolerance userConfig = Some user ->
        Runner.errorTolerance (Config.mergeConfig userConfig)
        = ErrorDetector.mkTolerance
            (Config.spread 0%Z (Config.u_critical user))
            (Config.spread 5%Z (Config.u_warning user))
            (Config.spread 2%Z (Config.u_network user)))
  /\ Config.mergeConfig (Config.mkUserConfig None None) = Config.defaultConfig
  /\ Runner.selectors (Config.mergeConfig userConfig) !! lit "shopify" <> None
  /\ (Runner.selectors (Config.mergeConfig userConfig) !! toLowerCase platform
      <> None
      \/ Runner.inherited (toLowerCase platform) = false ->
      exists x,
        Runner.productTester_test toLowerCase (Config.mergeConfig userConfig)
          platform page = Normal x)
  /\ (Runner.selectors (Config.mergeConfig userConfig) !! toLowerCase platform
      = None ->
      Runner.inherited (toLowerCase platform) = true ->
      Runner.productTester_test toLowerCase (Config.mergeConfig userConfig)
        platform page
      = Throw (mkExn (lit "this.selectors.productTitle is not iterable") [])).
Proof.
  split; [apply merged_profile|].
  split; [intros user H; unfold Config.mergeConfig; rewrite H; reflexivity|].
  split; [reflexivity|].
  assert (Hshop : exists sel,
            Runner.selectors (Config.mergeConfig userConfig) !! lit "shopify"
            = Some sel).
  { rewrite merged_profile, default_shopify.
    destruct (Config.userProfile userConfig (lit "shopify")); eexists;
      reflexivity. }
  destruct Hshop as (shop & Hshop).
  split; [rewrite Hshop; discriminate|].
  unfold Runner.productTester_test, Runner.property. split.
  - intros H.
    destruct (Runner.selectors (Config.mergeConfig userConfig)
                !! toLowerCase platform) as [sel|].
    + rewrite test_returns_structural. eexists. reflexivity.
    + destruct H as [H|H]; [destruct (H eq_refl)|].
      rewrite H, Hshop, test_returns_structural. eexists. reflexivity.
  - intros -> ->. reflexivity.
Qed.

(** X26 on a configuration file that only raises the warning limit,
    asked for the platforms [shopify] and [constructor]. *)
Lemma mergeConfig_keeps_defaults_witness :
  Runner.errorTolerance
    (Config.mergeConfig
       (Config.mkUserConfig None
          (Some (Config.mkUserTolerance None (Some 10%Z) None))))
  = ErrorDetector.mkTolerance 0 10 2
  /\ (exists x,
        Runner.productTester_test Spec.asciiToLowerCase
          (Config.mergeConfig
             (Config.mkUserConfig None
                (Some (Config.mkUserTolerance None (Some 10%Z) None))))
          (lit "shopify") (Examples.shopPage false) = Normal x)
  /\ Runner.productTester_test Spec.asciiToLowerCase
       (Config.mergeConfig
          (Config.mkUserConfig None
             (Some (Config.mkUserTolerance None (Some 10%Z) None))))
       (lit "constructor") (Examples.shopPage false)
     = Throw (mkExn (lit "this.selectors.productTitle is not iterable") []).
Proof.
  split; [|split].
  - apply (proj1 (proj2 (mergeConfig_keeps_defaults Spec.asciiToLowerCase
                           (Config.mkUserConfig None
                              (Some (Config.mkUserTolerance None (Some 10%Z) None)))
                           (lit "shopify") (Examples.shopPage false)))
             (Config.mkUserTolerance None (Some 10%Z) None)).
    reflexivity.
  - apply (proj1 (proj2 (proj2 (proj2 (proj2
             (mergeConfig_keeps_defaults Spec.asciiToLowerCase
                (Config.mkUserConfig None
                   (Some (Config.mkUserTolerance None (Some 10%Z) None)))
                (lit "shopify") (Examples.shopPage false))))))).
    right. vm_compute; reflexivity.
  - apply (proj2 (proj2 (proj2 (proj2 (proj2
             (mergeConfig_keeps_defaults Spec.asciiToLowerCase
                (Config.mkUserConfig None
                   (Some (Config.mkUserTolerance None (Some 10%Z) None)))
                (lit "constructor") (Examples.shopPage false)))))));
      vm_compute; reflexivity.
Defined.

(** X27.  A batch that comes to an end without an escaping fault gives
    one result per URL, in the order of the URLs: each result is the
    one [testProductPage] returns for that URL, with ['auto'] for an
    empty platform option, and carries the URL. *)
Theorem batch_results_in_order
    (toLowerCase : jsstring -> jsstring) (fuel : nat)
    (visits : list (jsstring * Runner.Session)) (config : Runner.Config)
    (platform : jsstring) (results : list Runner.PageTestResult) :
  Main.runAll toLowerCase fuel visits config platform [] = Some (Normal results) ->
  Forall2 (fun visit r =>
             Runner.testProductPage toLowerCase fuel (snd visit) (fst visit)
               config (ImageValidator.strOr platform (lit "auto"))
             = Some (Normal r))
    visits results
  /\ List.map Runner.url results = List.map fst visits.
Proof.
  intros H.
  destruct (runAll_results toLowerCase fuel config platform visits [] results H)
    as (new & -> & Hall).
  cbn [app]. split; [exact Hall|]. clear H.
  induction Hall as [|[u b] r visits' new' Hr _ IH]; [reflexivity|].
  cbn [List.map fst]. f_equal; [|exact IH].
  eapply testProductPage_url. exact Hr.
Qed.

(** X27 on the shop visited twice. *)
Lemma batch_results_in_order_witness :
  exists results,
    Main.runAll Spec.asciiToLowerCase 2
      [(lit "https://shop.example/products/shirt", Examples.shopSession);
       (lit "https://shop.example/products/shirt?v=2", Examples.shopSession)]
      Examples.shopConfig [] [] = Some (Normal results)
    /\ List.map Runner.url results
       = [lit "https://shop.example/products/shirt";
          lit "https://shop.example/products/shirt?v=2"].
Proof.
  eexists. split; [vm_compute; reflexivity|].
  match goal with
  | |- List.map Runner.url ?rs = _ =>
      destruct (batch_results_in_order Spec.asciiToLowerCase 2
                  [(lit "https://shop.example/products/shirt",
                    Examples.shopSession);
                   (lit "https://shop.example/products/shirt?v=2",
                    Examples.shopSession)]
                  Examples.shopConfig [] rs) as (_ & H)
  end.
  - vm_compute; reflexivity.
  - exact H.
Defined.

(** X28.  A fault that escapes one visit ends the batch: when the
    visits before it return results and the page of this one cannot be
    opened, the loop rejects with that error, the results gathered so
    far are not handed on and the URLs after it are not visited. *)
Theorem batch_aborts_on_escape
    (toLowerCase : jsstring -> jsstring) (fuel : nat)
    (before after : list (jsstring * Runner.Session))
    (url : jsstring) (b : Runner.Session) (config : Runner.Config)
    (platform : jsstring) (results : list Runner.PageTestResult) (e : Exn) :
  Main.runAll toLowerCase fuel before config platform [] = Some (Normal results) ->
  Runner.newPage b = Some e ->
  Main.runAll toLowerCase fuel (before ++ (url, b) :: after) config platform []
  = Some (Throw e).
Proof.
  intros Hb He.
  rewrite (runAll_app toLowerCase fuel config platform before [] _ results Hb).
  cbn [Main.runAll]. rewrite testProductPage_cases, He. reflexivity.
Qed.

(** X28 on the shop followed by a visit whose page cannot be opened. *)
Lemma batch_aborts_on_escape_witness :
  Main.runAll Spec.asciiToLowerCase 2
    ([(lit "https://shop.example/products/shirt", Examples.shopSession)]
     ++ (lit "https://shop.example/products/hat", Sessions.unopenedSession) :: [])
    Examples.shopConfig [] []
  = Some (Throw Pages.detached).
Proof.
  assert (E : exists results,
             Main.runAll Spec.asciiToLowerCase 2
               [(lit "https://shop.example/products/shirt", Examples.shopSession)]
               Examples.shopConfig [] [] = Some (Normal results))
    by (eexists; vm_compute; reflexivity).
  destruct E as (results & E).
  exact (batch_aborts_on_escape Spec.asciiToLowerCase 2
           [(lit "https://shop.example/products/shirt", Examples.shopSession)] []
           (lit "https://shop.example/products/hat") Sessions.unopenedSession
           Examples.shopConfig [] results Pages.detached E eq_refl).
Defined.

(* ===================================================================== *)
(** * Platform detection and response interception *)
(* ===================================================================== *)

Section InterceptionFacts.

Import ImageValidator Interception.

Variable toLowerCase : jsstring -> jsstring.

Lemma onResponse_other m response u :
  seen_url response <> u \/ isImageUrl toLowerCase (seen_url response) = false ->
  onResponse toLowerCase m response !! u = m !! u.
Proof.
  unfold onResponse. cbv zeta.
  destruct (isImageUrl toLowerCase (seen_url response)) eqn:E; [|reflexivity].
  intros [H|H]; [|discriminate]. apply lookup_insert_ne, H.
Qed.

Lemma intercept_other responses u :
  Forall (fun x => seen_url x <> u
                   \/ isImageUrl toLowerCase (seen_url x) = false) responses ->
  forall m, fold_left (onResponse toLowerCase) responses m !! u = m !! u.
Proof.
  induction 1 as [|x responses Hx _ IH]; intros m; [reflexivity|].
  cbn [fold_left]. rewrite IH. apply onResponse_other, Hx.
Qed.

End InterceptionFacts.

(** X29.  [detectPlatform] never throws and answers [shopify] or
    [bigcommerce].  It answers [bigcommerce] exactly when the page
    shows a BigCommerce indicator and no Shopify indicator, or shows
    neither and its URL contains [bigcommerce] and not [shopify]; when
    the indicators or the URL cannot be read it answers [shopify].  A
    URL that contains [myshopify.com] contains [shopify], so the
    second test on the URL never decides. *)
Theorem detectPlatform_decision (b : Runner.Session) :
  (forall (S : Type) (s : S),
     Runner.detectPlatform b s = (Normal (Spec.detectedPlatform b), s))
  /\ (Spec.detectedPlatform b = lit "bigcommerce"
      <-> Runner.indicators b = Normal (false, true)
          \/ (Runner.indicators b = Normal (false, false)
              /\ exists url,
                   Runner.currentUrl b = Normal url
                   /\ includes url (lit "shopify") = false
                   /\ includes url (lit "bigcommerce") = true))
  /\ (Spec.detectedPlatform b <> lit "bigcommerce" ->
      Spec.detectedPlatform b = lit "shopify")
  /\ (forall url,
        includes url (lit "myshopify.com") = true ->
        includes url (lit "shopify") = true).
Proof.
  split; [intros S s; apply detectPlatform_eq|].
  assert (Hsub : forall url,
            includes url (lit "myshopify.com") = true ->
            includes url (lit "shopify") = true).
  { intros url. rewrite !includes_occurs. intros (a & c & ->).
    exists (a ++ lit "my"), (lit ".com" ++ c).
    rewrite <- !app_assoc. reflexivity. }
  unfold Spec.detectedPlatform, Runner.call, Runner.detectPlatform,
    try_catch, bind, await, ret.
  destruct (Runner.indicators b) as [[sh bc]|e]; cbn [fst snd].
  - destruct sh; cbn [fst snd].
    + repeat split; try (intros _; reflexivity); try exact Hsub.
      * intros H; discriminate H.
      * intros [H|(H & _)]; discriminate H.
    + destruct bc; cbn [fst snd].
      * repeat split; auto; try exact Hsub.
        intros H. destruct (H eq_refl).
      * destruct (Runner.currentUrl b) as [u|e]; cbn [fst snd].
        -- destruct (includes u (lit "shopify")) eqn:Es; cbn [orb fst snd].
           ++ repeat split; try (intros _; reflexivity); try exact Hsub.
              ** intros H; discriminate H.
              ** intros [H|(_ & url & [= <-] & H & _)]; [discriminate H|].
                 congruence.
           ++ destruct (includes u (lit "myshopify.com")) eqn:Em;
                [rewrite (Hsub u Em) in Es; discriminate Es|].
              cbn [fst snd].
              destruct (includes u (lit "bigcommerce")) eqn:Eb; cbn [fst snd].
              ** repeat split; auto; try exact Hsub.
                 --- intros _. right. split; [reflexivity|]. exists u. auto.
                 --- intros H. destruct (H eq_refl).
              ** repeat split; try (intros _; reflexivity); try exact Hsub.
                 --- intros H; discriminate H.
                 --- intros [H|(_ & url & [= <-] & _ & H)]; [discriminate H|].
                     congruence.
        -- repeat split; try (intros _; reflexivity); try exact Hsub.
           ++ intros H; discriminate H.
           ++ intros [H|(_ & url & H & _)]; discriminate H.
  - repeat split; try (intros _; reflexivity); try exact Hsub.
    + intros H; discriminate H.
    + intros [H|(H & _)]; discriminate H.
Qed.

(** X29 on a store address under [myshopify.com]. *)
Lemma detectPlatform_decision_witness :
  includes (lit "https://linen.myshopify.com/products/shirt") (lit "shopify")
  = true.
Proof.
  apply (proj2 (proj2 (proj2 (detectPlatform_decision Examples.shopSession)))).
  vm_compute; reflexivity.
Defined.

(** X30.  The responses [validate] keeps.  The listener stores a
    response only under a URL that [isImageUrl] accepts, and a later
    response for a URL replaces the earlier one.  An image whose
    [src] and [currentSrc] are not accepted is therefore never judged
    by an intercepted response: it counts as loaded by the DOM signal
    or else by the probe. *)
Theorem intercepted_responses
    (toLowerCase : jsstring -> jsstring)
    (earlier later : list Interception.Seen) (url : jsstring) (status : Z)
    (page : ImageValidator.Page) (img : ImageValidator.Img) :
  (Interception.isImageUrl toLowerCase url = false ->
   Interception.intercept toLowerCase earlier !! url = None)
  /\ (Interception.isImageUrl toLowerCase url = true ->
      Forall (fun x => Interception.seen_url x <> url) later ->
      Interception.intercept toLowerCase
        (earlier ++ Interception.mkSeen url status :: later) !! url
      = Some (ImageValidator.mkResponse status url))
  /\ (Interception.isImageUrl toLowerCase (ImageValidator.src img) = false ->
      Interception.isImageUrl toLowerCase (ImageValidator.currentSrc img) = false ->
      Pictures.countsAsLoaded page (Interception.intercept toLowerCase earlier) img
      = (ImageValidator.complete img
         && (0 <? ImageValidator.width img)%Z
         && (0 <? ImageValidator.height img)%Z)
        || Pictures.probeSucceeds
             (ImageValidator.fetchHead page
                (ImageValidator.strOr (ImageValidator.src img)
                   (ImageValidator.currentSrc img)))).
Proof.
  assert (Hnone : forall u,
            Interception.isImageUrl toLowerCase u = false ->
            Interception.intercept toLowerCase earlier !! u = None).
  { intros u Hu. unfold Interception.intercept.
    rewrite intercept_other; [apply lookup_empty|].
    apply List.Forall_forall. intros x _.
    destruct (decide (Interception.seen_url x = u)) as [->|Hne]; auto. }
  split; [apply Hnone|]. split.
  - intros Hu Hlater. unfold Interception.intercept.
    rewrite fold_left_app. cbn [fold_left].
    rewrite intercept_other.
    + unfold Interception.onResponse. cbn [Interception.seen_url
        Interception.seen_status]. rewrite Hu. apply lookup_insert_eq.
    + eapply List.Forall_impl; [|exact Hlater]. intros x Hx. left. exact Hx.
  - intros Hs Hc. unfold Pictures.countsAsLoaded, ImageValidator.lookupResponse.
    rewrite (Hnone _ Hs), (Hnone _ Hc).
    destruct (ImageValidator.complete img && _ && _); reflexivity.
Qed.

(** X30 on a picture requested twice and a picture served by id. *)
Lemma intercepted_responses_witness :
  Interception.intercept Spec.asciiToLowerCase
    ([Interception.mkSeen (lit "https://shop.example/app.js") 404;
      Interception.mkSeen (lit "https://shop.example/hero.jpg") 404]
     ++ Interception.mkSeen (lit "https://shop.example/hero.jpg") 200 :: [])
    !! lit "https://shop.example/hero.jpg"
  = Some (ImageValidator.mkResponse 200 (lit "https://shop.example/hero.jpg"))
  /\ Pictures.countsAsLoaded Examples.lazyPage
       (Interception.intercept Spec.asciiToLowerCase Interception.traffic)
       Interception.servedById
     = false.
Proof.
  split.
  - apply (proj1 (proj2 (intercepted_responses Spec.asciiToLowerCase
                           [Interception.mkSeen (lit "https://shop.example/app.js") 404;
                            Interception.mkSeen (lit "https://shop.example/hero.jpg") 404]
                           [] (lit "https://shop.example/hero.jpg") 200
                           Examples.lazyPage Interception.servedById))).
    + vm_compute; reflexivity.
    + constructor.
  - rewrite (proj2 (proj2 (intercepted_responses Spec.asciiToLowerCase
                             Interception.traffic []
                             [] 0%Z Examples.lazyPage Interception.servedById)));
      vm_compute; reflexivity.
Defined.

(* ===================================================================== *)
(** * Further concrete instances *)
(* ===================================================================== *)

(** X1 on two console warnings under the default tolerance. *)
Lemma verdict_from_event_counts_witness :
  ErrorDetector.passed
    (Spec.finalized Spec.asciiToLowerCase ErrorDetector.defaultTolerance
       Examples.noMetrics
       (ErrorDetector.listen (Examples.consoleWarnings 2) ErrorDetector.initial))
  = true.
Proof.
  apply (proj2 (proj2 (verdict_from_event_counts Spec.asciiToLowerCase
                         ErrorDetector.defaultTolerance Examples.noMetrics
                         (Examples.consoleWarnings 2)))).
  vm_compute. split; intros H; discriminate H.
Defined.

(** X12 on a page whose images cannot be listed. *)
Lemma validate_rejects_with_first_listing_witness :
  Spec.audit 0 Pages.closedPage = Throw Pages.detached.
Proof.
  apply (proj2 (validate_rejects_with_first_listing 0 Pages.closedPage
                  Pages.detached)).
  reflexivity.
Defined.

(** X22 on a batch without results. *)
Lemma summary_counts_witness :
  Reporter.overallStatus (Reporter.jsonSummary []) = lit "PASSED".
Proof.
  apply (proj2 (proj1 (proj2 (summary_counts [])))).
  reflexivity.
Defined.

(** X2 on a request blocked by the CORS policy and on a request that
    failed for another reason. *)
Lemma failed_request_never_changes_verdict_witness :
  ErrorDetector.corsErrors
    (ErrorDetector.handle ErrorDetector.initial
       (ErrorDetector.RequestFailed (lit "https://api.example/stock")
          (lit "GET") (Some (lit "blocked by CORS policy"))))
  = [Signals.failedRequest (lit "https://api.example/stock") (lit "GET")
       (Some (lit "blocked by CORS policy"))]
  /\ ErrorDetector.networkFailures
       (ErrorDetector.handle ErrorDetector.initial
          (ErrorDetector.RequestFailed (lit "https://api.example/stock")
             (lit "GET") (Some (lit "net::ERR_FAILED"))))
     = [Signals.failedRequest (lit "https://api.example/stock") (lit "GET")
          (Some (lit "net::ERR_FAILED"))].
Proof.
  split.
  - apply (proj1 (proj2 (proj1 (failed_request_never_changes_verdict
             Spec.asciiToLowerCase ErrorDetector.defaultTolerance
             Examples.noMetrics ErrorDetector.initial [] []
             (lit "https://api.example/stock") (lit "GET")
             (Some (lit "blocked by CORS policy"))) ErrorDetector.initial))).
    vm_compute; reflexivity.
  - apply (proj1 (proj2 (proj2 (proj1 (failed_request_never_changes_verdict
             Spec.asciiToLowerCase ErrorDetector.defaultTolerance
             Examples.noMetrics ErrorDetector.initial [] []
             (lit "https://api.example/stock") (lit "GET")
             (Some (lit "net::ERR_FAILED"))) ErrorDetector.initial)))).
    vm_compute; reflexivity.
Defined.
